(** * Smart-Home IoT simulation: sensors, devices, gateway and automation rules

    A shallow embedding of [js/sensors.js], [js/devices.js],
    [js/iot-gateway.js] and [js/automation.js].

    Conventions of the embedding.
    - A JavaScript Number is an IEEE-754 binary64 value, modelled with the
      standard library's [spec_float] (signed zeros, infinities, NaN and
      correctly rounded arithmetic included).  Integer-valued counters and
      timestamps that only ever hold small integers ([triggerCount],
      [noMotionDuration], [Date.now()]) are modelled in [Z], where doubles
      are exact.
    - Every object is a record; a method is a function taking [this] and the
      part of the heap it touches (the gateway singleton) and returning both.
    - [Date.now()] is the parameter [now] of each call.
    - A JavaScript [Map] is an association list in insertion order. *)

From Stdlib Require Import ZArith List String Bool Lia PeanoNat.
From Stdlib Require Import Floats.SpecFloat.
Import ListNotations.

Local Open Scope string_scope.
Local Open Scope list_scope.

(** ** Numbers *)

Module Num.

Definition number : Type := spec_float.

Definition prec : Z := 53.
Definition emax : Z := 1024.

(** The literal of an integer. *)
Definition of_Z (z : Z) : number := binary_normalize prec emax z 0 false.

Definition NaN : number := S754_nan.
Definition pzero : number := S754_zero false.

Definition add : number -> number -> number := SFadd prec emax.
Definition sub : number -> number -> number := SFsub prec emax.
Definition mul : number -> number -> number := SFmul prec emax.
Definition div : number -> number -> number := SFdiv prec emax.

(** The decimal literal [n/10] (one fractional digit), which the parser
    rounds to nearest exactly as the division does. *)
Definition tenths (n : Z) : number := div (of_Z n) (of_Z 10).

Definition ltb : number -> number -> bool := SFltb.
Definition leb : number -> number -> bool := SFleb.
Definition eqb : number -> number -> bool := SFeqb.

Definition isNaN (x : number) : bool :=
  match x with S754_nan => true | _ => false end.
Definition is_pzero (x : number) : bool :=
  match x with S754_zero false => true | _ => false end.
Definition is_nzero (x : number) : bool :=
  match x with S754_zero true => true | _ => false end.
Definition is_zero (x : number) : bool :=
  match x with S754_zero _ => true | _ => false end.

(** [Math.max(a, b)] (ECMA-262 21.3.2.24): NaN if either argument is NaN;
    the running maximum starts at [a] and is replaced by [b] when [b] is
    [+0] against [-0], or when [b] is greater. *)
Definition Math_max (a b : number) : number :=
  if isNaN a || isNaN b then NaN
  else if (is_pzero b && is_nzero a) || ltb a b then b
  else a.

(** [Math.min(a, b)] (ECMA-262 21.3.2.25), symmetric. *)
Definition Math_min (a b : number) : number :=
  if isNaN a || isNaN b then NaN
  else if (is_nzero b && is_pzero a) || ltb b a then b
  else a.

End Num.

Export Num.

(** Arithmetic is evaluated on demand, never by [simpl]. *)
Arguments of_Z : simpl never.
Arguments tenths : simpl never.
Arguments add : simpl never.
Arguments sub : simpl never.
Arguments mul : simpl never.
Arguments div : simpl never.

(** ** Values held by sensors: numbers and booleans *)

Inductive jsval : Type :=
| JNum (n : number)
| JBool (b : bool).

(** [ToNumber] (ECMA-262 7.1.4). *)
Definition ToNumber (v : jsval) : number :=
  match v with
  | JNum n => n
  | JBool true => of_Z 1
  | JBool false => pzero
  end.

(** [ToBoolean] (ECMA-262 7.1.2): a number is falsy when it is zero or NaN. *)
Definition ToBoolean (v : jsval) : bool :=
  match v with
  | JBool b => b
  | JNum n => negb (is_zero n || isNaN n)
  end.

(** [a && b] yields [a] when [a] is falsy and [b] otherwise. *)
Definition js_and (a b : jsval) : jsval :=
  if ToBoolean a then b else a.

(** [!a]. *)
Definition js_not (a : jsval) : jsval := JBool (negb (ToBoolean a)).

(** ** A JavaScript [Map] with string keys, in insertion order *)

Module JSMap.
Section WithValue.
Context {V : Type}.

Definition t : Type := list (string * V).

Fixpoint get (k : string) (m : t) : option V :=
  match m with
  | [] => None
  | (k', v) :: m' => if String.eqb k' k then Some v else get k m'
  end.

Definition has (k : string) (m : t) : bool :=
  match get k m with Some _ => true | None => false end.

(** [set] overwrites in place an existing key and appends a new one. *)
Fixpoint set (k : string) (v : V) (m : t) : t :=
  match m with
  | [] => [(k, v)]
  | (k', v') :: m' =>
      if String.eqb k' k then (k, v) :: m' else (k', v') :: set k v m'
  end.

Fixpoint delete (k : string) (m : t) : t :=
  match m with
  | [] => []
  | (k', v') :: m' =>
      if String.eqb k' k then m' else (k', v') :: delete k m'
  end.

Definition values (m : t) : list V := map snd m.
Definition keys (m : t) : list string := map fst m.
End WithValue.
Arguments t : clear implicits.
End JSMap.

(** [Array.prototype.includes] on an array of strings. *)
Definition includes (l : list string) (s : string) : bool :=
  existsb (String.eqb s) l.

(** [arr.push(x)] followed by [if (arr.length > cap) arr.shift()]. *)
Definition push_capped {A : Type} (cap : nat) (arr : list A) (x : A) : list A :=
  let arr1 := arr ++ [x] in
  if Nat.ltb cap (List.length arr1) then List.tl arr1 else arr1.

(** ** Message payloads

    One constructor per object literal passed to [publish]; the fields are
    the keys of the literal.  A [reason] is a template string; it is kept as
    its template and the interpolated value, not as formatted text. *)

Inductive Reason : Type :=
| ReasonTemperatureMotion (temperature : number)
| ReasonNoMotion (thresholdMinutes : Z)
| ReasonAmbientMotion (lux : number)
| ReasonHumidity (humidity : number).

Inductive Payload : Type :=
| DeviceState (id name : string) (isOn : bool) (power : number)
| DeviceBrightness (id : string) (brightness : number)
| DeviceMode (id mode : string)
| DeviceTargetTemp (id : string) (targetTemperature : number)
| SensorReading (id name : string) (value : number) (unit : string) (timestamp : Z)
| MotionReading (id name : string) (value detected : jsval) (timestamp : Z)
| AutomationTriggered (rule action : string) (reason : Reason)
| DeviceRegistered (deviceId name : string)
| SensorRegistered (sensorId name : string).

(** References to the objects of the two global tables [devices] and
    [sensors]; the gateway's registries hold such references, not copies. *)

Inductive DevRef : Type :=
| dev_light1 | dev_light2 | dev_light3 | dev_ac | dev_waterHeater.

Inductive SenRef : Type :=
| sen_temperature | sen_motion | sen_humidity | sen_power | sen_distance | sen_light.

(** ** The gateway ([js/iot-gateway.js]) *)

Module IoTGateway.

Record LogEntry : Type := mkLogEntry
  { topic : string; message : Payload; timestamp : Z }.

(** A subscriber callback is opaque: calling it is recorded as the event
    [(callback, message, topic)].  The only subscriber the application
    installs prints to the console. *)
Definition Callback : Type := nat.
Definition Call : Type := (Callback * Payload * string)%type.

Record t : Type := mk
  { subscribers : JSMap.t (list Callback);
    devices : JSMap.t DevRef;
    sensors : JSMap.t SenRef;
    messageLog : list LogEntry;
    calls : list Call }.

Definition constructor : t :=
  {| subscribers := []; devices := []; sensors := [];
     messageLog := []; calls := [] |}.

Definition set_messageLog (l : list LogEntry) (g : t) : t :=
  {| subscribers := subscribers g; devices := devices g;
     sensors := sensors g; messageLog := l; calls := calls g |}.

Definition set_subscribers (s : JSMap.t (list Callback)) (g : t) : t :=
  {| subscribers := s; devices := devices g;
     sensors := sensors g; messageLog := messageLog g; calls := calls g |}.

Definition set_devices (d : JSMap.t DevRef) (g : t) : t :=
  {| subscribers := subscribers g; devices := d;
     sensors := sensors g; messageLog := messageLog g; calls := calls g |}.

Definition set_sensors (s : JSMap.t SenRef) (g : t) : t :=
  {| subscribers := subscribers g; devices := devices g;
     sensors := s; messageLog := messageLog g; calls := calls g |}.

(** [subscribers.get(key).forEach(callback => callback(message, topic))]
    when the key is present. *)
Definition notify (key : string) (message : Payload) (topic : string) (g : t) : t :=
  match JSMap.get key (subscribers g) with
  | Some cbs =>
      {| subscribers := subscribers g; devices := devices g;
         sensors := sensors g; messageLog := messageLog g;
         calls := calls g ++ map (fun cb => (cb, message, topic)) cbs |}
  | None => g
  end.

Definition subscribe (topic : string) (callback : Callback) (g : t) : t :=
  let subs :=
    if JSMap.has topic (subscribers g) then subscribers g
    else JSMap.set topic [] (subscribers g) in
  match JSMap.get topic subs with
  | Some cbs => set_subscribers (JSMap.set topic (cbs ++ [callback]) subs) g
  | None => set_subscribers subs g
  end.

Definition publish (now : Z) (topic : string) (message : Payload) (g : t) : t :=
  let logEntry := mkLogEntry topic message now in
  let g1 := set_messageLog (push_capped 100 (messageLog g) logEntry) g in
  let g2 := notify topic message topic g1 in
  notify "*" message topic g2.

Definition getMessageLog (g : t) : list LogEntry :=
  skipn (List.length (messageLog g) - 20) (messageLog g).

End IoTGateway.

(** ** Sensors ([js/sensors.js])

    [simulate()] draws from [Math.random] and the wall clock and hands its
    result to [setValue], the only writer of [value] and [history]; it and
    the private fields it uses are left out. *)

Module Sensor.

Record Reading (V : Type) : Type := mkReading
  { r_value : V; r_timestamp : Z }.
Arguments mkReading {V}.
Arguments r_value {V}.
Arguments r_timestamp {V}.

(** The base class.  [V] is the type of [value]: [number] for the sensors
    that keep the inherited [setValue], whose result is always a Number,
    and [jsval] for the motion sensor, which stores its argument as is.
    [gateway] is [false] for [null] and [true] for a reference to the
    gateway singleton. *)
Record t (V : Type) : Type := mk
  { id : string;
    name : string;
    unit : string;
    minValue : number;
    maxValue : number;
    value : V;
    history : list (Reading V);
    gateway : bool;
    updateInterval : Z }.
Arguments mk {V}.
Arguments id {V}.
Arguments name {V}.
Arguments unit {V}.
Arguments minValue {V}.
Arguments maxValue {V}.
Arguments value {V}.
Arguments history {V}.
Arguments gateway {V}.
Arguments updateInterval {V}.

(** [constructor(id, name, unit, minValue, maxValue)]. *)
Definition constructor (id name unit : string) (minValue maxValue : number) : t number :=
  {| id := id; name := name; unit := unit;
     minValue := minValue; maxValue := maxValue;
     value := div (add minValue maxValue) (of_Z 2);
     history := []; gateway := false; updateInterval := 2000 |}.

Definition set_value {V W : Type} (v : W) (h : list (Reading W)) (this : t V) : t W :=
  {| id := id this; name := name this; unit := unit this;
     minValue := minValue this; maxValue := maxValue this;
     value := v; history := h;
     gateway := gateway this; updateInterval := updateInterval this |}.

Definition set_gateway {V : Type} (g : bool) (this : t V) : t V :=
  {| id := id this; name := name this; unit := unit this;
     minValue := minValue this; maxValue := maxValue this;
     value := value this; history := history this;
     gateway := g; updateInterval := updateInterval this |}.

(** [Sensor.prototype.setValue]. *)
Definition setValue (now : Z) (newValue : jsval) (this : t number)
    (gw : IoTGateway.t) : t number * IoTGateway.t :=
  let v := Math_max (minValue this) (Math_min (maxValue this) (ToNumber newValue)) in
  let h := push_capped 60 (history this) (mkReading v now) in
  let this' := set_value v h this in
  if gateway this' then
    (this',
     IoTGateway.publish now ("sensor/" ++ id this' ++ "/reading")
       (SensorReading (id this') (name this') (value this') (unit this') now) gw)
  else (this', gw).

(** [getState().history], the last twenty readings. *)
Definition getState_history {V : Type} (this : t V) : list (Reading V) :=
  skipn (List.length (history this) - 20) (history this).

End Sensor.

Module MotionSensor.

Abbreviation t := (Sensor.t jsval).

Definition constructor : t :=
  Sensor.set_value (JBool false) [] (Sensor.constructor "motion" "Motion" "" (of_Z 0) (of_Z 1)).

(** [MotionSensor.prototype.setValue], which overrides the inherited one:
    no clamping and no history entry. *)
Definition setValue (now : Z) (detected : jsval) (this : t)
    (gw : IoTGateway.t) : t * IoTGateway.t :=
  let this' := Sensor.set_value detected (Sensor.history this) this in
  if Sensor.gateway this' then
    (this',
     IoTGateway.publish now ("sensor/" ++ Sensor.id this' ++ "/reading")
       (MotionReading (Sensor.id this') (Sensor.name this')
          (Sensor.value this') (Sensor.value this') now) gw)
  else (this', gw).

End MotionSensor.

(** The five sensors that keep the inherited [setValue]. *)
Definition TemperatureSensor : Sensor.t number :=
  Sensor.set_value (of_Z 25) []
    (Sensor.constructor "temperature" "Temperature" "Â°C" (of_Z 15) (of_Z 40)).
Definition HumiditySensor : Sensor.t number :=
  Sensor.set_value (of_Z 50) []
    (Sensor.constructor "humidity" "Humidity" "%" (of_Z 20) (of_Z 80)).
Definition PowerSensor : Sensor.t number :=
  Sensor.set_value (of_Z 0) []
    (Sensor.constructor "power" "Power Consumption" "W" (of_Z 0) (of_Z 5000)).
Definition DistanceSensor : Sensor.t number :=
  Sensor.set_value (of_Z 200) []
    (Sensor.constructor "distance" "Distance" "cm" (of_Z 0) (of_Z 500)).
Definition LightSensor : Sensor.t number :=
  Sensor.set_value (of_Z 300) []
    (Sensor.constructor "light" "Ambient Light" "lux" (of_Z 0) (of_Z 1000)).

(** The global table [sensors]. *)
Record Sensors : Type := mkSensors
  { temperature : Sensor.t number;
    motion : MotionSensor.t;
    humidity : Sensor.t number;
    power : Sensor.t number;
    distance : Sensor.t number;
    light : Sensor.t number }.

(** ** Devices ([js/devices.js]) *)

Module Device.

(** The class of an object: the base class and its three subclasses. *)
Inductive Class : Type := CDevice | CLight | CAirConditioner | CWaterHeater.

Record LightFields : Type := mkLight
  { brightness : number }.

Record AirConditionerFields : Type := mkAirConditioner
  { mode : string; targetTemperature : number; fanSpeed : string }.

Record WaterHeaterFields : Type := mkWaterHeater
  { wh_targetTemperature : number; currentWaterTemp : number; isHeating : bool }.

(** The fields a subclass constructor adds. *)
Definition Own (c : Class) : Type :=
  match c with
  | CDevice => unit
  | CLight => LightFields
  | CAirConditioner => AirConditionerFields
  | CWaterHeater => WaterHeaterFields
  end.

(** [gateway] is [false] for [null] and [true] for a reference to the
    gateway singleton. *)
Record t (c : Class) : Type := mk
  { id : string;
    name : string;
    isOn : bool;
    maxPowerWatts : number;
    gateway : bool;
    own : Own c }.
Arguments mk {c}.
Arguments id {c}.
Arguments name {c}.
Arguments isOn {c}.
Arguments maxPowerWatts {c}.
Arguments gateway {c}.
Arguments own {c}.

Definition constructor (id name : string) (maxPowerWatts : number) : t CDevice :=
  mk (c := CDevice) id name false maxPowerWatts false tt.

(** [super(...)] followed by the subclass's own assignments. *)
Definition extend {c : Class} (base : t CDevice) (o : Own c) : t c :=
  mk (c := c) (id base) (name base) (isOn base) (maxPowerWatts base) (gateway base) o.

Definition set_isOn {c : Class} (b : bool) (this : t c) : t c :=
  mk (id this) (name this) b (maxPowerWatts this) (gateway this) (own this).

Definition set_gateway {c : Class} (g : bool) (this : t c) : t c :=
  mk (id this) (name this) (isOn this) (maxPowerWatts this) g (own this).

Definition set_own {c : Class} (o : Own c) (this : t c) : t c :=
  mk (c := c) (id this) (name this) (isOn this) (maxPowerWatts this) (gateway this) o.

(** The object literal [modeMultiplier] of the air conditioner. *)
Definition modeMultiplier : JSMap.t number :=
  [ ("cool", of_Z 1); ("heat", tenths 12); ("auto", tenths 8); ("fan", tenths 1) ].

(** [modeMultiplier[mode] || 1] evaluates its right operand exactly when
    the lookup is undefined or falsy.  The lookup is over the literal's own
    keys: the names an object literal inherits from [Object.prototype]
    (such as [toString]) are not keys of this table; [setMode] stores none
    of them in [mode]. *)
Definition multiplier_defaulted (mode : string) : bool :=
  match JSMap.get mode modeMultiplier with
  | Some m => negb (ToBoolean (JNum m))
  | None => true
  end.

Definition multiplier (mode : string) : number :=
  match JSMap.get mode modeMultiplier with
  | Some m => if ToBoolean (JNum m) then m else of_Z 1
  | None => of_Z 1
  end.

(** [getCurrentPowerConsumption()], dispatched on the class of [this]. *)
Definition getCurrentPowerConsumption {c : Class} : t c -> number :=
  match c return t c -> number with
  | CDevice => fun this =>
      if isOn this then maxPowerWatts this else of_Z 0
  | CLight => fun this =>
      if negb (isOn this) then of_Z 0
      else div (mul (maxPowerWatts this) (brightness (own this))) (of_Z 100)
  | CAirConditioner => fun this =>
      if negb (isOn this) then of_Z 0
      else mul (maxPowerWatts this) (multiplier (mode (own this)))
  | CWaterHeater => fun this =>
      if negb (isOn this) then of_Z 0
      else if isHeating (own this) then maxPowerWatts this else of_Z 50
  end.

Definition onStateChange {c : Class} (now : Z) (this : t c) (gw : IoTGateway.t)
    : IoTGateway.t :=
  if gateway this then
    IoTGateway.publish now ("device/" ++ id this ++ "/state")
      (DeviceState (id this) (name this) (isOn this) (getCurrentPowerConsumption this)) gw
  else gw.

Definition turnOn {c : Class} (now : Z) (this : t c) (gw : IoTGateway.t)
    : t c * IoTGateway.t :=
  if negb (isOn this) then
    let this' := set_isOn true this in
    (this', onStateChange now this' gw)
  else (this, gw).

Definition turnOff {c : Class} (now : Z) (this : t c) (gw : IoTGateway.t)
    : t c * IoTGateway.t :=
  if isOn this then
    let this' := set_isOn false this in
    (this', onStateChange now this' gw)
  else (this, gw).

Definition toggle {c : Class} (now : Z) (this : t c) (gw : IoTGateway.t)
    : t c * IoTGateway.t :=
  if isOn this then turnOff now this gw else turnOn now this gw.

End Device.

Module Light.

Abbreviation t := (Device.t Device.CLight).

Definition brightness (this : t) : number := Device.brightness (Device.own this).

Definition constructor (id name : string) : t :=
  Device.extend (c := Device.CLight)
    (Device.constructor id name (of_Z 60)) (Device.mkLight (of_Z 100)).

Definition setBrightness (now : Z) (level : number) (this : t) (gw : IoTGateway.t)
    : t * IoTGateway.t :=
  let this' :=
    Device.set_own (c := Device.CLight)
      (Device.mkLight (Math_max (of_Z 0) (Math_min (of_Z 100) level))) this in
  if Device.gateway this' then
    (this',
     IoTGateway.publish now ("device/" ++ Device.id this' ++ "/brightness")
       (DeviceBrightness (Device.id this') (brightness this')) gw)
  else (this', gw).

End Light.

Module AirConditioner.

Abbreviation t := (Device.t Device.CAirConditioner).

Definition mode (this : t) : string := Device.mode (Device.own this).
Definition targetTemperature (this : t) : number :=
  Device.targetTemperature (Device.own this).
Definition fanSpeed (this : t) : string := Device.fanSpeed (Device.own this).

Definition constructor (id name : string) : t :=
  Device.extend (c := Device.CAirConditioner) (Device.constructor id name (of_Z 1500))
    (Device.mkAirConditioner "cool" (of_Z 24) "auto").

Definition validModes : list string := ["cool"; "heat"; "auto"; "fan"].
Definition validSpeeds : list string := ["low"; "medium"; "high"; "auto"].

Definition setMode (now : Z) (mode' : string) (this : t) (gw : IoTGateway.t)
    : t * IoTGateway.t :=
  if includes validModes mode' then
    let this' :=
      Device.set_own (c := Device.CAirConditioner)
        (Device.mkAirConditioner mode' (targetTemperature this) (fanSpeed this)) this in
    if Device.gateway this' then
      (this',
       IoTGateway.publish now ("device/" ++ Device.id this' ++ "/mode")
         (DeviceMode (Device.id this') (mode this')) gw)
    else (this', gw)
  else (this, gw).

Definition setTargetTemperature (now : Z) (temp : number) (this : t) (gw : IoTGateway.t)
    : t * IoTGateway.t :=
  let this' :=
    Device.set_own (c := Device.CAirConditioner)
      (Device.mkAirConditioner (mode this)
         (Math_max (of_Z 16) (Math_min (of_Z 30) temp)) (fanSpeed this)) this in
  if Device.gateway this' then
    (this',
     IoTGateway.publish now ("device/" ++ Device.id this' ++ "/target-temp")
       (DeviceTargetTemp (Device.id this') (targetTemperature this')) gw)
  else (this', gw).

(** [setFanSpeed] has no [publish] call. *)
Definition setFanSpeed (speed : string) (this : t) (gw : IoTGateway.t)
    : t * IoTGateway.t :=
  if includes validSpeeds speed then
    (Device.set_own (c := Device.CAirConditioner)
       (Device.mkAirConditioner (mode this) (targetTemperature this) speed) this,
     gw)
  else (this, gw).

End AirConditioner.

Module WaterHeater.

Abbreviation t := (Device.t Device.CWaterHeater).

Definition targetTemperature (this : t) : number :=
  Device.wh_targetTemperature (Device.own this).
Definition currentWaterTemp (this : t) : number :=
  Device.currentWaterTemp (Device.own this).
Definition isHeating (this : t) : bool := Device.isHeating (Device.own this).

Definition constructor (id name : string) : t :=
  Device.extend (c := Device.CWaterHeater) (Device.constructor id name (of_Z 2000))
    (Device.mkWaterHeater (of_Z 50) (of_Z 25) false).

Definition setTargetTemperature (now : Z) (temp : number) (this : t) (gw : IoTGateway.t)
    : t * IoTGateway.t :=
  let this' :=
    Device.set_own (c := Device.CWaterHeater)
      (Device.mkWaterHeater (Math_max (of_Z 30) (Math_min (of_Z 70) temp))
         (currentWaterTemp this) (isHeating this)) this in
  if Device.gateway this' then
    (this',
     IoTGateway.publish now ("device/" ++ Device.id this' ++ "/target-temp")
       (DeviceTargetTemp (Device.id this') (targetTemperature this')) gw)
  else (this', gw).

Definition update (this : t) : t :=
  if Device.isOn this then
    if ltb (currentWaterTemp this) (targetTemperature this) then
      Device.set_own (c := Device.CWaterHeater)
        (Device.mkWaterHeater (targetTemperature this)
           (add (currentWaterTemp this) (tenths 5)) true) this
    else
      Device.set_own (c := Device.CWaterHeater)
        (Device.mkWaterHeater (targetTemperature this) (currentWaterTemp this) false) this
  else
    let temp :=
      if ltb (of_Z 25) (currentWaterTemp this)
      then sub (currentWaterTemp this) (tenths 1)
      else currentWaterTemp this in
    Device.set_own (c := Device.CWaterHeater)
      (Device.mkWaterHeater (targetTemperature this) temp false) this.

End WaterHeater.

(** The global table [devices]. *)
Record Devices : Type := mkDevices
  { light1 : Light.t;
    light2 : Light.t;
    light3 : Light.t;
    ac : AirConditioner.t;
    waterHeater : WaterHeater.t }.

Definition initial_devices : Devices :=
  {| light1 := Light.constructor "light1" "Living Room Light";
     light2 := Light.constructor "light2" "Bedroom Light";
     light3 := Light.constructor "light3" "Kitchen Light";
     ac := AirConditioner.constructor "ac" "Air Conditioner";
     waterHeater := WaterHeater.constructor "waterHeater" "Water Heater" |}.

Definition initial_sensors : Sensors :=
  {| temperature := TemperatureSensor;
     motion := MotionSensor.constructor;
     humidity := HumiditySensor;
     power := PowerSensor;
     distance := DistanceSensor;
     light := LightSensor |}.

(** A device of any class, as the registry sees it. *)
Definition AnyDevice : Type := { c : Device.Class & Device.t c }.

Definition device_at (r : DevRef) (ds : Devices) : AnyDevice :=
  match r with
  | dev_light1 => existT _ _ (light1 ds)
  | dev_light2 => existT _ _ (light2 ds)
  | dev_light3 => existT _ _ (light3 ds)
  | dev_ac => existT _ _ (ac ds)
  | dev_waterHeater => existT _ _ (waterHeater ds)
  end.

Definition any_power (d : AnyDevice) : number :=
  Device.getCurrentPowerConsumption (projT2 d).

(** ** The global state: the tables [sensors] and [devices] and the
    [gateway] singleton *)

Record Home : Type := mkHome
  { sensors : Sensors;
    devices : Devices;
    gateway : IoTGateway.t }.

Definition set_devices (ds : Devices) (h : Home) : Home :=
  {| sensors := sensors h; devices := ds; gateway := gateway h |}.
Definition set_sensors (ss : Sensors) (h : Home) : Home :=
  {| sensors := ss; devices := devices h; gateway := gateway h |}.
Definition set_gateway (g : IoTGateway.t) (h : Home) : Home :=
  {| sensors := sensors h; devices := devices h; gateway := g |}.

Definition set_light1 (d : Light.t) (ds : Devices) : Devices :=
  {| light1 := d; light2 := light2 ds; light3 := light3 ds;
     ac := ac ds; waterHeater := waterHeater ds |}.
Definition set_light2 (d : Light.t) (ds : Devices) : Devices :=
  {| light1 := light1 ds; light2 := d; light3 := light3 ds;
     ac := ac ds; waterHeater := waterHeater ds |}.
Definition set_light3 (d : Light.t) (ds : Devices) : Devices :=
  {| light1 := light1 ds; light2 := light2 ds; light3 := d;
     ac := ac ds; waterHeater := waterHeater ds |}.
Definition set_ac (d : AirConditioner.t) (ds : Devices) : Devices :=
  {| light1 := light1 ds; light2 := light2 ds; light3 := light3 ds;
     ac := d; waterHeater := waterHeater ds |}.
Definition set_waterHeater (d : WaterHeater.t) (ds : Devices) : Devices :=
  {| light1 := light1 ds; light2 := light2 ds; light3 := light3 ds;
     ac := ac ds; waterHeater := d |}.

(** A method of [devices.light1] run against the global state, and likewise
    for the other objects. *)
Definition on_light1 (f : Light.t -> IoTGateway.t -> Light.t * IoTGateway.t) (h : Home) : Home :=
  let '(d, g) := f (light1 (devices h)) (gateway h) in
  {| sensors := sensors h; devices := set_light1 d (devices h); gateway := g |}.
Definition on_light2 (f : Light.t -> IoTGateway.t -> Light.t * IoTGateway.t) (h : Home) : Home :=
  let '(d, g) := f (light2 (devices h)) (gateway h) in
  {| sensors := sensors h; devices := set_light2 d (devices h); gateway := g |}.
Definition on_light3 (f : Light.t -> IoTGateway.t -> Light.t * IoTGateway.t) (h : Home) : Home :=
  let '(d, g) := f (light3 (devices h)) (gateway h) in
  {| sensors := sensors h; devices := set_light3 d (devices h); gateway := g |}.
Definition on_ac (f : AirConditioner.t -> IoTGateway.t -> AirConditioner.t * IoTGateway.t)
    (h : Home) : Home :=
  let '(d, g) := f (ac (devices h)) (gateway h) in
  {| sensors := sensors h; devices := set_ac d (devices h); gateway := g |}.
Definition on_waterHeater (f : WaterHeater.t -> IoTGateway.t -> WaterHeater.t * IoTGateway.t)
    (h : Home) : Home :=
  let '(d, g) := f (waterHeater (devices h)) (gateway h) in
  {| sensors := sensors h; devices := set_waterHeater d (devices h); gateway := g |}.

(** [device.gateway = this] on the referenced object. *)
Definition attach_device (r : DevRef) (ds : Devices) : Devices :=
  match r with
  | dev_light1 => set_light1 (Device.set_gateway true (light1 ds)) ds
  | dev_light2 => set_light2 (Device.set_gateway true (light2 ds)) ds
  | dev_light3 => set_light3 (Device.set_gateway true (light3 ds)) ds
  | dev_ac => set_ac (Device.set_gateway true (ac ds)) ds
  | dev_waterHeater => set_waterHeater (Device.set_gateway true (waterHeater ds)) ds
  end.

Definition sensor_id (r : SenRef) (ss : Sensors) : string :=
  match r with
  | sen_temperature => Sensor.id (temperature ss)
  | sen_motion => Sensor.id (motion ss)
  | sen_humidity => Sensor.id (humidity ss)
  | sen_power => Sensor.id (power ss)
  | sen_distance => Sensor.id (distance ss)
  | sen_light => Sensor.id (light ss)
  end.

Definition sensor_name (r : SenRef) (ss : Sensors) : string :=
  match r with
  | sen_temperature => Sensor.name (temperature ss)
  | sen_motion => Sensor.name (motion ss)
  | sen_humidity => Sensor.name (humidity ss)
  | sen_power => Sensor.name (power ss)
  | sen_distance => Sensor.name (distance ss)
  | sen_light => Sensor.name (light ss)
  end.

Definition attach_sensor (r : SenRef) (ss : Sensors) : Sensors :=
  match r with
  | sen_temperature =>
      mkSensors (Sensor.set_gateway true (temperature ss)) (motion ss) (humidity ss)
        (power ss) (distance ss) (light ss)
  | sen_motion =>
      mkSensors (temperature ss) (Sensor.set_gateway true (motion ss)) (humidity ss)
        (power ss) (distance ss) (light ss)
  | sen_humidity =>
      mkSensors (temperature ss) (motion ss) (Sensor.set_gateway true (humidity ss))
        (power ss) (distance ss) (light ss)
  | sen_power =>
      mkSensors (temperature ss) (motion ss) (humidity ss)
        (Sensor.set_gateway true (power ss)) (distance ss) (light ss)
  | sen_distance =>
      mkSensors (temperature ss) (motion ss) (humidity ss)
        (power ss) (Sensor.set_gateway true (distance ss)) (light ss)
  | sen_light =>
      mkSensors (temperature ss) (motion ss) (humidity ss)
        (power ss) (distance ss) (Sensor.set_gateway true (light ss))
  end.

(** [IoTGateway.prototype.registerDevice]. *)
Definition registerDevice (now : Z) (r : DevRef) (h : Home) : Home :=
  let device := projT2 (device_at r (devices h)) in
  let g1 :=
    IoTGateway.set_devices
      (JSMap.set (Device.id device) r (IoTGateway.devices (gateway h))) (gateway h) in
  {| sensors := sensors h;
     devices := attach_device r (devices h);
     gateway :=
       IoTGateway.publish now "device/registered"
         (DeviceRegistered (Device.id device) (Device.name device)) g1 |}.

(** [IoTGateway.prototype.registerSensor]. *)
Definition registerSensor (now : Z) (r : SenRef) (h : Home) : Home :=
  let g1 :=
    IoTGateway.set_sensors
      (JSMap.set (sensor_id r (sensors h)) r (IoTGateway.sensors (gateway h))) (gateway h) in
  {| sensors := attach_sensor r (sensors h);
     devices := devices h;
     gateway :=
       IoTGateway.publish now "sensor/registered"
         (SensorRegistered (sensor_id r (sensors h)) (sensor_name r (sensors h))) g1 |}.

(** [IoTGateway.prototype.getAllDevices]: the registered objects, in
    registration order, read through their references. *)
Definition getAllDevices (h : Home) : list AnyDevice :=
  map (fun r => device_at r (devices h)) (JSMap.values (IoTGateway.devices (gateway h))).

(** [IoTGateway.prototype.getTotalPowerConsumption]:
    [total = 0; devices.forEach(d => total += d.getCurrentPowerConsumption())]. *)
Definition getTotalPowerConsumption (h : Home) : number :=
  fold_left (fun total device => add total (any_power device)) (getAllDevices h) (of_Z 0).

(** [IoTGateway.prototype.getPowerBreakdown]. *)
Definition getPowerBreakdown (h : Home) : list (string * string * number * bool) :=
  map (fun d : AnyDevice =>
         (Device.id (projT2 d), Device.name (projT2 d), any_power d, Device.isOn (projT2 d)))
      (getAllDevices h).

(** ** Automation rules ([js/automation.js]) *)

Module AutomationRule.

(** The subclass of a rule together with the fields its constructor adds;
    [Base] is the class [AutomationRule] itself. *)
Inductive Own : Type :=
| Base
| HVACCoolingRule (temperatureThreshold : number)
| HVACOffRule (noMotionDuration thresholdMinutes : Z)
| LightingOnRule (lightThreshold : number)
| LightingOffRule (noMotionDuration thresholdMinutes : Z)
| HumidityRule (highHumidityThreshold : number).

Record t : Type := mk
  { id : string;
    name : string;
    description : string;
    enabled : bool;
    lastTriggered : option Z;
    triggerCount : Z;
    own : Own }.

Definition constructor (id name description : string) : t :=
  {| id := id; name := name; description := description;
     enabled := true; lastTriggered := None; triggerCount := 0; own := Base |}.

Definition set_own (o : Own) (this : t) : t :=
  {| id := id this; name := name this; description := description this;
     enabled := enabled this; lastTriggered := lastTriggered this;
     triggerCount := triggerCount this; own := o |}.

Definition set_enabled (b : bool) (this : t) : t :=
  {| id := id this; name := name this; description := description this;
     enabled := b; lastTriggered := lastTriggered this;
     triggerCount := triggerCount this; own := own this |}.

Definition newHVACCoolingRule : t :=
  set_own (HVACCoolingRule (of_Z 26))
    (constructor "hvac-cooling" "HVAC Cooling"
       "Turn on AC when temperature > 26°C and motion is detected").

Definition newHVACOffRule : t :=
  set_own (HVACOffRule 0 5)
    (constructor "hvac-off" "HVAC Auto-Off"
       "Turn off AC after 5 minutes of no motion").

Definition newLightingOnRule : t :=
  set_own (LightingOnRule (of_Z 300))
    (constructor "lighting-on" "Auto Lights On"
       "Turn on lights when ambient light < 300 lux and motion is detected").

Definition newLightingOffRule : t :=
  set_own (LightingOffRule 0 2)
    (constructor "lighting-off" "Auto Lights Off"
       "Turn off lights after 2 minutes of no motion").

Definition newHumidityRule : t :=
  set_own (HumidityRule (of_Z 70))
    (constructor "humidity-control" "Humidity Control"
       "Adjust AC mode based on humidity levels").

(** [evaluate()], dispatched on the subclass.  The result is the value of
    the returned expression; the two timer rules also update their
    [noMotionDuration]. *)
Definition evaluate (this : t) (h : Home) : jsval * t :=
  match own this with
  | Base => (JBool false, this)
  | HVACCoolingRule temperatureThreshold =>
      let temp := Sensor.value (temperature (sensors h)) in
      let motion := Sensor.value (motion (sensors h)) in
      let acIsOff := negb (Device.isOn (ac (devices h))) in
      (js_and (js_and (JBool (ltb temperatureThreshold temp)) motion) (JBool acIsOff),
       this)
  | HVACOffRule noMotionDuration thresholdMinutes =>
      let motion := Sensor.value (motion (sensors h)) in
      let acIsOn := Device.isOn (ac (devices h)) in
      if ToBoolean (js_and (js_not motion) (JBool acIsOn)) then
        let noMotionDuration' := (noMotionDuration + 2)%Z in
        (JBool (thresholdMinutes * 60 <=? noMotionDuration')%Z,
         set_own (HVACOffRule noMotionDuration' thresholdMinutes) this)
      else
        (JBool false, set_own (HVACOffRule 0 thresholdMinutes) this)
  | LightingOnRule lightThreshold =>
      let ambientLight := Sensor.value (light (sensors h)) in
      let motion := Sensor.value (motion (sensors h)) in
      let allLightsOff :=
        negb (Device.isOn (light1 (devices h)))
        && negb (Device.isOn (light2 (devices h)))
        && negb (Device.isOn (light3 (devices h))) in
      (js_and (js_and (JBool (ltb ambientLight lightThreshold)) motion) (JBool allLightsOff),
       this)
  | LightingOffRule noMotionDuration thresholdMinutes =>
      let motion := Sensor.value (motion (sensors h)) in
      let anyLightOn :=
        Device.isOn (light1 (devices h))
        || Device.isOn (light2 (devices h))
        || Device.isOn (light3 (devices h)) in
      if ToBoolean (js_and (js_not motion) (JBool anyLightOn)) then
        let noMotionDuration' := (noMotionDuration + 2)%Z in
        (JBool (thresholdMinutes * 60 <=? noMotionDuration')%Z,
         set_own (LightingOffRule noMotionDuration' thresholdMinutes) this)
      else
        (JBool false, set_own (LightingOffRule 0 thresholdMinutes) this)
  | HumidityRule highHumidityThreshold =>
      let humidity := Sensor.value (humidity (sensors h)) in
      let acIsOn := Device.isOn (ac (devices h)) in
      (js_and (JBool (ltb highHumidityThreshold humidity)) (JBool acIsOn), this)
  end.

(** The closing [gateway.publish('automation/triggered', ...)] of every
    [execute]; the global [gateway] is an object, hence truthy. *)
Definition announce (now : Z) (this : t) (action : string) (reason : Reason)
    (h : Home) : Home :=
  set_gateway
    (IoTGateway.publish now "automation/triggered"
       (AutomationTriggered (id this) action reason) (gateway h)) h.

(** [execute()], dispatched on the subclass. *)
Definition execute (now : Z) (this : t) (h : Home) : t * Home :=
  match own this with
  | Base => (this, h)
  | HVACCoolingRule _ =>
      let h1 := on_ac (AirConditioner.setMode now "cool") h in
      let h2 := on_ac (Device.turnOn now) h1 in
      (this,
       announce now this "AC turned on (cooling mode)"
         (ReasonTemperatureMotion (Sensor.value (temperature (sensors h2)))) h2)
  | HVACOffRule _ thresholdMinutes =>
      let h1 := on_ac (Device.turnOff now) h in
      let this' := set_own (HVACOffRule 0 thresholdMinutes) this in
      (this', announce now this' "AC turned off" (ReasonNoMotion thresholdMinutes) h1)
  | LightingOnRule _ =>
      let h1 := on_light1 (Device.turnOn now) h in
      let h2 := on_light2 (Device.turnOn now) h1 in
      (this,
       announce now this "Lights turned on"
         (ReasonAmbientMotion (Sensor.value (light (sensors h2)))) h2)
  | LightingOffRule _ thresholdMinutes =>
      let h1 := on_light1 (Device.turnOff now) h in
      let h2 := on_light2 (Device.turnOff now) h1 in
      let h3 := on_light3 (Device.turnOff now) h2 in
      let this' := set_own (LightingOffRule 0 thresholdMinutes) this in
      (this', announce now this' "Lights turned off" (ReasonNoMotion thresholdMinutes) h3)
  | HumidityRule _ =>
      let h1 := on_ac (AirConditioner.setMode now "cool") h in
      let h2 := on_ac (AirConditioner.setFanSpeed "high") h1 in
      (this,
       announce now this "AC set to high fan for dehumidification"
         (ReasonHumidity (Sensor.value (humidity (sensors h2)))) h2)
  end.

(** [this.lastTriggered = Date.now(); this.triggerCount++].  The counter
    is kept as an integer, which is the code's number below [2^53]. *)
Definition stamp (now : Z) (this : t) : t :=
  {| id := id this; name := name this; description := description this;
     enabled := enabled this; lastTriggered := Some now;
     triggerCount := (triggerCount this + 1)%Z; own := own this |}.

(** [run()]. *)
Definition run (now : Z) (this : t) (h : Home) : bool * t * Home :=
  if negb (enabled this) then (false, this, h)
  else
    let '(condition, this1) := evaluate this h in
    if ToBoolean condition then
      let '(this2, h2) := execute now this1 h in
      (true, stamp now this2, h2)
    else (false, this1, h).

End AutomationRule.

Module AutomationEngine.

Record Activity : Type := mkActivity
  { ruleId : string; ruleName : string; timestamp : Z }.

Record t : Type := mk
  { rules : JSMap.t AutomationRule.t;
    activityLog : list Activity;
    isRunning : bool }.

Definition constructor : t :=
  {| rules := []; activityLog := []; isRunning := false |}.

Definition set_rules (rs : JSMap.t AutomationRule.t) (e : t) : t :=
  {| rules := rs; activityLog := activityLog e; isRunning := isRunning e |}.

Definition addRule (rule : AutomationRule.t) (e : t) : t :=
  set_rules (JSMap.set (AutomationRule.id rule) rule (rules e)) e.

Definition removeRule (id : string) (e : t) : t :=
  set_rules (JSMap.delete id (rules e)) e.

Definition enableRule (id : string) (e : t) : t :=
  match JSMap.get id (rules e) with
  | Some rule => set_rules (JSMap.set id (AutomationRule.set_enabled true rule) (rules e)) e
  | None => e
  end.

Definition disableRule (id : string) (e : t) : t :=
  match JSMap.get id (rules e) with
  | Some rule => set_rules (JSMap.set id (AutomationRule.set_enabled false rule) (rules e)) e
  | None => e
  end.

Definition toggleRule (id : string) (e : t) : option bool * t :=
  match JSMap.get id (rules e) with
  | Some rule =>
      let rule' := AutomationRule.set_enabled (negb (AutomationRule.enabled rule)) rule in
      (Some (AutomationRule.enabled rule'), set_rules (JSMap.set id rule' (rules e)) e)
  | None => (None, e)
  end.

(** The body of [rules.forEach((rule, id) => ...)] over the entries in
    insertion order; each rule object is updated where it sits. *)
Fixpoint forEach_rule (now : Z) (entries : JSMap.t AutomationRule.t)
    (log : list Activity) (h : Home)
    : JSMap.t AutomationRule.t * list Activity * Home :=
  match entries with
  | [] => ([], log, h)
  | (id, rule) :: rest =>
      let '(triggered, rule', h') := AutomationRule.run now rule h in
      let log' :=
        if triggered
        then push_capped 50 log (mkActivity id (AutomationRule.name rule') now)
        else log in
      let '(rest', log'', h'') := forEach_rule now rest log' h' in
      ((id, rule') :: rest', log'', h'')
  end.

Definition evaluate (now : Z) (e : t) (h : Home) : t * Home :=
  let '(rs, log, h') := forEach_rule now (rules e) (activityLog e) h in
  ({| rules := rs; activityLog := log; isRunning := isRunning e |}, h').

Definition getActivityLog (e : t) : list Activity :=
  skipn (List.length (activityLog e) - 20) (activityLog e).

End AutomationEngine.

(** The global [automationEngine] with its five rules. *)
Definition automationEngine : AutomationEngine.t :=
  AutomationEngine.addRule AutomationRule.newHumidityRule
    (AutomationEngine.addRule AutomationRule.newLightingOffRule
       (AutomationEngine.addRule AutomationRule.newLightingOnRule
          (AutomationEngine.addRule AutomationRule.newHVACOffRule
             (AutomationEngine.addRule AutomationRule.newHVACCoolingRule
                AutomationEngine.constructor)))).

(** ** Calls against the global state *)

(** [sensors.<r>.setValue(x)]: the motion sensor runs its override, the
    others the inherited method. *)
Definition sensor_setValue (now : Z) (r : SenRef) (x : jsval) (h : Home) : Home :=
  let ss := sensors h in
  match r with
  | sen_temperature =>
      let '(s, g) := Sensor.setValue now x (temperature ss) (gateway h) in
      mkHome (mkSensors s (motion ss) (humidity ss) (power ss) (distance ss) (light ss))
        (devices h) g
  | sen_motion =>
      let '(s, g) := MotionSensor.setValue now x (motion ss) (gateway h) in
      mkHome (mkSensors (temperature ss) s (humidity ss) (power ss) (distance ss) (light ss))
        (devices h) g
  | sen_humidity =>
      let '(s, g) := Sensor.setValue now x (humidity ss) (gateway h) in
      mkHome (mkSensors (temperature ss) (motion ss) s (power ss) (distance ss) (light ss))
        (devices h) g
  | sen_power =>
      let '(s, g) := Sensor.setValue now x (power ss) (gateway h) in
      mkHome (mkSensors (temperature ss) (motion ss) (humidity ss) s (distance ss) (light ss))
        (devices h) g
  | sen_distance =>
      let '(s, g) := Sensor.setValue now x (distance ss) (gateway h) in
      mkHome (mkSensors (temperature ss) (motion ss) (humidity ss) (power ss) s (light ss))
        (devices h) g
  | sen_light =>
      let '(s, g) := Sensor.setValue now x (light ss) (gateway h) in
      mkHome (mkSensors (temperature ss) (motion ss) (humidity ss) (power ss) (distance ss) s)
        (devices h) g
  end.

(** A method of the base class [Device] called on the referenced object. *)
Definition on_device
    (f : forall c : Device.Class, Device.t c -> IoTGateway.t -> Device.t c * IoTGateway.t)
    (r : DevRef) (h : Home) : Home :=
  match r with
  | dev_light1 => on_light1 (f _) h
  | dev_light2 => on_light2 (f _) h
  | dev_light3 => on_light3 (f _) h
  | dev_ac => on_ac (f _) h
  | dev_waterHeater => on_waterHeater (f _) h
  end.

(** [IoTGateway.prototype.getDevice]. *)
Definition getDevice (id : string) (g : IoTGateway.t) : option DevRef :=
  JSMap.get id (IoTGateway.devices g).

(** [setLightBrightness(id, brightness)] of the entry point ([js/app.js]),
    with [brightness] already parsed: the device is looked up in the
    registry and only an object with a [setBrightness] method is touched. *)
Definition setLightBrightness (now : Z) (id : string) (brightness : number) (h : Home)
    : Home :=
  match getDevice id (gateway h) with
  | Some dev_light1 => on_light1 (Light.setBrightness now brightness) h
  | Some dev_light2 => on_light2 (Light.setBrightness now brightness) h
  | Some dev_light3 => on_light3 (Light.setBrightness now brightness) h
  | Some dev_ac | Some dev_waterHeater | None => h
  end.

(** The state of the whole program. *)
Record World : Type := mkWorld
  { engine : AutomationEngine.t;
    home : Home }.

(** The calls the entry point and the simulation loop make. *)
Inductive Op : Type :=
| OpPublish (topic : string) (message : Payload)
| OpSubscribe (topic : string) (callback : IoTGateway.Callback)
| OpRegisterDevice (r : DevRef)
| OpRegisterSensor (r : SenRef)
| OpSetValue (r : SenRef) (x : jsval)
| OpTurnOn (r : DevRef)
| OpTurnOff (r : DevRef)
| OpToggle (r : DevRef)
| OpSetBrightness (id : string) (level : number)
| OpSetMode (mode : string)
| OpSetFanSpeed (speed : string)
| OpSetACTargetTemperature (temp : number)
| OpSetHeaterTargetTemperature (temp : number)
| OpHeaterUpdate
| OpEvaluate
| OpAddRule (rule : AutomationRule.t)
| OpRemoveRule (id : string)
| OpEnableRule (id : string)
| OpDisableRule (id : string)
| OpToggleRule (id : string).

Definition with_home (f : Home -> Home) (w : World) : World :=
  {| engine := engine w; home := f (home w) |}.
Definition with_engine (f : AutomationEngine.t -> AutomationEngine.t) (w : World) : World :=
  {| engine := f (engine w); home := home w |}.

Definition step (now : Z) (op : Op) (w : World) : World :=
  match op with
  | OpPublish topic message =>
      with_home (fun h => set_gateway (IoTGateway.publish now topic message (gateway h)) h) w
  | OpSubscribe topic callback =>
      with_home (fun h => set_gateway (IoTGateway.subscribe topic callback (gateway h)) h) w
  | OpRegisterDevice r => with_home (registerDevice now r) w
  | OpRegisterSensor r => with_home (registerSensor now r) w
  | OpSetValue r x => with_home (sensor_setValue now r x) w
  | OpTurnOn r => with_home (on_device (fun c => Device.turnOn now) r) w
  | OpTurnOff r => with_home (on_device (fun c => Device.turnOff now) r) w
  | OpToggle r => with_home (on_device (fun c => Device.toggle now) r) w
  | OpSetBrightness id level => with_home (setLightBrightness now id level) w
  | OpSetMode mode => with_home (on_ac (AirConditioner.setMode now mode)) w
  | OpSetFanSpeed speed => with_home (on_ac (AirConditioner.setFanSpeed speed)) w
  | OpSetACTargetTemperature temp =>
      with_home (on_ac (AirConditioner.setTargetTemperature now temp)) w
  | OpSetHeaterTargetTemperature temp =>
      with_home (on_waterHeater (WaterHeater.setTargetTemperature now temp)) w
  | OpHeaterUpdate =>
      with_home (on_waterHeater (fun d g => (WaterHeater.update d, g))) w
  | OpEvaluate =>
      let '(e, h) := AutomationEngine.evaluate now (engine w) (home w) in
      {| engine := e; home := h |}
  | OpAddRule rule => with_engine (AutomationEngine.addRule rule) w
  | OpRemoveRule id => with_engine (AutomationEngine.removeRule id) w
  | OpEnableRule id => with_engine (AutomationEngine.enableRule id) w
  | OpDisableRule id => with_engine (AutomationEngine.disableRule id) w
  | OpToggleRule id => with_engine (fun e => snd (AutomationEngine.toggleRule id e)) w
  end.

(** A run: each call with the clock reading at which it is made. *)
Fixpoint steps (ops : list (Z * Op)) (w : World) : World :=
  match ops with
  | [] => w
  | (now, op) :: rest => steps rest (step now op w)
  end.

(** The state before [initializeApp]. *)
Definition initial_world : World :=
  {| engine := automationEngine;
     home := {| sensors := initial_sensors;
                devices := initial_devices;
                gateway := IoTGateway.constructor |} |}.

(** [initializeApp]: every device, then every sensor, is registered and the
    console logger subscribes to the wildcard topic. *)
Definition initializeApp (now : Z) : list (Z * Op) :=
  map (fun op => (now, op))
    [ OpRegisterDevice dev_light1; OpRegisterDevice dev_light2;
      OpRegisterDevice dev_light3; OpRegisterDevice dev_ac;
      OpRegisterDevice dev_waterHeater;
      OpRegisterSensor sen_temperature; OpRegisterSensor sen_motion;
      OpRegisterSensor sen_humidity; OpRegisterSensor sen_power;
      OpRegisterSensor sen_distance; OpRegisterSensor sen_light;
      OpSubscribe "*" 0%nat ].

(** Successive writes to one sensor, each with its clock reading. *)
Fixpoint setValues (writes : list (jsval * Z)) (s : Sensor.t number) (gw : IoTGateway.t)
    : Sensor.t number * IoTGateway.t :=
  match writes with
  | [] => (s, gw)
  | (x, now) :: rest =>
      let '(s', gw') := Sensor.setValue now x s gw in
      setValues rest s' gw'
  end.

(** One rule object over successive ticks: tick [k] runs the rule at clock
    reading [now_k] against the global state [h_k] found at that moment,
    and yields whether it triggered and the state it left. *)
Fixpoint run_ticks (ticks : list (Z * Home)) (rule : AutomationRule.t)
    : list (bool * Home) * AutomationRule.t :=
  match ticks with
  | [] => ([], rule)
  | (now, h) :: rest =>
      let '(triggered, rule', h') := AutomationRule.run now rule h in
      let '(out, rule'') := run_ticks rest rule' in
      ((triggered, h') :: out, rule'')
  end.

(** The sensor loop of [startSimulation] between two evaluations: the
    [setValue] calls the sensors make, each at its clock reading, then
    [devices.waterHeater.update()]. *)
Definition sensor_pass (writes : list (Z * SenRef * jsval)) (h : Home) : Home :=
  on_waterHeater (fun d g => (WaterHeater.update d, g))
    (fold_left (fun h' write => let '(now, r, x) := write in sensor_setValue now r x h')
       writes h).

(** One rule object over successive ticks of the simulation, on one home:
    each tick first makes its sensor pass on the home the tick before left,
    then runs the rule at clock reading [now] on the result. *)
Fixpoint run_loop (ticks : list (list (Z * SenRef * jsval) * Z)) (rule : AutomationRule.t)
    (h : Home) : list bool * AutomationRule.t * Home :=
  match ticks with
  | [] => ([], rule, h)
  | (writes, now) :: rest =>
      let '(triggered, rule', h') := AutomationRule.run now rule (sensor_pass writes h) in
      let '(out, rule'', h'') := run_loop rest rule' h' in
      (triggered :: out, rule'', h'')
  end.

(** Calls of the methods of the air conditioner. *)
Inductive ACCall : Type :=
| CallSetMode (mode : string)
| CallSetFanSpeed (speed : string)
| CallSetTargetTemperature (temp : number)
| CallTurnOn
| CallTurnOff
| CallToggle.

Definition ac_call (now : Z) (call : ACCall) (this : AirConditioner.t) (gw : IoTGateway.t)
    : AirConditioner.t * IoTGateway.t :=
  match call with
  | CallSetMode mode => AirConditioner.setMode now mode this gw
  | CallSetFanSpeed speed => AirConditioner.setFanSpeed speed this gw
  | CallSetTargetTemperature temp => AirConditioner.setTargetTemperature now temp this gw
  | CallTurnOn => Device.turnOn now this gw
  | CallTurnOff => Device.turnOff now this gw
  | CallToggle => Device.toggle now this gw
  end.

Fixpoint ac_calls (calls : list (Z * ACCall)) (this : AirConditioner.t) (gw : IoTGateway.t)
    : AirConditioner.t * IoTGateway.t :=
  match calls with
  | [] => (this, gw)
  | (now, call) :: rest =>
      let '(this', gw') := ac_call now call this gw in
      ac_calls rest this' gw'
  end.

(** The state [initializeApp] leaves when it runs at clock reading [now]. *)
Definition started_world (now : Z) : World :=
  steps (initializeApp now) initial_world.

(** ** Notions used in specifications *)

(** [x] clamped to the inclusive range [[lo, hi]]. *)
Definition clamp (lo hi x : number) : number :=
  if ltb x lo then lo else if ltb hi x then hi else x.

(** [lo <= v <= hi]. *)
Definition within (lo hi v : number) : Prop :=
  leb lo v = true /\ leb v hi = true.

(** The same number: identical, or equal as [==] has it (the two zeros). *)
Definition same_number (a b : number) : Prop :=
  a = b \/ eqb a b = true.

(** The last [n] elements of a list. *)
Definition lastn {A : Type} (n : nat) (l : list A) : list A :=
  skipn (List.length l - n) l.

(** The sum of a list of powers, accumulated from the left as [total += p]. *)
Definition power_sum (powers : list number) : number :=
  fold_left add powers (of_Z 0).

Definition motion_detected (h : Home) : bool :=
  ToBoolean (Sensor.value (motion (sensors h))).

Definition ac_isOn (h : Home) : bool := Device.isOn (ac (devices h)).

(** A sensor whose range is proper: [minValue < maxValue]. *)
Definition proper_range {V : Type} (s : Sensor.t V) : Prop :=
  ltb (Sensor.minValue s) (Sensor.maxValue s) = true.

(** The reading a write leaves in the history. *)
Definition reading_of (s : Sensor.t number) (write : jsval * Z) : Sensor.Reading number :=
  Sensor.mkReading
    (Math_max (Sensor.minValue s) (Math_min (Sensor.maxValue s) (ToNumber (fst write))))
    (snd write).

Definition messageLog_bounded (w : World) : Prop :=
  (List.length (IoTGateway.messageLog (gateway (home w))) <= 100)%nat.

Definition activityLog_bounded (w : World) : Prop :=
  (List.length (AutomationEngine.activityLog (engine w)) <= 50)%nat.

(** What a sensor holds, read through its reference. *)
Definition sensor_value (r : SenRef) (ss : Sensors) : jsval :=
  match r with
  | sen_temperature => JNum (Sensor.value (temperature ss))
  | sen_motion => Sensor.value (motion ss)
  | sen_humidity => JNum (Sensor.value (humidity ss))
  | sen_power => JNum (Sensor.value (power ss))
  | sen_distance => JNum (Sensor.value (distance ss))
  | sen_light => JNum (Sensor.value (light ss))
  end.

Definition sensor_minValue (r : SenRef) (ss : Sensors) : number :=
  match r with
  | sen_temperature => Sensor.minValue (temperature ss)
  | sen_motion => Sensor.minValue (motion ss)
  | sen_humidity => Sensor.minValue (humidity ss)
  | sen_power => Sensor.minValue (power ss)
  | sen_distance => Sensor.minValue (distance ss)
  | sen_light => Sensor.minValue (light ss)
  end.

Definition sensor_maxValue (r : SenRef) (ss : Sensors) : number :=
  match r with
  | sen_temperature => Sensor.maxValue (temperature ss)
  | sen_motion => Sensor.maxValue (motion ss)
  | sen_humidity => Sensor.maxValue (humidity ss)
  | sen_power => Sensor.maxValue (power ss)
  | sen_distance => Sensor.maxValue (distance ss)
  | sen_light => Sensor.maxValue (light ss)
  end.

Definition entry_of {V : Type} (inj : V -> jsval) (e : Sensor.Reading V) : jsval * Z :=
  (inj (Sensor.r_value e), Sensor.r_timestamp e).

Definition sensor_history (r : SenRef) (ss : Sensors) : list (jsval * Z) :=
  match r with
  | sen_temperature => map (entry_of JNum) (Sensor.history (temperature ss))
  | sen_motion => map (entry_of (fun v => v)) (Sensor.history (motion ss))
  | sen_humidity => map (entry_of JNum) (Sensor.history (humidity ss))
  | sen_power => map (entry_of JNum) (Sensor.history (power ss))
  | sen_distance => map (entry_of JNum) (Sensor.history (distance ss))
  | sen_light => map (entry_of JNum) (Sensor.history (light ss))
  end.

(** Every sensor of the table has a proper range. *)
Definition ranges_proper (ss : Sensors) : Prop :=
  forall r, ltb (sensor_minValue r ss) (sensor_maxValue r ss) = true.

(** The stored value of sensor [r] after [setValue(x)] is [x] clamped to the
    sensor's range and lies within it. *)
Definition stored_value_clamped (now : Z) (r : SenRef) (x : jsval) (h : Home) : Prop :=
  let ss' := sensors (sensor_setValue now r x h) in
  exists v : number,
    sensor_value r ss' = JNum v
    /\ same_number v (clamp (sensor_minValue r ss') (sensor_maxValue r ss') (ToNumber x))
    /\ within (sensor_minValue r ss') (sensor_maxValue r ss') v.

(** The history entry that the write [(x, now)] to sensor [r] leaves. *)
Definition stored_entry (r : SenRef) (ss : Sensors) (write : jsval * Z) : jsval * Z :=
  (JNum (Math_max (sensor_minValue r ss)
           (Math_min (sensor_maxValue r ss) (ToNumber (fst write)))),
   snd write).

(** Successive [setValue] calls on sensor [r], as a run. *)
Definition writes_to (r : SenRef) (writes : list (jsval * Z)) : list (Z * Op) :=
  map (fun write => (snd write, OpSetValue r (fst write))) writes.

(** One [setValue(x)] on sensor [r] appends one entry to its history. *)
Definition history_appended (now : Z) (r : SenRef) (x : jsval) (h : Home) : Prop :=
  let ss' := sensors (sensor_setValue now r x h) in
  sensor_history r ss'
  = push_capped 60 (sensor_history r (sensors h)) (sensor_value r ss', now).

(** Sixty-one writes [0, 1, ..., 60], write [k] at clock reading [k]. *)
Definition sample_writes : list (jsval * Z) :=
  map (fun k => (JNum (of_Z (Z.of_nat k)), Z.of_nat k)) (seq 0 61).

(** The air conditioner's [mode] and [fanSpeed] are legal values. *)
Definition ac_valid (this : AirConditioner.t) : Prop :=
  In (AirConditioner.mode this) AirConditioner.validModes
  /\ In (AirConditioner.fanSpeed this) AirConditioner.validSpeeds.

(** The gateway [gw'] is [gw] after one [publish(topic, message)]. *)
Definition published (now : Z) (topic : string) (message : Payload)
    (gw gw' : IoTGateway.t) : Prop :=
  gw' = IoTGateway.publish now topic message gw.

(** A setter invoked with the value already held changes no state and
    publishes nothing: here [setBrightness] on [devices.light1] with its
    current brightness. *)
Definition silent_when_value_held (now : Z) (w : World) : Prop :=
  home (step now (OpSetBrightness "light1" (Light.brightness (light1 (devices (home w))))) w)
  = home w.

(** The devices keep the rated power their constructors gave them. *)
Definition rated (ds : Devices) : Prop :=
  Device.maxPowerWatts (light1 ds) = of_Z 60
  /\ Device.maxPowerWatts (light2 ds) = of_Z 60
  /\ Device.maxPowerWatts (light3 ds) = of_Z 60
  /\ Device.maxPowerWatts (ac ds) = of_Z 1500
  /\ Device.maxPowerWatts (waterHeater ds) = of_Z 2000.

(** A light that is on at 50% brightness. *)
Definition on_at_half (l : Light.t) : Prop :=
  Device.isOn l = true /\ Light.brightness l = of_Z 50.

(** Exactly one of the three lights is on, at 50% brightness. *)
Definition one_light_at_half (ds : Devices) : Prop :=
  (on_at_half (light1 ds)
   /\ Device.isOn (light2 ds) = false /\ Device.isOn (light3 ds) = false)
  \/ (Device.isOn (light1 ds) = false
      /\ on_at_half (light2 ds) /\ Device.isOn (light3 ds) = false)
  \/ (Device.isOn (light1 ds) = false
      /\ Device.isOn (light2 ds) = false /\ on_at_half (light3 ds)).

(** After start-up: the first light switched on and dimmed to 50%, the air
    conditioner and the water heater switched on. *)
Definition evening_world : World :=
  steps [ (1, OpTurnOn dev_light1); (2, OpSetBrightness "light1" (of_Z 50));
          (3, OpTurnOn dev_ac); (4, OpTurnOn dev_waterHeater) ]%Z
    (started_world 0).

(** A tick without motion: whatever its sensor pass writes to the motion
    sensor is falsy. *)
Definition no_motion_written (tick : list (Z * SenRef * jsval) * Z) : Prop :=
  Forall (fun write : Z * SenRef * jsval =>
            snd (fst write) = sen_motion -> ToBoolean (snd write) = false)
    (fst tick).

(** 150 ticks whose sensor pass writes [false] to the motion sensor. *)
Definition still_ticks : list (list (Z * SenRef * jsval) * Z) :=
  repeat ([(0%Z, sen_motion, JBool false)], 0%Z) 150.

(** The state after start-up with the air conditioner switched on; the
    motion sensor still reads [false]. *)
Definition cooled_home : Home :=
  home (step 1 (OpTurnOn dev_ac) (started_world 0)).

(** The message log of a gateway is within its cap. *)
Definition log_ok (g : IoTGateway.t) : Prop :=
  (List.length (IoTGateway.messageLog g) <= 100)%nat.

(** A method, seen as a function of [this] and the gateway, keeps the
    message log within its cap. *)
Definition keeps_log {T : Type} (f : T -> IoTGateway.t -> T * IoTGateway.t) : Prop :=
  forall (this : T) (g : IoTGateway.t), log_ok g -> log_ok (snd (f this g)).

(** A payload and a run used as examples. *)
Definition sample_payload : Payload := DeviceMode "ac" "cool".

Definition many_publishes : list (Z * Op) :=
  repeat (0%Z, OpPublish "device/ac/mode" sample_payload) 150.

(** A method keeps a property of the object it is called on. *)
Definition keeps {T : Type} (P : T -> Prop) (f : T -> IoTGateway.t -> T * IoTGateway.t)
    : Prop :=
  forall (this : T) (g : IoTGateway.t), P this -> P (fst (f this g)).

(** The rated power of an object is [p]. *)
Definition rated_at {c : Device.Class} (p : Z) (this : Device.t c) : Prop :=
  Device.maxPowerWatts this = of_Z p.

(** The air conditioner keeps its rated power and legal settings. *)
Definition ac_ok (this : AirConditioner.t) : Prop :=
  rated_at 1500 this /\ ac_valid this.

(** The table [devices] keeps the rated powers and the air conditioner its
    legal settings. *)
Definition devices_ok (ds : Devices) : Prop :=
  rated ds /\ ac_valid (ac ds).

(** What holds of the program in every state it can reach. *)
Record invariant (w : World) : Prop := mkInvariant
  { inv_ranges : ranges_proper (sensors (home w));
    inv_history : forall r, (List.length (sensor_history r (sensors (home w))) <= 60)%nat;
    inv_rated : rated (devices (home w));
    inv_ac : ac_valid (ac (devices (home w)));
    inv_messageLog : messageLog_bounded w;
    inv_activityLog : activityLog_bounded w }.

(** The states the program can reach from its initial state. *)
Definition reachable (w : World) : Prop :=
  exists ops : list (Z * Op), w = steps ops initial_world.

(** ** The entry point's commands ([js/app.js])

    Each command ends by redrawing a card of the page; only its effect on
    the devices and the gateway is kept. *)

(** [toggleDevice(id)]. *)
Definition toggleDevice (now : Z) (id : string) (h : Home) : Home :=
  match getDevice id (gateway h) with
  | Some r => on_device (fun c => Device.toggle now) r h
  | None => h
  end.

(** [setACMode(mode)]. *)
Definition setACMode (now : Z) (mode : string) (h : Home) : Home :=
  on_ac (AirConditioner.setMode now mode) h.

(** [adjustACTemp(delta)]. *)
Definition adjustACTemp (now : Z) (delta : number) (h : Home) : Home :=
  on_ac (fun this gw =>
           let newTemp := add (AirConditioner.targetTemperature this) delta in
           AirConditioner.setTargetTemperature now newTemp this gw) h.

(** [adjustWaterHeaterTemp(delta)]. *)
Definition adjustWaterHeaterTemp (now : Z) (delta : number) (h : Home) : Home :=
  on_waterHeater (fun this gw =>
                    let newTemp := add (WaterHeater.targetTemperature this) delta in
                    WaterHeater.setTargetTemperature now newTemp this gw) h.

(** Presses of the two temperature buttons of a card, [true] for "+". *)
Fixpoint press_ac (presses : list (Z * bool)) (h : Home) : Home :=
  match presses with
  | [] => h
  | (now, up) :: rest =>
      press_ac rest (adjustACTemp now (if up then of_Z 1 else of_Z (-1)) h)
  end.

Fixpoint press_heater (presses : list (Z * bool)) (h : Home) : Home :=
  match presses with
  | [] => h
  | (now, up) :: rest =>
      press_heater rest (adjustWaterHeaterTemp now (if up then of_Z 5 else of_Z (-5)) h)
  end.

(** ** Further notions used in specifications *)

(** The callbacks subscribed to a topic, in subscription order. *)
Definition subscribers_of (topic : string) (g : IoTGateway.t) : list IoTGateway.Callback :=
  match JSMap.get topic (IoTGateway.subscribers g) with
  | Some callbacks => callbacks
  | None => []
  end.

(** The calls [callback(message, topic)] for a list of callbacks. *)
Definition deliveries (callbacks : list IoTGateway.Callback) (message : Payload)
    (topic : string) : list IoTGateway.Call :=
  map (fun callback => (callback, message, topic)) callbacks.

(** Whether the referenced device is on. *)
Definition device_isOn (r : DevRef) (ds : Devices) : bool :=
  Device.isOn (projT2 (device_at r ds)).

(** Some light is on. *)
Definition any_light_on (h : Home) : bool :=
  Device.isOn (light1 (devices h))
  || Device.isOn (light2 (devices h))
  || Device.isOn (light3 (devices h)).

(** A tick on which the lights-off timer counts: no motion, and a light on. *)
Definition lit_and_still (tick : Z * Home) : Prop :=
  motion_detected (snd tick) = false /\ any_light_on (snd tick) = true.

(** The sum of the rules' [triggerCount]s. *)
Definition total_triggers (rules : JSMap.t AutomationRule.t) : Z :=
  fold_right (fun entry sum => (AutomationRule.triggerCount (snd entry) + sum)%Z) 0%Z rules.

(** What [run] may change of a rule: only the counters. *)
Definition same_rule_but_counters (old new : string * AutomationRule.t) : Prop :=
  fst new = fst old
  /\ AutomationRule.id (snd new) = AutomationRule.id (snd old)
  /\ AutomationRule.name (snd new) = AutomationRule.name (snd old)
  /\ AutomationRule.description (snd new) = AutomationRule.description (snd old)
  /\ AutomationRule.enabled (snd new) = AutomationRule.enabled (snd old)
  /\ (AutomationRule.triggerCount (snd old) <= AutomationRule.triggerCount (snd new)
      <= AutomationRule.triggerCount (snd old) + 1)%Z.

(** A whole number of degrees between [lo] and [hi]. *)
Definition whole_degrees (lo hi : Z) (t : number) : Prop :=
  exists k : Z, (lo <= k <= hi)%Z /\ t = of_Z k.

(** A multiple of five degrees between 30 and 70. *)
Definition heater_step (t : number) : Prop :=
  exists k : Z, (6 <= k <= 14)%Z /\ t = of_Z (5 * k).

(** The state after start-up with the first light switched on. *)
Definition lit_home : Home :=
  home (step 1 (OpTurnOn dev_light1) (started_world 0)).

(** The state after start-up with the air conditioner on and the humidity
    sensor reading 75. *)
Definition humid_home : Home :=
  sensor_setValue 2 sen_humidity (JNum (of_Z 75)) cooled_home.

(** The engine with every rule disabled. *)
Definition idle_engine : AutomationEngine.t :=
  AutomationEngine.disableRule "humidity-control"
    (AutomationEngine.disableRule "lighting-off"
       (AutomationEngine.disableRule "lighting-on"
          (AutomationEngine.disableRule "hvac-off"
             (AutomationEngine.disableRule "hvac-cooling" automationEngine)))).

(** The state after start-up with the temperature sensor reading 27 and
    the motion sensor reading [true]. *)
Definition hot_home : Home :=
  sensor_setValue 6 sen_motion (JBool true)
    (sensor_setValue 5 sen_temperature (JNum (of_Z 27)) (home (started_world 0))).

(** [PowerSensor.prototype.simulate] ([js/sensors.js]), the one [simulate]
    that draws nothing at random: it stores the gateway's total. *)
Definition PowerSensor_simulate (now : Z) (h : Home) : Home :=
  sensor_setValue now sen_power (JNum (getTotalPowerConsumption h)) h.

(** * Properties *)

(** ** Order on numbers *)

Lemma compare_cont_Eq (m1 m2 : positive) :
  Pos.compare_cont Eq m1 m2 = Pos.compare m1 m2.
Proof. reflexivity. Qed.

Ltac sf_cases :=
  repeat match goal with
  | x : number |- _ => destruct x as [[|]|[|]| |[|] ? ?]
  | x : spec_float |- _ => destruct x as [[|]|[|]| |[|] ? ?]
  end.

Ltac cmp_step :=
  match goal with
  | |- context [Z.compare ?a ?a] => rewrite (Z.compare_refl a)
  | H : context [Z.compare ?a ?a] |- _ => rewrite (Z.compare_refl a) in H
  | |- context [Pos.compare_cont Eq ?a ?b] => rewrite (compare_cont_Eq a b)
  | H : context [Pos.compare_cont Eq ?a ?b] |- _ => rewrite (compare_cont_Eq a b) in H
  | |- context [Pos.compare ?a ?a] => rewrite (Pos.compare_refl a)
  | H : context [Pos.compare ?a ?a] |- _ => rewrite (Pos.compare_refl a) in H
  | |- context [Z.compare ?a ?b] => destruct (Z.compare_spec a b)
  | H : context [Z.compare ?a ?b] |- _ => destruct (Z.compare_spec a b)
  | |- context [Pos.compare ?a ?b] => destruct (Pos.compare_spec a b)
  | H : context [Pos.compare ?a ?b] |- _ => destruct (Pos.compare_spec a b)
  end.

Ltac sf_done := simpl in *; subst; try congruence; try tauto; try lia.

(** Goals about [ltb], [leb], [eqb], [Math_max] and [Math_min]: split on the
    shape of every number in sight, then on the comparisons of exponents and
    mantissas. *)
Ltac sf_order :=
  intros;
  unfold within, same_number, clamp, Math_max, Math_min,
    ltb, leb, eqb, SFltb, SFleb, SFeqb, isNaN, is_pzero, is_nzero, is_zero, NaN in *;
  sf_cases; sf_done; repeat (cmp_step; sf_done).

Lemma ltb_trans (a b c : number) : ltb a b = true -> ltb b c = true -> ltb a c = true.
Proof. sf_order. Qed.

Lemma leb_trans (a b c : number) : leb a b = true -> leb b c = true -> leb a c = true.
Proof. sf_order. Qed.

Lemma ltb_leb_trans (a b c : number) : ltb a b = true -> leb b c = true -> ltb a c = true.
Proof. sf_order. Qed.

Lemma ltb_leb (a b : number) : ltb a b = true -> leb a b = true.
Proof. sf_order. Qed.

Lemma ltb_not_NaN (a b : number) : ltb a b = true -> isNaN a = false /\ isNaN b = false.
Proof. sf_order. Qed.

Lemma leb_not_NaN (a b : number) : leb a b = true -> isNaN a = false /\ isNaN b = false.
Proof. sf_order. Qed.

Lemma leb_refl (a : number) : isNaN a = false -> leb a a = true.
Proof. sf_order. Qed.

Lemma ltb_antisym (a b : number) : ltb a b = true -> leb b a = false.
Proof. sf_order. Qed.

Lemma leb_total (a b : number) :
  isNaN a = false -> isNaN b = false -> leb a b = false -> ltb b a = true.
Proof. sf_order. Qed.

(** ** [Math.max(lo, Math.min(hi, x))] is the clamp *)

Lemma Math_clamp_NaN (lo hi : number) : Math_max lo (Math_min hi NaN) = NaN.
Proof. unfold Math_max, Math_min. destruct lo, hi; reflexivity. Qed.

Lemma Math_clamp_within (lo hi x : number) :
  ltb lo hi = true -> isNaN x = false -> within lo hi (Math_max lo (Math_min hi x)).
Proof. sf_order. Qed.

Lemma Math_clamp_below (lo hi x : number) :
  ltb lo hi = true -> ltb x lo = true -> Math_max lo (Math_min hi x) = lo.
Proof. sf_order. Qed.

Lemma Math_clamp_above (lo hi x : number) :
  ltb lo hi = true -> ltb hi x = true -> Math_max lo (Math_min hi x) = hi.
Proof. sf_order. Qed.

Lemma Math_clamp_inside (lo hi x : number) :
  ltb lo hi = true -> within lo hi x -> eqb (Math_max lo (Math_min hi x)) x = true.
Proof. sf_order. Qed.

(** The source's expression computes the clamp, up to the sign of zero;
    NaN goes to NaN on both sides. *)
Lemma Math_clamp_spec (lo hi x : number) :
  ltb lo hi = true -> same_number (Math_max lo (Math_min hi x)) (clamp lo hi x).
Proof. sf_order. Qed.

Lemma clamp_within (lo hi x : number) :
  ltb lo hi = true -> isNaN x = false -> within lo hi (clamp lo hi x).
Proof. sf_order. Qed.

(** ** Lists capped by push-then-shift *)

Section Capped.

Context {A : Type}.
Implicit Types (l arr : list A) (x : A) (n cap : nat).

Lemma lastn_all n l : (List.length l <= n)%nat -> lastn n l = l.
Proof.
  intros H. unfold lastn.
  replace (List.length l - n)%nat with 0%nat by lia. reflexivity.
Qed.

Lemma lastn_length n l : List.length (lastn n l) = Nat.min n (List.length l).
Proof. unfold lastn. rewrite length_skipn. lia. Qed.

Lemma lastn_app n l l' : lastn n (lastn n l ++ l') = lastn n (l ++ l').
Proof.
  destruct (Nat.le_gt_cases (List.length l) n) as [Hle | Hgt].
  - rewrite (lastn_all n l Hle). reflexivity.
  - unfold lastn at 1 3. rewrite !length_app.
    fold (lastn n l). rewrite lastn_length.
    replace (Nat.min n (List.length l) + List.length l' - n)%nat
      with (List.length l') by lia.
    replace (List.length l + List.length l' - n)%nat
      with (List.length l' + (List.length l - n))%nat by lia.
    rewrite <- skipn_skipn. f_equal.
    rewrite skipn_app.
    replace (List.length l - n - List.length l)%nat with 0%nat by lia.
    reflexivity.
Qed.

Lemma push_capped_lastn cap arr x :
  (List.length arr <= cap)%nat -> push_capped cap arr x = lastn cap (arr ++ [x]).
Proof.
  intros H. unfold push_capped, lastn. rewrite length_app. simpl.
  destruct (Nat.ltb_spec cap (List.length arr + 1)) as [Hfull | Hroom].
  - replace (List.length arr + 1 - cap)%nat with 1%nat by lia.
    destruct (arr ++ [x]); reflexivity.
  - replace (List.length arr + 1 - cap)%nat with 0%nat by lia. reflexivity.
Qed.

Lemma push_capped_length cap arr x :
  (List.length arr <= cap)%nat -> (List.length (push_capped cap arr x) <= cap)%nat.
Proof.
  intros H. rewrite push_capped_lastn by exact H. rewrite lastn_length. lia.
Qed.

Lemma push_capped_room cap arr x :
  (List.length arr < cap)%nat -> push_capped cap arr x = arr ++ [x].
Proof.
  intros H. unfold push_capped. rewrite length_app. simpl.
  destruct (Nat.ltb_spec cap (List.length arr + 1)); [lia | reflexivity].
Qed.


(** The newest element is always retained. *)
Lemma push_capped_last cap arr x d :
  (0 < cap)%nat -> (List.length arr <= cap)%nat -> last (push_capped cap arr x) d = x.
Proof.
  intros Hpos H. unfold push_capped. rewrite length_app. simpl.
  destruct (Nat.ltb_spec cap (List.length arr + 1)).
  - destruct arr as [| a arr']; [simpl in *; lia |]. simpl.
    destruct arr' as [| b arr'']; [reflexivity |].
    change (last ((b :: arr'') ++ [x]) d = x). apply last_last.
  - apply last_last.
Qed.

End Capped.

(** ** Sensors: the stored value *)

Lemma Sensor_setValue_fst (now : Z) (x : jsval) (s : Sensor.t number) (gw : IoTGateway.t) :
  fst (Sensor.setValue now x s gw)
  = let v := Math_max (Sensor.minValue s) (Math_min (Sensor.maxValue s) (ToNumber x)) in
    Sensor.set_value v (push_capped 60 (Sensor.history s) (Sensor.mkReading v now)) s.
Proof. unfold Sensor.setValue. simpl. destruct (Sensor.gateway s); reflexivity. Qed.

Lemma MotionSensor_setValue_fst (now : Z) (x : jsval) (s : MotionSensor.t) (gw : IoTGateway.t) :
  fst (MotionSensor.setValue now x s gw) = Sensor.set_value x (Sensor.history s) s.
Proof. unfold MotionSensor.setValue. simpl. destruct (Sensor.gateway s); reflexivity. Qed.

Lemma sensor_setValue_sensors (now : Z) (r : SenRef) (x : jsval) (h : Home) :
  sensors (sensor_setValue now r x h)
  = let ss := sensors h in
    let g := gateway h in
    match r with
    | sen_temperature =>
        mkSensors (fst (Sensor.setValue now x (temperature ss) g)) (motion ss) (humidity ss)
          (power ss) (distance ss) (light ss)
    | sen_motion =>
        mkSensors (temperature ss) (fst (MotionSensor.setValue now x (motion ss) g))
          (humidity ss) (power ss) (distance ss) (light ss)
    | sen_humidity =>
        mkSensors (temperature ss) (motion ss) (fst (Sensor.setValue now x (humidity ss) g))
          (power ss) (distance ss) (light ss)
    | sen_power =>
        mkSensors (temperature ss) (motion ss) (humidity ss)
          (fst (Sensor.setValue now x (power ss) g)) (distance ss) (light ss)
    | sen_distance =>
        mkSensors (temperature ss) (motion ss) (humidity ss) (power ss)
          (fst (Sensor.setValue now x (distance ss) g)) (light ss)
    | sen_light =>
        mkSensors (temperature ss) (motion ss) (humidity ss) (power ss) (distance ss)
          (fst (Sensor.setValue now x (light ss) g))
    end.
Proof.
  destruct r; unfold sensor_setValue; simpl;
    match goal with
    | |- context [Sensor.setValue ?a ?b ?c ?d] => destruct (Sensor.setValue a b c d)
    | |- context [MotionSensor.setValue ?a ?b ?c ?d] => destruct (MotionSensor.setValue a b c d)
    end; reflexivity.
Qed.

(** Rewrites a write through a reference into the write on the object. *)
Ltac sensor_write :=
  rewrite ?sensor_setValue_sensors; simpl;
  rewrite ?Sensor_setValue_fst, ?MotionSensor_setValue_fst; simpl.

Lemma sensor_setValue_minValue (now : Z) (r r' : SenRef) (x : jsval) (h : Home) :
  sensor_minValue r' (sensors (sensor_setValue now r x h)) = sensor_minValue r' (sensors h).
Proof. destruct r, r'; sensor_write; reflexivity. Qed.

Lemma sensor_setValue_maxValue (now : Z) (r r' : SenRef) (x : jsval) (h : Home) :
  sensor_maxValue r' (sensors (sensor_setValue now r x h)) = sensor_maxValue r' (sensors h).
Proof. destruct r, r'; sensor_write; reflexivity. Qed.

Lemma sensor_setValue_value (now : Z) (r : SenRef) (x : jsval) (h : Home) :
  sensor_value r (sensors (sensor_setValue now r x h))
  = match r with
    | sen_motion => x
    | _ => JNum (Math_max (sensor_minValue r (sensors h))
                   (Math_min (sensor_maxValue r (sensors h)) (ToNumber x)))
    end.
Proof. destruct r; sensor_write; reflexivity. Qed.

Lemma initial_ranges_proper : ranges_proper initial_sensors.
Proof. intros []; vm_compute; reflexivity. Qed.

Lemma sensor_setValue_ranges_proper (now : Z) (r : SenRef) (x : jsval) (h : Home) :
  ranges_proper (sensors h) -> ranges_proper (sensors (sensor_setValue now r x h)).
Proof.
  intros H r'. rewrite sensor_setValue_minValue, sensor_setValue_maxValue. apply H.
Qed.

(** C1 (as amended).  For each of the five sensors that inherit [setValue]
    (temperature, humidity, power, distance, ambient light), with a proper
    range, the value stored by [setValue(x)] is a number, it is [x] clamped
    to [[minValue, maxValue]], and it lies within those bounds whenever [x]
    is not NaN; the bounds themselves are untouched.  The motion sensor's
    own [setValue] stores [x] as it is given. *)
Theorem setValue_stores_clamped (now : Z) (r : SenRef) (x : jsval) (h : Home) :
  ranges_proper (sensors h) ->
  let ss' := sensors (sensor_setValue now r x h) in
  let lo := sensor_minValue r ss' in
  let hi := sensor_maxValue r ss' in
  (r <> sen_motion ->
   exists v : number,
     sensor_value r ss' = JNum v
     /\ same_number v (clamp lo hi (ToNumber x))
     /\ (isNaN (ToNumber x) = false -> within lo hi v))
  /\ (r = sen_motion -> sensor_value r ss' = x)
  /\ lo = sensor_minValue r (sensors h)
  /\ hi = sensor_maxValue r (sensors h).
Proof.
  intros Hrange ss' lo hi. subst ss' lo hi.
  rewrite sensor_setValue_minValue, sensor_setValue_maxValue, sensor_setValue_value.
  specialize (Hrange r).
  repeat split.
  - intros Hr.
    exists (Math_max (sensor_minValue r (sensors h))
              (Math_min (sensor_maxValue r (sensors h)) (ToNumber x))).
    repeat split.
    + destruct r; try reflexivity. congruence.
    + apply Math_clamp_spec, Hrange.
    + apply (proj1 (Math_clamp_within _ _ _ Hrange H)).
    + apply (proj2 (Math_clamp_within _ _ _ Hrange H)).
  - intros ->. reflexivity.
Qed.

Lemma setValue_stores_clamped_witness :
  ranges_proper (sensors (home initial_world))
  /\ exists v : number,
       sensor_value sen_temperature
         (sensors (sensor_setValue 0 sen_temperature (JNum (of_Z 50)) (home initial_world)))
       = JNum v
       /\ same_number v (of_Z 40).
Proof.
  split; [exact initial_ranges_proper |].
  destruct (setValue_stores_clamped 0 sen_temperature (JNum (of_Z 50)) (home initial_world)
              initial_ranges_proper) as [Hnum _].
  destruct (Hnum ltac:(discriminate)) as [v [Hv [Hclamp _]]].
  exists v. split; [exact Hv | exact Hclamp].
Defined.

(** C1 as stated fails: the motion sensor stores 5 although its range is
    [[0, 1]], and the temperature sensor stores NaN, which lies in no range. *)
Lemma setValue_stores_clamped_counterexample :
  ~ stored_value_clamped 0 sen_motion (JNum (of_Z 5)) (home initial_world)
  /\ ~ stored_value_clamped 0 sen_temperature (JNum NaN) (home initial_world).
Proof.
  split; intros [v [Hv [_ [Hlo Hhi]]]];
    rewrite sensor_setValue_value in Hv; injection Hv as <-;
    rewrite ?sensor_setValue_minValue, ?sensor_setValue_maxValue in *;
    vm_compute in Hlo, Hhi; discriminate.
Qed.

(** ** Sensors: the history *)

Lemma map_push_capped {A B : Type} (f : A -> B) (cap : nat) (arr : list A) (x : A) :
  map f (push_capped cap arr x) = push_capped cap (map f arr) (f x).
Proof.
  unfold push_capped.
  replace (map f arr ++ [f x]) with (map f (arr ++ [x])) by apply map_app.
  rewrite length_map.
  destruct (Nat.ltb cap (List.length (arr ++ [x]))); [| reflexivity].
  destruct (arr ++ [x]); reflexivity.
Qed.

Lemma sensor_setValue_history (now : Z) (r : SenRef) (x : jsval) (h : Home) :
  sensor_history r (sensors (sensor_setValue now r x h))
  = match r with
    | sen_motion => sensor_history r (sensors h)
    | _ => push_capped 60 (sensor_history r (sensors h))
             (stored_entry r (sensors h) (x, now))
    end.
Proof. destruct r; sensor_write; rewrite ?map_push_capped; reflexivity. Qed.

Lemma home_step_setValue (now : Z) (r : SenRef) (x : jsval) (w : World) :
  home (step now (OpSetValue r x) w) = sensor_setValue now r x (home w).
Proof. reflexivity. Qed.

Lemma writes_to_history (r : SenRef) (writes : list (jsval * Z)) :
  r <> sen_motion ->
  forall w : World,
    (List.length (sensor_history r (sensors (home w))) <= 60)%nat ->
    sensor_history r (sensors (home (steps (writes_to r writes) w)))
    = lastn 60 (sensor_history r (sensors (home w))
                ++ map (stored_entry r (sensors (home w))) writes).
Proof.
  intros Hr. induction writes as [| [x now] rest IH]; intros w Hlen.
  - simpl. rewrite app_nil_r. symmetry. apply lastn_all, Hlen.
  - change (steps (writes_to r ((x, now) :: rest)) w)
      with (steps (writes_to r rest) (step now (OpSetValue r x) w)).
    change (map (stored_entry r (sensors (home w))) ((x, now) :: rest))
      with (stored_entry r (sensors (home w)) (x, now)
            :: map (stored_entry r (sensors (home w))) rest).
    assert (Hstep : sensor_history r (sensors (home (step now (OpSetValue r x) w)))
                    = push_capped 60 (sensor_history r (sensors (home w)))
                        (stored_entry r (sensors (home w)) (x, now))).
    { rewrite home_step_setValue, sensor_setValue_history.
      destruct r; try reflexivity. congruence. }
    rewrite IH.
    + rewrite Hstep. rewrite push_capped_lastn by exact Hlen.
      replace (stored_entry r (sensors (home (step now (OpSetValue r x) w))))
        with (stored_entry r (sensors (home w))).
      * rewrite lastn_app, <- app_assoc. reflexivity.
      * unfold stored_entry.
        rewrite home_step_setValue, sensor_setValue_minValue, sensor_setValue_maxValue.
        reflexivity.
    + rewrite Hstep. apply push_capped_length, Hlen.
Qed.

Lemma writes_to_motion_history (writes : list (jsval * Z)) (w : World) :
  sensor_history sen_motion (sensors (home (steps (writes_to sen_motion writes) w)))
  = sensor_history sen_motion (sensors (home w)).
Proof.
  revert w. induction writes as [| [x now] rest IH]; intros w; [reflexivity |].
  change (steps (writes_to sen_motion ((x, now) :: rest)) w)
    with (steps (writes_to sen_motion rest) (step now (OpSetValue sen_motion x) w)).
  rewrite IH, home_step_setValue, sensor_setValue_history. reflexivity.
Qed.

(** C4 (as amended).  For each of the five sensors that inherit [setValue],
    every call appends one [(value, timestamp)] entry, the value being the
    clamped one, and drops the oldest entry when the length would pass 60:
    after any run of writes the history is the last 60 of the old entries
    followed by the new ones, so its length never exceeds 60, and after 61
    writes to an empty history it holds exactly the entries of writes 2 to
    61.  The motion sensor's own [setValue] never touches its history. *)
Theorem history_keeps_last_60 (r : SenRef) (writes : list (jsval * Z)) (w : World) :
  (List.length (sensor_history r (sensors (home w))) <= 60)%nat ->
  let old := sensor_history r (sensors (home w)) in
  let entries := map (stored_entry r (sensors (home w))) writes in
  let new := sensor_history r (sensors (home (steps (writes_to r writes) w))) in
  (r <> sen_motion ->
   new = lastn 60 (old ++ entries)
   /\ (List.length new <= 60)%nat
   /\ (writes <> [] -> last new (JBool false, 0%Z) = last entries (JBool false, 0%Z))
   /\ (old = [] -> List.length writes = 61%nat -> new = List.tl entries))
  /\ (r = sen_motion -> new = old).
Proof.
  intros Hlen old entries new. split.
  - intros Hr.
    assert (Hnew : new = lastn 60 (old ++ entries))
      by (apply writes_to_history; assumption).
    split; [exact Hnew |]. split; [| split].
    + rewrite Hnew, lastn_length. lia.
    + intros Hne. rewrite Hnew.
      destruct (exists_last Hne) as [front [lastw ->]].
      subst entries. rewrite map_app. simpl. rewrite last_last.
      rewrite app_assoc. unfold lastn. rewrite length_app. simpl.
      rewrite skipn_app.
      set (l := old ++ map (stored_entry r (sensors (home w))) front).
      replace (List.length l + 1 - 60 - List.length l)%nat with 0%nat by lia.
      simpl. apply last_last.
    + intros Hold Hlen61. rewrite Hnew, Hold. simpl.
      unfold lastn. subst entries. rewrite length_map, Hlen61. simpl.
      destruct writes; reflexivity.
  - intros ->. apply writes_to_motion_history.
Qed.

Lemma history_keeps_last_60_witness :
  (List.length (sensor_history sen_temperature (sensors (home initial_world))) <= 60)%nat
  /\ sensor_history sen_temperature
       (sensors (home (steps (writes_to sen_temperature sample_writes) initial_world)))
     = List.tl (map (stored_entry sen_temperature (sensors (home initial_world)))
                  sample_writes).
Proof.
  split; [simpl; lia |].
  apply (history_keeps_last_60 sen_temperature sample_writes initial_world
           ltac:(simpl; lia));
    [discriminate | reflexivity | reflexivity].
Defined.

(** C4 as stated fails on the motion sensor: a write leaves its history
    empty. *)
Lemma history_appended_counterexample :
  ~ history_appended 0 sen_motion (JBool true) (home initial_world).
Proof.
  unfold history_appended. rewrite sensor_setValue_history. vm_compute. discriminate.
Qed.

(** ** The air conditioner's setters *)

Lemma includes_In (l : list string) (s : string) : includes l s = true <-> In s l.
Proof.
  unfold includes. rewrite existsb_exists. split.
  - intros [y [Hin Heq]]. apply String.eqb_eq in Heq. subst y. exact Hin.
  - intros Hin. exists s. split; [exact Hin | apply String.eqb_refl].
Qed.

Lemma includes_not_In (l : list string) (s : string) : ~ In s l -> includes l s = false.
Proof.
  intros H. destruct (includes l s) eqn:E; [| reflexivity].
  apply includes_In in E. contradiction.
Qed.

(** With bounds that are not zeros the source's expression is the clamp
    itself, NaN included. *)
Lemma Math_clamp_exact (lo hi x : number) :
  ltb lo hi = true -> is_zero lo = false -> is_zero hi = false ->
  Math_max lo (Math_min hi x) = clamp lo hi x.
Proof. sf_order. Qed.

Lemma setTargetTemperature_fst (now : Z) (temp : number) (this : AirConditioner.t)
    (gw : IoTGateway.t) :
  fst (AirConditioner.setTargetTemperature now temp this gw)
  = Device.set_own (c := Device.CAirConditioner)
      (Device.mkAirConditioner (AirConditioner.mode this)
         (Math_max (of_Z 16) (Math_min (of_Z 30) temp)) (AirConditioner.fanSpeed this)) this.
Proof.
  unfold AirConditioner.setTargetTemperature. simpl.
  destruct (Device.gateway this); reflexivity.
Qed.

(** C9.  On the air conditioner, [setMode] with a string outside
    [{cool, heat, auto, fan}] and [setFanSpeed] with a string outside
    [{low, medium, high, auto}] return the object and the gateway as they
    were: no field changes and nothing is published.
    [setTargetTemperature] stores its argument clamped to [[16, 30]] and
    leaves every other field alone. *)
Theorem ac_setters_validate (now : Z) (this : AirConditioner.t) (gw : IoTGateway.t)
    (mode speed : string) (temp : number) :
  ~ In mode AirConditioner.validModes ->
  ~ In speed AirConditioner.validSpeeds ->
  AirConditioner.setMode now mode this gw = (this, gw)
  /\ AirConditioner.setFanSpeed speed this gw = (this, gw)
  /\ let this' := fst (AirConditioner.setTargetTemperature now temp this gw) in
     AirConditioner.targetTemperature this' = clamp (of_Z 16) (of_Z 30) temp
     /\ (isNaN temp = false ->
         within (of_Z 16) (of_Z 30) (AirConditioner.targetTemperature this'))
     /\ AirConditioner.mode this' = AirConditioner.mode this
     /\ AirConditioner.fanSpeed this' = AirConditioner.fanSpeed this
     /\ Device.isOn this' = Device.isOn this
     /\ Device.id this' = Device.id this
     /\ Device.name this' = Device.name this
     /\ Device.maxPowerWatts this' = Device.maxPowerWatts this
     /\ Device.gateway this' = Device.gateway this.
Proof.
  intros Hmode Hspeed. split; [| split].
  - unfold AirConditioner.setMode. rewrite (includes_not_In _ _ Hmode). reflexivity.
  - unfold AirConditioner.setFanSpeed. rewrite (includes_not_In _ _ Hspeed). reflexivity.
  - rewrite setTargetTemperature_fst. cbv zeta.
    assert (Hclamp : Math_max (of_Z 16) (Math_min (of_Z 30) temp)
                     = clamp (of_Z 16) (of_Z 30) temp)
      by (apply Math_clamp_exact; reflexivity).
    split; [exact Hclamp |]. split; [| repeat split].
    intros Hnan. unfold AirConditioner.targetTemperature. simpl.
    apply Math_clamp_within; [reflexivity | exact Hnan].
Qed.

Lemma ac_setters_validate_witness :
  AirConditioner.setMode 0 "dry" (ac initial_devices) IoTGateway.constructor
  = (ac initial_devices, IoTGateway.constructor)
  /\ AirConditioner.setFanSpeed "turbo" (ac initial_devices) IoTGateway.constructor
     = (ac initial_devices, IoTGateway.constructor)
  /\ AirConditioner.targetTemperature
       (fst (AirConditioner.setTargetTemperature 0 (of_Z 35) (ac initial_devices)
               IoTGateway.constructor))
     = of_Z 30.
Proof.
  destruct (ac_setters_validate 0 (ac initial_devices) IoTGateway.constructor
              "dry" "turbo" (of_Z 35)) as [Hmode [Hspeed [Htemp _]]].
  - simpl. intuition discriminate.
  - simpl. intuition discriminate.
  - split; [exact Hmode | split; [exact Hspeed | exact Htemp]].
Defined.

(** ** The air conditioner's mode and fan speed stay legal *)

Lemma constructor_valid (id name : string) : ac_valid (AirConditioner.constructor id name).
Proof. split; simpl; auto. Qed.

Lemma ac_call_valid (now : Z) (call : ACCall) (this : AirConditioner.t) (gw : IoTGateway.t) :
  ac_valid this -> ac_valid (fst (ac_call now call this gw)).
Proof.
  intros [Hm Hs]. destruct call; simpl.
  - unfold AirConditioner.setMode.
    destruct (includes AirConditioner.validModes mode) eqn:E; [| split; assumption].
    apply includes_In in E. simpl.
    destruct (Device.gateway this); split; assumption.
  - unfold AirConditioner.setFanSpeed.
    destruct (includes AirConditioner.validSpeeds speed) eqn:E; [| split; assumption].
    apply includes_In in E. split; assumption.
  - rewrite setTargetTemperature_fst. split; assumption.
  - unfold Device.turnOn. destruct (Device.isOn this); split; assumption.
  - unfold Device.turnOff. destruct (Device.isOn this); split; assumption.
  - unfold Device.toggle, Device.turnOn, Device.turnOff.
    destruct (Device.isOn this); split; assumption.
Qed.

Lemma ac_calls_valid (calls : list (Z * ACCall)) :
  forall (this : AirConditioner.t) (gw : IoTGateway.t),
    ac_valid this -> ac_valid (fst (ac_calls calls this gw)).
Proof.
  induction calls as [| [now call] rest IH]; intros this gw Hvalid; [exact Hvalid |].
  simpl. pose proof (ac_call_valid now call this gw Hvalid) as Hstep.
  destruct (ac_call now call this gw) as [this' gw']. apply IH. exact Hstep.
Qed.

Lemma valid_mode_multiplier (mode : string) :
  In mode AirConditioner.validModes ->
  Device.multiplier_defaulted mode = false
  /\ JSMap.get mode Device.modeMultiplier = Some (Device.multiplier mode).
Proof.
  simpl. intros [<- | [<- | [<- | [<- | []]]]]; split; vm_compute; reflexivity.
Qed.

(** C10.  Starting from a freshly constructed air conditioner, after any
    sequence of calls of its methods, whatever strings are passed to
    [setMode] and [setFanSpeed], [mode] is one of cool, heat, auto, fan and
    [fanSpeed] one of low, medium, high, auto; hence the lookup
    [modeMultiplier[this.mode]] always succeeds and the [|| 1] default is
    never taken. *)
Theorem ac_mode_and_speed_stay_legal (id name : string) (calls : list (Z * ACCall))
    (gw : IoTGateway.t) :
  let this := fst (ac_calls calls (AirConditioner.constructor id name) gw) in
  In (AirConditioner.mode this) AirConditioner.validModes
  /\ In (AirConditioner.fanSpeed this) AirConditioner.validSpeeds
  /\ Device.multiplier_defaulted (AirConditioner.mode this) = false
  /\ JSMap.get (AirConditioner.mode this) Device.modeMultiplier
     = Some (Device.multiplier (AirConditioner.mode this)).
Proof.
  intros this.
  destruct (ac_calls_valid calls _ gw (constructor_valid id name)) as [Hm Hs].
  fold this in Hm, Hs.
  destruct (valid_mode_multiplier _ Hm) as [Hd Hg]. auto.
Qed.

(** ** Device mutators and what they publish *)

(** A [publish] call always leaves its entry at the end of the log. *)
Lemma notify_messageLog (key : string) (message : Payload) (topic : string)
    (g : IoTGateway.t) :
  IoTGateway.messageLog (IoTGateway.notify key message topic g) = IoTGateway.messageLog g.
Proof.
  unfold IoTGateway.notify. destruct (JSMap.get key (IoTGateway.subscribers g)); reflexivity.
Qed.

Lemma publish_messageLog (now : Z) (topic : string) (message : Payload) (g : IoTGateway.t) :
  IoTGateway.messageLog (IoTGateway.publish now topic message g)
  = push_capped 100 (IoTGateway.messageLog g) (IoTGateway.mkLogEntry topic message now).
Proof. unfold IoTGateway.publish. rewrite !notify_messageLog. reflexivity. Qed.

(** C2 (as amended).  For a device bound to the gateway: [turnOn] on a
    device that is off, and [turnOff] on one that is on, flip [isOn] and
    publish one state message, while on a device already in the requested
    state they return the object and the gateway unchanged; [setBrightness],
    [setTargetTemperature] (of the air conditioner and of the water heater)
    and [setMode] with a legal mode store the (clamped) value and publish one
    message on every call, also when the value stored is the one already
    held. *)
Theorem mutators_publish (c : Device.Class) (now : Z) (this : Device.t c)
    (l : Light.t) (a : AirConditioner.t) (wh : WaterHeater.t) (gw : IoTGateway.t)
    (level temp : number) (mode : string) :
  Device.gateway this = true ->
  Device.gateway l = true ->
  Device.gateway a = true ->
  Device.gateway wh = true ->
  In mode AirConditioner.validModes ->
  (Device.isOn this = false ->
   let this' := Device.set_isOn true this in
   fst (Device.turnOn now this gw) = this'
   /\ published now ("device/" ++ Device.id this ++ "/state")
        (DeviceState (Device.id this) (Device.name this) true
           (Device.getCurrentPowerConsumption this'))
        gw (snd (Device.turnOn now this gw)))
  /\ (Device.isOn this = true -> Device.turnOn now this gw = (this, gw))
  /\ (Device.isOn this = true ->
      let this' := Device.set_isOn false this in
      fst (Device.turnOff now this gw) = this'
      /\ published now ("device/" ++ Device.id this ++ "/state")
           (DeviceState (Device.id this) (Device.name this) false
              (Device.getCurrentPowerConsumption this'))
           gw (snd (Device.turnOff now this gw)))
  /\ (Device.isOn this = false -> Device.turnOff now this gw = (this, gw))
  /\ (let b := Math_max (of_Z 0) (Math_min (of_Z 100) level) in
      Light.brightness (fst (Light.setBrightness now level l gw)) = b
      /\ published now ("device/" ++ Device.id l ++ "/brightness")
           (DeviceBrightness (Device.id l) b) gw (snd (Light.setBrightness now level l gw)))
  /\ (AirConditioner.mode (fst (AirConditioner.setMode now mode a gw)) = mode
      /\ published now ("device/" ++ Device.id a ++ "/mode")
           (DeviceMode (Device.id a) mode) gw (snd (AirConditioner.setMode now mode a gw)))
  /\ (let t := Math_max (of_Z 16) (Math_min (of_Z 30) temp) in
      AirConditioner.targetTemperature
        (fst (AirConditioner.setTargetTemperature now temp a gw)) = t
      /\ published now ("device/" ++ Device.id a ++ "/target-temp")
           (DeviceTargetTemp (Device.id a) t) gw
           (snd (AirConditioner.setTargetTemperature now temp a gw)))
  /\ (let t := Math_max (of_Z 30) (Math_min (of_Z 70) temp) in
      WaterHeater.targetTemperature
        (fst (WaterHeater.setTargetTemperature now temp wh gw)) = t
      /\ published now ("device/" ++ Device.id wh ++ "/target-temp")
           (DeviceTargetTemp (Device.id wh) t) gw
           (snd (WaterHeater.setTargetTemperature now temp wh gw))).
Proof.
  intros Hthis Hl Ha Hwh Hmode. unfold published.
  refine (conj _ (conj _ (conj _ (conj _ (conj _ (conj _ (conj _ _))))))).
  - intros Hoff. unfold Device.turnOn, Device.onStateChange. rewrite Hoff. simpl.
    rewrite Hthis. split; reflexivity.
  - intros Hon. unfold Device.turnOn. rewrite Hon. reflexivity.
  - intros Hon. unfold Device.turnOff, Device.onStateChange. rewrite Hon. simpl.
    rewrite Hthis. split; reflexivity.
  - intros Hoff. unfold Device.turnOff. rewrite Hoff. reflexivity.
  - unfold Light.setBrightness. simpl. rewrite Hl. split; reflexivity.
  - unfold AirConditioner.setMode. rewrite (proj2 (includes_In _ _) Hmode). simpl.
    rewrite Ha. split; reflexivity.
  - unfold AirConditioner.setTargetTemperature. simpl. rewrite Ha. split; reflexivity.
  - unfold WaterHeater.setTargetTemperature. simpl. rewrite Hwh. split; reflexivity.
Qed.

Lemma mutators_publish_witness :
  Device.gateway (ac (devices (home (started_world 0)))) = true
  /\ Device.isOn (ac (devices (home (started_world 0)))) = false
  /\ List.length
       (IoTGateway.messageLog
          (snd (Device.turnOn 5 (ac (devices (home (started_world 0))))
                  (gateway (home (started_world 0))))))
     = 12%nat.
Proof.
  split; [reflexivity | split; [reflexivity |]].
  destruct (mutators_publish Device.CAirConditioner 5
              (ac (devices (home (started_world 0))))
              (light1 (devices (home (started_world 0))))
              (ac (devices (home (started_world 0))))
              (waterHeater (devices (home (started_world 0))))
              (gateway (home (started_world 0)))
              (of_Z 50) (of_Z 20) "heat"
              eq_refl eq_refl eq_refl eq_refl ltac:(simpl; auto)) as [Hon _].
  destruct (Hon eq_refl) as [_ Hpub]. unfold published in Hpub.
  rewrite Hpub, publish_messageLog. reflexivity.
Defined.

(** C2 as stated fails: after start-up, [setBrightness(100)] on the first
    light, whose brightness is 100 already, leaves every device as it was
    and yet publishes, so the state is not unchanged. *)
Lemma silent_when_value_held_counterexample :
  ~ silent_when_value_held 1 (started_world 0)
  /\ devices (home (step 1 (OpSetBrightness "light1" (of_Z 100)) (started_world 0)))
     = devices (home (started_world 0))
  /\ List.length (IoTGateway.messageLog (gateway (home (started_world 0)))) = 11%nat
  /\ List.length
       (IoTGateway.messageLog
          (gateway (home (step 1 (OpSetBrightness "light1" (of_Z 100)) (started_world 0)))))
     = 12%nat.
Proof.
  split; [| split; [| split]]; try (vm_compute; reflexivity).
  intros H. unfold silent_when_value_held in H.
  apply (f_equal (fun h => List.length (IoTGateway.messageLog (gateway h)))) in H.
  vm_compute in H. discriminate.
Qed.

(** [setFanSpeed] changes [fanSpeed], which [getState] reports, and has no
    [publish] call. *)
Lemma setFanSpeed_never_publishes (speed : string) (this : AirConditioner.t)
    (gw : IoTGateway.t) :
  snd (AirConditioner.setFanSpeed speed this gw) = gw.
Proof.
  unfold AirConditioner.setFanSpeed.
  destruct (includes AirConditioner.validSpeeds speed); reflexivity.
Qed.

(** ** Total power *)

Lemma power_sum_nil : power_sum [] = of_Z 0.
Proof. reflexivity. Qed.

Lemma power_sum_snoc (powers : list number) (p : number) :
  power_sum (powers ++ [p]) = add (power_sum powers) p.
Proof. unfold power_sum. rewrite fold_left_app. reflexivity. Qed.

Lemma fold_left_map_add (ds : list AnyDevice) (acc : number) :
  fold_left (fun total device => add total (any_power device)) ds acc
  = fold_left add (map any_power ds) acc.
Proof.
  revert acc. induction ds as [| d ds IH]; intros acc; [reflexivity |].
  cbn [map fold_left]. apply IH.
Qed.

(** The power formula of each class. *)
Lemma Light_power (l : Light.t) :
  Device.getCurrentPowerConsumption l
  = if negb (Device.isOn l) then of_Z 0
    else div (mul (Device.maxPowerWatts l) (Light.brightness l)) (of_Z 100).
Proof. reflexivity. Qed.

Lemma AirConditioner_power (a : AirConditioner.t) :
  Device.getCurrentPowerConsumption a
  = if negb (Device.isOn a) then of_Z 0
    else mul (Device.maxPowerWatts a) (Device.multiplier (AirConditioner.mode a)).
Proof. reflexivity. Qed.

Lemma WaterHeater_power (d : WaterHeater.t) :
  Device.getCurrentPowerConsumption d
  = if negb (Device.isOn d) then of_Z 0
    else if WaterHeater.isHeating d then Device.maxPowerWatts d else of_Z 50.
Proof. reflexivity. Qed.

Lemma total_power_of_five (h : Home) :
  JSMap.values (IoTGateway.devices (gateway h))
  = [dev_light1; dev_light2; dev_light3; dev_ac; dev_waterHeater] ->
  getTotalPowerConsumption h
  = add (add (add (add (add (of_Z 0)
      (Device.getCurrentPowerConsumption (light1 (devices h))))
      (Device.getCurrentPowerConsumption (light2 (devices h))))
      (Device.getCurrentPowerConsumption (light3 (devices h))))
      (Device.getCurrentPowerConsumption (ac (devices h))))
      (Device.getCurrentPowerConsumption (waterHeater (devices h))).
Proof.
  intros Hreg. unfold getTotalPowerConsumption, getAllDevices. rewrite Hreg. reflexivity.
Qed.

(** Only what the registry holds is counted. *)
Lemma total_power_over_registry (h : Home) :
  getTotalPowerConsumption h
  = power_sum (map (fun r : DevRef => any_power (device_at r (devices h)))
                 (JSMap.values (IoTGateway.devices (gateway h)))).
Proof.
  unfold getTotalPowerConsumption, getAllDevices, power_sum.
  rewrite fold_left_map_add, map_map. reflexivity.
Qed.

Lemma total_power_unregistered (h : Home) :
  IoTGateway.devices (gateway h) = [] -> getTotalPowerConsumption h = of_Z 0.
Proof. intros Hreg. rewrite total_power_over_registry, Hreg. reflexivity. Qed.

(** C5.  Whatever devices are registered and whatever state they are in,
    the gateway's total power is the sum, over the values of its registry
    [this.devices] in registration order, of the power of the device each
    entry refers to, at that device's current state; a device that is not
    in the registry is not counted.  In particular, with the five devices
    of the application registered at their rated powers, one light on at
    50% brightness and the other two off, the air conditioner on in cool
    mode and the water heater on but not heating, the total is exactly
    1580 W. *)
Theorem total_power_is_sum (h : Home) :
  getTotalPowerConsumption h
  = power_sum (map (fun r : DevRef => any_power (device_at r (devices h)))
                 (JSMap.values (IoTGateway.devices (gateway h))))
  /\ (JSMap.values (IoTGateway.devices (gateway h))
      = [dev_light1; dev_light2; dev_light3; dev_ac; dev_waterHeater] ->
      rated (devices h) ->
      one_light_at_half (devices h) ->
      Device.isOn (ac (devices h)) = true ->
      AirConditioner.mode (ac (devices h)) = "cool" ->
      Device.isOn (waterHeater (devices h)) = true ->
      WaterHeater.isHeating (waterHeater (devices h)) = false ->
      getTotalPowerConsumption h = of_Z 1580).
Proof.
  split; [apply total_power_over_registry |].
  intros Hreg (R1 & R2 & R3 & R4 & R5) Hlights Hac Hmode Hwh Hheat.
  rewrite (total_power_of_five h Hreg).
  rewrite !Light_power, AirConditioner_power, WaterHeater_power.
  rewrite R1, R2, R3, R4, R5, Hac, Hmode, Hwh, Hheat.
  unfold on_at_half in Hlights.
  destruct Hlights as [([H1 B1] & H2 & H3) | [(H1 & [H2 B2] & H3) | (H1 & H2 & [H3 B3])]];
    rewrite H1, H2, H3, ?B1, ?B2, ?B3; vm_compute; reflexivity.
Qed.

Lemma total_power_is_sum_witness :
  getTotalPowerConsumption (home evening_world) = of_Z 1580.
Proof.
  apply (proj2 (total_power_is_sum (home evening_world))).
  - vm_compute. reflexivity.
  - repeat split; vm_compute; reflexivity.
  - left. repeat split; vm_compute; reflexivity.
  - vm_compute. reflexivity.
  - vm_compute. reflexivity.
  - vm_compute. reflexivity.
  - vm_compute. reflexivity.
Defined.

(** A light that is switched on before it is registered draws 60 W and
    counts for nothing in the total. *)
Example unregistered_light_not_counted :
  let h := home (step 1 (OpTurnOn dev_light1) initial_world) in
  Device.getCurrentPowerConsumption (light1 (devices h)) = of_Z 60
  /\ getTotalPowerConsumption h = of_Z 0.
Proof. vm_compute. split; reflexivity. Qed.

(** The three summands of the example. *)
Example power_of_light_at_half :
  Device.getCurrentPowerConsumption (light1 (devices (home evening_world))) = of_Z 30.
Proof. vm_compute. reflexivity. Qed.

Example power_of_ac_cooling :
  Device.getCurrentPowerConsumption (ac (devices (home evening_world))) = of_Z 1500.
Proof. vm_compute. reflexivity. Qed.

Example power_of_heater_standby :
  Device.getCurrentPowerConsumption (waterHeater (devices (home evening_world))) = of_Z 50.
Proof. vm_compute. reflexivity. Qed.

(** ** Rules: what one evaluation does *)

Section OnObject.

Variable h : Home.

Lemma on_ac_devices f :
  devices (on_ac f h) = set_ac (fst (f (ac (devices h)) (gateway h))) (devices h).
Proof. unfold on_ac. destruct (f (ac (devices h)) (gateway h)); reflexivity. Qed.

Lemma on_ac_sensors f : sensors (on_ac f h) = sensors h.
Proof. unfold on_ac. destruct (f (ac (devices h)) (gateway h)); reflexivity. Qed.

Lemma on_light1_devices f :
  devices (on_light1 f h) = set_light1 (fst (f (light1 (devices h)) (gateway h))) (devices h).
Proof. unfold on_light1. destruct (f (light1 (devices h)) (gateway h)); reflexivity. Qed.

Lemma on_light1_sensors f : sensors (on_light1 f h) = sensors h.
Proof. unfold on_light1. destruct (f (light1 (devices h)) (gateway h)); reflexivity. Qed.

Lemma on_light2_devices f :
  devices (on_light2 f h) = set_light2 (fst (f (light2 (devices h)) (gateway h))) (devices h).
Proof. unfold on_light2. destruct (f (light2 (devices h)) (gateway h)); reflexivity. Qed.

Lemma on_light2_sensors f : sensors (on_light2 f h) = sensors h.
Proof. unfold on_light2. destruct (f (light2 (devices h)) (gateway h)); reflexivity. Qed.

Lemma on_light3_devices f :
  devices (on_light3 f h) = set_light3 (fst (f (light3 (devices h)) (gateway h))) (devices h).
Proof. unfold on_light3. destruct (f (light3 (devices h)) (gateway h)); reflexivity. Qed.

Lemma on_light3_sensors f : sensors (on_light3 f h) = sensors h.
Proof. unfold on_light3. destruct (f (light3 (devices h)) (gateway h)); reflexivity. Qed.

End OnObject.

Lemma turnOn_fst {c : Device.Class} (now : Z) (this : Device.t c) (gw : IoTGateway.t) :
  fst (Device.turnOn now this gw) = Device.set_isOn true this.
Proof.
  unfold Device.turnOn. destruct this as [i n [|] m g o]; reflexivity.
Qed.

Lemma turnOff_fst {c : Device.Class} (now : Z) (this : Device.t c) (gw : IoTGateway.t) :
  fst (Device.turnOff now this gw) = Device.set_isOn false this.
Proof.
  unfold Device.turnOff. destruct this as [i n [|] m g o]; reflexivity.
Qed.

Lemma setMode_cool_fst (now : Z) (this : AirConditioner.t) (gw : IoTGateway.t) :
  fst (AirConditioner.setMode now "cool" this gw)
  = Device.set_own (c := Device.CAirConditioner)
      (Device.mkAirConditioner "cool" (AirConditioner.targetTemperature this)
         (AirConditioner.fanSpeed this)) this.
Proof.
  unfold AirConditioner.setMode.
  change (includes AirConditioner.validModes "cool") with true. cbv iota.
  destruct this as [i n o m [|] w]; reflexivity.
Qed.

(** The three ways [run] can go. *)
Lemma run_disabled (now : Z) (this : AutomationRule.t) (h : Home) :
  AutomationRule.enabled this = false -> AutomationRule.run now this h = (false, this, h).
Proof. intros H. unfold AutomationRule.run. rewrite H. reflexivity. Qed.

Lemma run_triggered (now : Z) (this : AutomationRule.t) (h : Home) :
  AutomationRule.enabled this = true ->
  ToBoolean (fst (AutomationRule.evaluate this h)) = true ->
  AutomationRule.run now this h
  = (true,
     AutomationRule.stamp now
       (fst (AutomationRule.execute now (snd (AutomationRule.evaluate this h)) h)),
     snd (AutomationRule.execute now (snd (AutomationRule.evaluate this h)) h)).
Proof.
  intros He Hc. unfold AutomationRule.run. rewrite He. cbv iota beta delta [negb].
  destruct (AutomationRule.evaluate this h) as [c this1]. simpl in Hc. rewrite Hc.
  simpl. destruct (AutomationRule.execute now this1 h); reflexivity.
Qed.

Lemma run_not_triggered (now : Z) (this : AutomationRule.t) (h : Home) :
  AutomationRule.enabled this = true ->
  ToBoolean (fst (AutomationRule.evaluate this h)) = false ->
  AutomationRule.run now this h = (false, snd (AutomationRule.evaluate this h), h).
Proof.
  intros He Hc. unfold AutomationRule.run. rewrite He. cbv iota beta delta [negb].
  destruct (AutomationRule.evaluate this h) as [c this1]. simpl in Hc. rewrite Hc.
  reflexivity.
Qed.

(** C6.  With the temperature sensor reading 27, the motion sensor reading
    [true] and the air conditioner off, one [run] of the cooling-on rule as
    constructed triggers; afterwards the air conditioner is on, its mode is
    "cool", and the rule's [triggerCount] has gone from 0 to 1. *)
Theorem cooling_on_triggers (now : Z) (h : Home) :
  Sensor.value (temperature (sensors h)) = of_Z 27 ->
  Sensor.value (motion (sensors h)) = JBool true ->
  Device.isOn (ac (devices h)) = false ->
  AutomationRule.triggerCount AutomationRule.newHVACCoolingRule = 0%Z
  /\ exists (rule' : AutomationRule.t) (h' : Home),
       AutomationRule.run now AutomationRule.newHVACCoolingRule h = (true, rule', h')
       /\ Device.isOn (ac (devices h')) = true
       /\ AirConditioner.mode (ac (devices h')) = "cool"
       /\ AutomationRule.triggerCount rule' = 1%Z
       /\ AutomationRule.lastTriggered rule' = Some now.
Proof.
  intros Htemp Hmotion Hoff. split; [reflexivity |].
  eexists. eexists. split.
  - apply run_triggered; [reflexivity |].
    unfold AutomationRule.evaluate. cbn [AutomationRule.own AutomationRule.newHVACCoolingRule
      AutomationRule.set_own AutomationRule.constructor fst].
    rewrite Htemp, Hmotion, Hoff. vm_compute. reflexivity.
  - unfold AutomationRule.evaluate, AutomationRule.execute.
    cbn [AutomationRule.own AutomationRule.newHVACCoolingRule
      AutomationRule.set_own AutomationRule.constructor fst snd AutomationRule.announce].
    unfold AutomationRule.announce, set_gateway.
    cbn [devices AutomationRule.stamp AutomationRule.triggerCount AutomationRule.lastTriggered].
    rewrite !on_ac_devices. cbn [ac set_ac].
    rewrite turnOn_fst, setMode_cool_fst.
    repeat split.
Qed.

Lemma cooling_on_triggers_witness :
  exists (rule' : AutomationRule.t) (h' : Home),
    AutomationRule.run 7 AutomationRule.newHVACCoolingRule
      (sensor_setValue 6 sen_motion (JBool true)
         (sensor_setValue 5 sen_temperature (JNum (of_Z 27)) (home (started_world 0))))
    = (true, rule', h')
    /\ Device.isOn (ac (devices h')) = true
    /\ AirConditioner.mode (ac (devices h')) = "cool"
    /\ AutomationRule.triggerCount rule' = 1%Z.
Proof.
  destruct (cooling_on_triggers 7
              (sensor_setValue 6 sen_motion (JBool true)
                 (sensor_setValue 5 sen_temperature (JNum (of_Z 27)) (home (started_world 0)))))
    as [_ [rule' [h' [Hrun [Hon [Hmode [Hcount _]]]]]]];
    try (vm_compute; reflexivity).
  exists rule', h'. repeat split; assumption.
Defined.

(** ** The lights-on rule *)

(** Whatever the state, a [run] of the lights-on rule leaves the third
    light as it found it. *)
Lemma lighting_on_keeps_light3 (now : Z) (this : AutomationRule.t) (h : Home)
    (lightThreshold : number) :
  AutomationRule.own this = AutomationRule.LightingOnRule lightThreshold ->
  light3 (devices (snd (AutomationRule.run now this h))) = light3 (devices h).
Proof.
  intros Hown. unfold AutomationRule.run.
  destruct (negb (AutomationRule.enabled this)); [reflexivity |].
  unfold AutomationRule.evaluate. rewrite Hown.
  match goal with |- context [ToBoolean ?c] => destruct (ToBoolean c) end;
    [| reflexivity].
  unfold AutomationRule.execute. rewrite Hown.
  cbn [snd AutomationRule.announce]. unfold AutomationRule.announce, set_gateway.
  cbn [devices]. rewrite on_light2_devices, on_light1_devices. reflexivity.
Qed.

(** C7.  With all three lights off, the ambient-light sensor reading 100
    and the motion sensor reading [true], one [run] of the lights-on rule as
    constructed triggers; afterwards lights 1 and 2 are on and light 3 is
    still off, untouched by the rule. *)
Theorem lights_on_triggers (now : Z) (h : Home) :
  Device.isOn (light1 (devices h)) = false ->
  Device.isOn (light2 (devices h)) = false ->
  Device.isOn (light3 (devices h)) = false ->
  Sensor.value (light (sensors h)) = of_Z 100 ->
  Sensor.value (motion (sensors h)) = JBool true ->
  exists (rule' : AutomationRule.t) (h' : Home),
    AutomationRule.run now AutomationRule.newLightingOnRule h = (true, rule', h')
    /\ Device.isOn (light1 (devices h')) = true
    /\ Device.isOn (light2 (devices h')) = true
    /\ Device.isOn (light3 (devices h')) = false
    /\ light3 (devices h') = light3 (devices h).
Proof.
  intros H1 H2 H3 Hlux Hmotion.
  eexists. eexists. split.
  - apply run_triggered; [reflexivity |].
    unfold AutomationRule.evaluate. cbn [AutomationRule.own AutomationRule.newLightingOnRule
      AutomationRule.set_own AutomationRule.constructor fst].
    rewrite Hlux, Hmotion, H1, H2, H3. vm_compute. reflexivity.
  - unfold AutomationRule.evaluate, AutomationRule.execute.
    cbn [AutomationRule.own AutomationRule.newLightingOnRule
      AutomationRule.set_own AutomationRule.constructor fst snd].
    unfold AutomationRule.announce, set_gateway. cbn [devices].
    rewrite on_light2_devices, on_light1_devices. cbn [light1 light2 light3 set_light1 set_light2].
    rewrite !turnOn_fst. repeat split. exact H3.
Qed.

Lemma lights_on_triggers_witness :
  exists (rule' : AutomationRule.t) (h' : Home),
    AutomationRule.run 7 AutomationRule.newLightingOnRule
      (sensor_setValue 6 sen_motion (JBool true)
         (sensor_setValue 5 sen_light (JNum (of_Z 100)) (home (started_world 0))))
    = (true, rule', h')
    /\ Device.isOn (light1 (devices h')) = true
    /\ Device.isOn (light2 (devices h')) = true
    /\ Device.isOn (light3 (devices h')) = false.
Proof.
  destruct (lights_on_triggers 7
              (sensor_setValue 6 sen_motion (JBool true)
                 (sensor_setValue 5 sen_light (JNum (of_Z 100)) (home (started_world 0)))))
    as [rule' [h' [Hrun [Hl1 [Hl2 [Hl3 _]]]]]];
    try (vm_compute; reflexivity).
  exists rule', h'. repeat split; assumption.
Defined.

(** Writing a sensor touches no device. *)
Lemma sensor_setValue_devices (now : Z) (r : SenRef) (x : jsval) (h : Home) :
  devices (sensor_setValue now r x h) = devices h.
Proof.
  destruct r; unfold sensor_setValue; cbv zeta;
    match goal with |- context [let '(_, _) := ?p in _] => destruct p end; reflexivity.
Qed.

(** ** The cooling-off rule: a timer of 150 ticks *)

Section CoolingOff.

Variable this : AutomationRule.t.
Variable noMotionDuration : Z.
Hypothesis Hown : AutomationRule.own this = AutomationRule.HVACOffRule noMotionDuration 5.
Hypothesis Henabled : AutomationRule.enabled this = true.

Variables (now : Z) (h : Home).

(** While the threshold is not reached the rule only counts. *)
Lemma cooling_off_counts :
  motion_detected h = false -> ac_isOn h = true ->
  (noMotionDuration + 2 < 300)%Z ->
  AutomationRule.run now this h
  = (false,
     AutomationRule.set_own (AutomationRule.HVACOffRule (noMotionDuration + 2) 5) this,
     h).
Proof.
  intros Hmotion Hac Hlt.
  assert (Heval : AutomationRule.evaluate this h
                  = (JBool false,
                     AutomationRule.set_own
                       (AutomationRule.HVACOffRule (noMotionDuration + 2) 5) this)).
  { unfold AutomationRule.evaluate. rewrite Hown.
    unfold motion_detected, ac_isOn in *.
    unfold js_and, js_not. cbn [ToBoolean]. rewrite Hmotion, Hac. cbn [negb].
    replace (5 * 60 <=? noMotionDuration + 2)%Z with false
      by (symmetry; apply Z.leb_gt; lia).
    reflexivity. }
  rewrite run_not_triggered; rewrite ?Heval; auto.
Qed.

(** At the threshold it triggers, turns the air conditioner off and starts
    over. *)
Lemma cooling_off_fires :
  motion_detected h = false -> ac_isOn h = true ->
  (300 <= noMotionDuration + 2)%Z ->
  exists h' : Home,
    AutomationRule.run now this h
    = (true,
       AutomationRule.stamp now
         (AutomationRule.set_own (AutomationRule.HVACOffRule 0 5) this),
       h')
    /\ ac_isOn h' = false.
Proof.
  intros Hmotion Hac Hge.
  assert (Heval : AutomationRule.evaluate this h
                  = (JBool true,
                     AutomationRule.set_own
                       (AutomationRule.HVACOffRule (noMotionDuration + 2) 5) this)).
  { unfold AutomationRule.evaluate. rewrite Hown.
    unfold motion_detected, ac_isOn in *.
    unfold js_and, js_not. cbn [ToBoolean]. rewrite Hmotion, Hac. cbn [negb].
    replace (5 * 60 <=? noMotionDuration + 2)%Z with true
      by (symmetry; apply Z.leb_le; lia).
    reflexivity. }
  eexists. split.
  - rewrite run_triggered; rewrite ?Heval; auto.
  - rewrite ?Heval. unfold AutomationRule.execute, AutomationRule.announce, set_gateway, ac_isOn.
    cbn [snd AutomationRule.own AutomationRule.set_own devices].
    rewrite on_ac_devices. cbn [ac set_ac]. rewrite turnOff_fst. reflexivity.
Qed.

(** Motion, or the air conditioner being off, resets the timer. *)
Lemma cooling_off_resets :
  motion_detected h = true \/ ac_isOn h = false ->
  AutomationRule.run now this h
  = (false, AutomationRule.set_own (AutomationRule.HVACOffRule 0 5) this, h).
Proof.
  intros Hreset.
  assert (Heval : AutomationRule.evaluate this h
                  = (JBool false,
                     AutomationRule.set_own (AutomationRule.HVACOffRule 0 5) this)).
  { unfold AutomationRule.evaluate. rewrite Hown.
    unfold motion_detected, ac_isOn in *.
    unfold js_and, js_not. cbn [ToBoolean].
    destruct Hreset as [-> | ->]; cbn [negb]; [reflexivity |].
    destruct (negb _); reflexivity. }
  rewrite run_not_triggered; rewrite ?Heval; auto.
Qed.

End CoolingOff.

Lemma run_ticks_app (ticks1 ticks2 : list (Z * Home)) (rule : AutomationRule.t) :
  run_ticks (ticks1 ++ ticks2) rule
  = (fst (run_ticks ticks1 rule) ++ fst (run_ticks ticks2 (snd (run_ticks ticks1 rule))),
     snd (run_ticks ticks2 (snd (run_ticks ticks1 rule)))).
Proof.
  revert rule. induction ticks1 as [| [now h] rest IH]; intros rule.
  - simpl. destruct (run_ticks ticks2 rule); reflexivity.
  - cbn [app run_ticks].
    destruct (AutomationRule.run now rule h) as [[triggered rule'] h'].
    rewrite IH. destruct (run_ticks rest rule') as [out rule'']. reflexivity.
Qed.

(** The sensor pass touches neither the air conditioner nor, when every
    value it writes to the motion sensor is falsy, the absence of motion. *)
Lemma sensor_writes_keep_ac (writes : list (Z * SenRef * jsval)) :
  forall h : Home,
    ac (devices (fold_left
                   (fun h' write => let '(now, r, x) := write in sensor_setValue now r x h')
                   writes h))
    = ac (devices h).
Proof.
  induction writes as [| [[now r] x] rest IH]; intros h; [reflexivity |].
  cbn [fold_left]. rewrite IH, sensor_setValue_devices. reflexivity.
Qed.

Lemma sensor_pass_ac (writes : list (Z * SenRef * jsval)) (h : Home) :
  ac (devices (sensor_pass writes h)) = ac (devices h).
Proof.
  unfold sensor_pass, on_waterHeater. cbn [devices ac set_waterHeater].
  apply sensor_writes_keep_ac.
Qed.

Lemma sensor_setValue_motion (now : Z) (r : SenRef) (x : jsval) (h : Home) :
  Sensor.value (motion (sensors (sensor_setValue now r x h)))
  = match r with
    | sen_motion => x
    | _ => Sensor.value (motion (sensors h))
    end.
Proof. destruct r; sensor_write; reflexivity. Qed.

Lemma sensor_writes_keep_still (writes : list (Z * SenRef * jsval)) :
  forall h : Home,
    Forall (fun write : Z * SenRef * jsval =>
              snd (fst write) = sen_motion -> ToBoolean (snd write) = false) writes ->
    motion_detected h = false ->
    motion_detected
      (fold_left (fun h' write => let '(now, r, x) := write in sensor_setValue now r x h')
         writes h)
    = false.
Proof.
  induction writes as [| [[now r] x] rest IH]; intros h Hwrites Hmotion; [exact Hmotion |].
  inversion Hwrites as [| ? ? Hhead Hrest]; subst. cbn [fold_left].
  apply IH; [exact Hrest |].
  unfold motion_detected in *. rewrite sensor_setValue_motion.
  destruct r; try exact Hmotion. apply Hhead. reflexivity.
Qed.

Lemma sensor_pass_still (tick : list (Z * SenRef * jsval) * Z) (h : Home) :
  no_motion_written tick ->
  motion_detected h = false ->
  motion_detected (sensor_pass (fst tick) h) = false.
Proof.
  intros Hwrites Hmotion. unfold sensor_pass, on_waterHeater.
  exact (sensor_writes_keep_still (fst tick) h Hwrites Hmotion).
Qed.

Lemma run_loop_app (ticks1 ticks2 : list (list (Z * SenRef * jsval) * Z))
    (rule : AutomationRule.t) (h : Home) :
  run_loop (ticks1 ++ ticks2) rule h
  = let first := run_loop ticks1 rule h in
    let second := run_loop ticks2 (snd (fst first)) (snd first) in
    (fst (fst first) ++ fst (fst second), snd (fst second), snd second).
Proof.
  revert rule h. induction ticks1 as [| [writes now] rest IH]; intros rule h.
  - cbn [app run_loop fst snd]. cbv zeta.
    destruct (run_loop ticks2 rule h) as [[out rule'] h']. reflexivity.
  - cbn [app run_loop].
    destruct (AutomationRule.run now rule (sensor_pass writes h)) as [[triggered rule'] h'].
    rewrite IH. cbv zeta.
    destruct (run_loop rest rule' h') as [[out1 rule1] h1]. cbn [fst snd].
    destruct (run_loop ticks2 rule1 h1) as [[out2 rule2] h2]. reflexivity.
Qed.

(** Over ticks without motion that stay below the threshold, on one home
    with the air conditioner on at the start: the rule never triggers, adds
    2 per tick, and the home each tick leaves still has no motion and the
    air conditioner on. *)
Lemma run_loop_counts (ticks : list (list (Z * SenRef * jsval) * Z)) :
  forall (rule : AutomationRule.t) (d : Z) (h : Home),
    AutomationRule.own rule = AutomationRule.HVACOffRule d 5 ->
    AutomationRule.enabled rule = true ->
    motion_detected h = false ->
    ac_isOn h = true ->
    Forall no_motion_written ticks ->
    (d + 2 * Z.of_nat (List.length ticks) < 300)%Z ->
    fst (run_loop ticks rule h)
    = (repeat false (List.length ticks),
       AutomationRule.set_own
         (AutomationRule.HVACOffRule (d + 2 * Z.of_nat (List.length ticks)) 5) rule)
    /\ motion_detected (snd (run_loop ticks rule h)) = false
    /\ ac_isOn (snd (run_loop ticks rule h)) = true.
Proof.
  induction ticks as [| [writes now] rest IH];
    intros rule d h Hown Hen Hmotion Hac Hstill Hlt.
  - cbn [run_loop fst snd repeat List.length].
    replace (d + 2 * Z.of_nat 0)%Z with d by lia.
    split; [| split; assumption]. f_equal.
    destruct rule; cbn in Hown; subst; reflexivity.
  - inversion Hstill as [| ? ? Hhead Hrest]; subst.
    cbn [List.length] in Hlt. cbn [run_loop].
    assert (Hmotion' : motion_detected (sensor_pass writes h) = false)
      by exact (sensor_pass_still (writes, now) h Hhead Hmotion).
    assert (Hac' : ac_isOn (sensor_pass writes h) = true)
      by (unfold ac_isOn; rewrite sensor_pass_ac; exact Hac).
    rewrite (cooling_off_counts rule d Hown Hen now _ Hmotion' Hac') by lia.
    destruct (IH (AutomationRule.set_own (AutomationRule.HVACOffRule (d + 2) 5) rule)
                (d + 2)%Z (sensor_pass writes h) eq_refl Hen Hmotion' Hac' Hrest
                ltac:(lia)) as (Hfst & Hm & Ha).
    destruct (run_loop rest _ (sensor_pass writes h)) as [[out rule''] h''].
    cbn [fst snd] in *. split; [| split; assumption].
    inversion Hfst; subst. cbn [repeat List.length]. f_equal.
    replace (d + 2 * Z.of_nat (S (List.length rest)))%Z
      with (d + 2 + 2 * Z.of_nat (List.length rest))%Z by lia.
    reflexivity.
Qed.

(** C3.  Take the cooling-off rule enabled with its timer at 0, and a home
    in which no motion is detected and the air conditioner is on.  Run the
    simulation's ticks on that home, each tick making its sensor pass and
    then running the rule on the home the tick before left.  Over 150
    consecutive ticks that write no motion, the rule triggers exactly once,
    on the 150th tick, when the timer reaches 300: the air conditioner is on
    after the first 149 ticks and off after the 150th, with the timer back
    at 0.  If instead motion is detected on tick 149, the timer is reset to
    0 on that tick, the rule has not triggered in those 149 ticks and the
    air conditioner is still on. *)
Theorem cooling_off_triggers_on_tick_150 (rule : AutomationRule.t) (h : Home)
    (ticks : list (list (Z * SenRef * jsval) * Z))
    (writes149 : list (Z * SenRef * jsval)) (now149 : Z) :
  AutomationRule.own rule = AutomationRule.HVACOffRule 0 5 ->
  AutomationRule.enabled rule = true ->
  motion_detected h = false ->
  ac_isOn h = true ->
  Forall no_motion_written ticks ->
  (List.length ticks = 150%nat ->
   fst (fst (run_loop ticks rule h)) = repeat false 149 ++ [true]
   /\ ac_isOn (snd (run_loop (firstn 149 ticks) rule h)) = true
   /\ ac_isOn (snd (run_loop ticks rule h)) = false
   /\ AutomationRule.own (snd (fst (run_loop ticks rule h)))
      = AutomationRule.HVACOffRule 0 5
   /\ AutomationRule.triggerCount (snd (fst (run_loop ticks rule h)))
      = (AutomationRule.triggerCount rule + 1)%Z)
  /\ (List.length ticks = 148%nat ->
      motion_detected (sensor_pass writes149 (snd (run_loop ticks rule h))) = true ->
      fst (fst (run_loop (ticks ++ [(writes149, now149)]) rule h)) = repeat false 149
      /\ ac_isOn (snd (run_loop (ticks ++ [(writes149, now149)]) rule h)) = true
      /\ AutomationRule.own (snd (fst (run_loop (ticks ++ [(writes149, now149)]) rule h)))
         = AutomationRule.HVACOffRule 0 5
      /\ AutomationRule.triggerCount
           (snd (fst (run_loop (ticks ++ [(writes149, now149)]) rule h)))
         = AutomationRule.triggerCount rule).
Proof.
  intros Hown Hen Hmotion Hac Hstill. split.
  - intros Hlen.
    destruct (exists_last (l := ticks)) as [front [[writes now] Hsplit]];
      [intros ->; discriminate |].
    subst ticks. rewrite length_app in Hlen. cbn [List.length] in Hlen.
    apply Forall_app in Hstill. destruct Hstill as [Hfront Hlast].
    inversion Hlast as [| ? ? Hwrites _]; subst.
    rewrite firstn_app, firstn_all2 by lia.
    replace (149 - List.length front)%nat with 0%nat by lia.
    cbn [firstn]. rewrite app_nil_r.
    rewrite run_loop_app. cbv zeta.
    destruct (run_loop_counts front rule 0 h Hown Hen Hmotion Hac Hfront ltac:(lia))
      as (Hfst & Hm & Ha).
    replace (0 + 2 * Z.of_nat (List.length front))%Z with 298%Z in Hfst by lia.
    destruct (run_loop front rule h) as [[out rule1] h1]. cbn [fst snd] in *.
    inversion Hfst; subst out rule1. clear Hfst.
    cbn [run_loop].
    assert (Hm' : motion_detected (sensor_pass writes h1) = false)
      by exact (sensor_pass_still (writes, now) h1 Hwrites Hm).
    assert (Ha' : ac_isOn (sensor_pass writes h1) = true)
      by (unfold ac_isOn; rewrite sensor_pass_ac; exact Ha).
    destruct (cooling_off_fires
                (AutomationRule.set_own (AutomationRule.HVACOffRule 298 5) rule) 298
                eq_refl Hen now (sensor_pass writes h1) Hm' Ha' ltac:(lia))
      as [h' [Hrun Hoff]].
    rewrite Hrun. cbn [fst snd].
    split; [replace (List.length front) with 149%nat by lia; reflexivity |].
    split; [exact Ha |]. split; [exact Hoff |]. split; reflexivity.
  - intros Hlen Hmoved.
    rewrite run_loop_app. cbv zeta.
    destruct (run_loop_counts ticks rule 0 h Hown Hen Hmotion Hac Hstill ltac:(lia))
      as (Hfst & Hm & Ha).
    replace (0 + 2 * Z.of_nat (List.length ticks))%Z with 296%Z in Hfst by lia.
    destruct (run_loop ticks rule h) as [[out rule1] h1]. cbn [fst snd] in *.
    inversion Hfst; subst out rule1. clear Hfst.
    cbn [run_loop].
    rewrite (cooling_off_resets
               (AutomationRule.set_own (AutomationRule.HVACOffRule 296 5) rule)
               296 eq_refl Hen now149 (sensor_pass writes149 h1) (or_introl Hmoved)).
    cbn [fst snd].
    split; [rewrite Hlen; reflexivity |].
    split; [unfold ac_isOn; rewrite sensor_pass_ac; exact Ha |].
    split; reflexivity.
Qed.

Lemma cooling_off_triggers_on_tick_150_witness :
  fst (fst (run_loop still_ticks AutomationRule.newHVACOffRule cooled_home))
  = repeat false 149 ++ [true]
  /\ ac_isOn (snd (run_loop still_ticks AutomationRule.newHVACOffRule cooled_home)) = false.
Proof.
  assert (Hstill : Forall no_motion_written still_ticks).
  { apply Forall_forall. intros tick Hin. apply repeat_spec in Hin. subst tick.
    constructor; [intros _; reflexivity | constructor]. }
  destruct (cooling_off_triggers_on_tick_150 AutomationRule.newHVACOffRule cooled_home
              still_ticks [] 0 eq_refl eq_refl
              ltac:(vm_compute; reflexivity) ltac:(vm_compute; reflexivity) Hstill)
    as [Hfull _].
  destruct (Hfull (repeat_length _ 150)) as (Hflags & _ & Hoff & _).
  exact (conj Hflags Hoff).
Defined.

(** ** The two logs stay within their caps *)

Create HintDb logs.

Lemma publish_log_ok (now : Z) (topic : string) (message : Payload) (g : IoTGateway.t) :
  log_ok g -> log_ok (IoTGateway.publish now topic message g).
Proof.
  unfold log_ok. intros H. rewrite publish_messageLog. apply push_capped_length, H.
Qed.
#[local] Hint Resolve publish_log_ok : logs.

Lemma subscribe_log_ok (topic : string) (callback : IoTGateway.Callback) (g : IoTGateway.t) :
  log_ok g -> log_ok (IoTGateway.subscribe topic callback g).
Proof.
  unfold log_ok, IoTGateway.subscribe. intros H.
  destruct (JSMap.get topic _); exact H.
Qed.

Lemma onStateChange_log_ok {c : Device.Class} (now : Z) (this : Device.t c) (g : IoTGateway.t) :
  log_ok g -> log_ok (Device.onStateChange now this g).
Proof. unfold Device.onStateChange. destruct (Device.gateway this); auto with logs. Qed.
#[local] Hint Resolve onStateChange_log_ok : logs.

Lemma turnOn_keeps_log {c : Device.Class} (now : Z) : keeps_log (Device.turnOn (c := c) now).
Proof.
  intros this g H. unfold Device.turnOn.
  destruct (negb (Device.isOn this)); cbn [snd]; auto with logs.
Qed.

Lemma turnOff_keeps_log {c : Device.Class} (now : Z) : keeps_log (Device.turnOff (c := c) now).
Proof.
  intros this g H. unfold Device.turnOff.
  destruct (Device.isOn this); cbn [snd]; auto with logs.
Qed.

Lemma toggle_keeps_log {c : Device.Class} (now : Z) : keeps_log (Device.toggle (c := c) now).
Proof.
  intros this g H. unfold Device.toggle.
  destruct (Device.isOn this); [apply turnOff_keeps_log | apply turnOn_keeps_log]; exact H.
Qed.

Lemma setBrightness_keeps_log (now : Z) (level : number) :
  keeps_log (Light.setBrightness now level).
Proof.
  intros this g H. unfold Light.setBrightness.
  match goal with |- context [if ?b then _ else _] => destruct b end;
    cbn [snd]; auto with logs.
Qed.

Lemma setMode_keeps_log (now : Z) (mode : string) : keeps_log (AirConditioner.setMode now mode).
Proof.
  intros this g H. unfold AirConditioner.setMode.
  destruct (includes AirConditioner.validModes mode); [| exact H].
  match goal with |- context [if ?b then _ else _] => destruct b end;
    cbn [snd]; auto with logs.
Qed.

Lemma setFanSpeed_keeps_log (speed : string) : keeps_log (AirConditioner.setFanSpeed speed).
Proof. intros this g H. rewrite setFanSpeed_never_publishes. exact H. Qed.

Lemma ac_setTargetTemperature_keeps_log (now : Z) (temp : number) :
  keeps_log (AirConditioner.setTargetTemperature now temp).
Proof.
  intros this g H. unfold AirConditioner.setTargetTemperature.
  match goal with |- context [if ?b then _ else _] => destruct b end;
    cbn [snd]; auto with logs.
Qed.

Lemma heater_setTargetTemperature_keeps_log (now : Z) (temp : number) :
  keeps_log (WaterHeater.setTargetTemperature now temp).
Proof.
  intros this g H. unfold WaterHeater.setTargetTemperature.
  match goal with |- context [if ?b then _ else _] => destruct b end;
    cbn [snd]; auto with logs.
Qed.

Lemma Sensor_setValue_keeps_log (now : Z) (x : jsval) : keeps_log (Sensor.setValue now x).
Proof.
  intros this g H. unfold Sensor.setValue.
  match goal with |- context [if ?b then _ else _] => destruct b end;
    cbn [snd]; auto with logs.
Qed.

Lemma MotionSensor_setValue_keeps_log (now : Z) (x : jsval) :
  keeps_log (MotionSensor.setValue now x).
Proof.
  intros this g H. unfold MotionSensor.setValue.
  match goal with |- context [if ?b then _ else _] => destruct b end;
    cbn [snd]; auto with logs.
Qed.

#[local] Hint Resolve turnOn_keeps_log turnOff_keeps_log toggle_keeps_log
  setBrightness_keeps_log setMode_keeps_log setFanSpeed_keeps_log
  ac_setTargetTemperature_keeps_log heater_setTargetTemperature_keeps_log
  Sensor_setValue_keeps_log MotionSensor_setValue_keeps_log : logs.

Section OnObjectLog.

Variable h : Home.
Hypothesis Hh : log_ok (gateway h).

Lemma on_light1_log_ok f : keeps_log f -> log_ok (gateway (on_light1 f h)).
Proof.
  intros Hf. unfold on_light1. specialize (Hf (light1 (devices h)) (gateway h) Hh).
  destruct (f _ _); exact Hf.
Qed.

Lemma on_light2_log_ok f : keeps_log f -> log_ok (gateway (on_light2 f h)).
Proof.
  intros Hf. unfold on_light2. specialize (Hf (light2 (devices h)) (gateway h) Hh).
  destruct (f _ _); exact Hf.
Qed.

Lemma on_light3_log_ok f : keeps_log f -> log_ok (gateway (on_light3 f h)).
Proof.
  intros Hf. unfold on_light3. specialize (Hf (light3 (devices h)) (gateway h) Hh).
  destruct (f _ _); exact Hf.
Qed.

Lemma on_ac_log_ok f : keeps_log f -> log_ok (gateway (on_ac f h)).
Proof.
  intros Hf. unfold on_ac. specialize (Hf (ac (devices h)) (gateway h) Hh).
  destruct (f _ _); exact Hf.
Qed.

Lemma on_waterHeater_log_ok f : keeps_log f -> log_ok (gateway (on_waterHeater f h)).
Proof.
  intros Hf. unfold on_waterHeater.
  specialize (Hf (waterHeater (devices h)) (gateway h) Hh).
  destruct (f _ _); exact Hf.
Qed.

Lemma on_device_log_ok f r :
  (forall c, keeps_log (f c)) -> log_ok (gateway (on_device f r h)).
Proof.
  intros Hf. destruct r; cbn [on_device];
    auto using on_light1_log_ok, on_light2_log_ok, on_light3_log_ok, on_ac_log_ok,
      on_waterHeater_log_ok.
Qed.

Lemma announce_log_ok now this action reason :
  log_ok (gateway (AutomationRule.announce now this action reason h)).
Proof. unfold AutomationRule.announce. cbn [gateway set_gateway]. auto with logs. Qed.

Lemma sensor_setValue_log_ok now r x : log_ok (gateway (sensor_setValue now r x h)).
Proof.
  destruct r; unfold sensor_setValue;
    match goal with
    | |- context [Sensor.setValue ?a ?b ?c ?d] =>
        pose proof (Sensor_setValue_keeps_log a b c d Hh) as Hs;
        destruct (Sensor.setValue a b c d)
    | |- context [MotionSensor.setValue ?a ?b ?c ?d] =>
        pose proof (MotionSensor_setValue_keeps_log a b c d Hh) as Hs;
        destruct (MotionSensor.setValue a b c d)
    end; exact Hs.
Qed.

End OnObjectLog.

#[local] Hint Resolve on_light1_log_ok on_light2_log_ok on_light3_log_ok on_ac_log_ok
  on_waterHeater_log_ok on_device_log_ok announce_log_ok sensor_setValue_log_ok
  subscribe_log_ok : logs.

Lemma execute_log_ok (now : Z) (this : AutomationRule.t) (h : Home) :
  log_ok (gateway h) -> log_ok (gateway (snd (AutomationRule.execute now this h))).
Proof.
  intros H. unfold AutomationRule.execute.
  destruct (AutomationRule.own this); cbn [snd]; auto 10 with logs.
Qed.

Lemma run_log_ok (now : Z) (this : AutomationRule.t) (h : Home) :
  log_ok (gateway h) -> log_ok (gateway (snd (AutomationRule.run now this h))).
Proof.
  intros H. unfold AutomationRule.run.
  destruct (negb (AutomationRule.enabled this)); [exact H |].
  destruct (AutomationRule.evaluate this h) as [c this1].
  destruct (ToBoolean c); [| exact H].
  pose proof (execute_log_ok now this1 h H) as He.
  destruct (AutomationRule.execute now this1 h); exact He.
Qed.

Lemma forEach_rule_bounded (now : Z) (entries : JSMap.t AutomationRule.t) :
  forall (log : list AutomationEngine.Activity) (h : Home),
    (List.length log <= 50)%nat ->
    log_ok (gateway h) ->
    (List.length (snd (fst (AutomationEngine.forEach_rule now entries log h))) <= 50)%nat
    /\ log_ok (gateway (snd (AutomationEngine.forEach_rule now entries log h))).
Proof.
  induction entries as [| [id rule] rest IH]; intros log h Hlog Hh; [split; assumption |].
  cbn [AutomationEngine.forEach_rule].
  pose proof (run_log_ok now rule h Hh) as Hrun.
  destruct (AutomationRule.run now rule h) as [[triggered rule'] h']. cbn [snd] in Hrun.
  match goal with
  | |- context [AutomationEngine.forEach_rule now rest ?l h'] =>
      assert (Hl : (List.length l <= 50)%nat)
        by (destruct triggered; [apply push_capped_length |]; exact Hlog);
      specialize (IH l h' Hl Hrun);
      destruct (AutomationEngine.forEach_rule now rest l h') as [[rest' log''] h'']
  end.
  exact IH.
Qed.

Lemma step_bounded (now : Z) (op : Op) (w : World) :
  messageLog_bounded w -> activityLog_bounded w ->
  messageLog_bounded (step now op w) /\ activityLog_bounded (step now op w).
Proof.
  unfold messageLog_bounded, activityLog_bounded. fold (log_ok (gateway (home w))).
  intros Hm Ha.
  destruct op; cbn [step with_home with_engine home engine];
    try (split; [| exact Ha]).
  all: try (fold (log_ok (gateway (home w))) in Hm).
  all: try match goal with
       | |- (List.length (IoTGateway.messageLog ?g) <= 100)%nat => change (log_ok g)
       end.
  all: try (cbn [gateway set_gateway registerDevice registerSensor]; auto with logs; fail).
  - (* setLightBrightness *)
    unfold setLightBrightness.
    destruct (getDevice id (gateway (home w))) as [[] |]; auto with logs.
  - (* evaluate *)
    unfold AutomationEngine.evaluate.
    pose proof (forEach_rule_bounded now (AutomationEngine.rules (engine w))
                  (AutomationEngine.activityLog (engine w)) (home w) Ha Hm) as [Hlog Hgw].
    destruct (AutomationEngine.forEach_rule now _ _ _) as [[rs log] h'].
    split; [exact Hgw | exact Hlog].
  - split; [exact Hm |].
    unfold AutomationEngine.enableRule. destruct (JSMap.get id _); exact Ha.
  - split; [exact Hm |].
    unfold AutomationEngine.disableRule. destruct (JSMap.get id _); exact Ha.
  - split; [exact Hm |].
    unfold AutomationEngine.toggleRule. destruct (JSMap.get id _); exact Ha.
Qed.




Lemma initial_world_bounded :
  messageLog_bounded initial_world /\ activityLog_bounded initial_world.
Proof. split; [apply Nat.le_0_l | apply Nat.le_0_l]. Qed.


(** After 150 publishes the log is full, not longer. *)
Example many_publishes_fill_the_log :
  List.length (IoTGateway.messageLog (gateway (home (steps many_publishes initial_world))))
  = 100%nat.
Proof. vm_compute. reflexivity. Qed.

(** ** What every reachable state satisfies *)

(** *** Sensors are only touched by their own writes and by registration *)

Lemma on_waterHeater_devices (h : Home) f :
  devices (on_waterHeater f h)
  = set_waterHeater (fst (f (waterHeater (devices h)) (gateway h))) (devices h).
Proof. unfold on_waterHeater. destruct (f (waterHeater (devices h)) (gateway h)); reflexivity. Qed.

Lemma on_waterHeater_sensors (h : Home) f : sensors (on_waterHeater f h) = sensors h.
Proof. unfold on_waterHeater. destruct (f (waterHeater (devices h)) (gateway h)); reflexivity. Qed.

Lemma on_device_sensors (h : Home) f r : sensors (on_device f r h) = sensors h.
Proof.
  destruct r; cbn [on_device];
    auto using on_light1_sensors, on_light2_sensors, on_light3_sensors, on_ac_sensors,
      on_waterHeater_sensors.
Qed.

Lemma execute_sensors (now : Z) (this : AutomationRule.t) (h : Home) :
  sensors (snd (AutomationRule.execute now this h)) = sensors h.
Proof.
  unfold AutomationRule.execute, AutomationRule.announce, set_gateway.
  destruct (AutomationRule.own this); cbn [snd sensors];
    rewrite ?on_light3_sensors, ?on_light2_sensors, ?on_light1_sensors, ?on_ac_sensors;
    reflexivity.
Qed.

Lemma run_sensors (now : Z) (this : AutomationRule.t) (h : Home) :
  sensors (snd (AutomationRule.run now this h)) = sensors h.
Proof.
  unfold AutomationRule.run.
  destruct (negb (AutomationRule.enabled this)); [reflexivity |].
  destruct (AutomationRule.evaluate this h) as [c this1].
  destruct (ToBoolean c); [| reflexivity].
  pose proof (execute_sensors now this1 h) as He.
  destruct (AutomationRule.execute now this1 h); exact He.
Qed.

Lemma forEach_rule_sensors (now : Z) (entries : JSMap.t AutomationRule.t) :
  forall (log : list AutomationEngine.Activity) (h : Home),
    sensors (snd (AutomationEngine.forEach_rule now entries log h)) = sensors h.
Proof.
  induction entries as [| [id rule] rest IH]; intros log h; [reflexivity |].
  cbn [AutomationEngine.forEach_rule].
  pose proof (run_sensors now rule h) as Hrun.
  destruct (AutomationRule.run now rule h) as [[triggered rule'] h']. cbn [snd] in Hrun.
  match goal with
  | |- context [AutomationEngine.forEach_rule now rest ?l h'] =>
      specialize (IH l h');
      destruct (AutomationEngine.forEach_rule now rest l h') as [[rest' log''] h'']
  end.
  cbn [snd] in *. congruence.
Qed.

Lemma step_sensors (now : Z) (op : Op) (w : World) :
  sensors (home (step now op w))
  = match op with
    | OpSetValue r x => sensors (sensor_setValue now r x (home w))
    | OpRegisterSensor r => attach_sensor r (sensors (home w))
    | _ => sensors (home w)
    end.
Proof.
  destruct op; cbn [step with_home with_engine home]; try reflexivity;
    try apply on_device_sensors; try apply on_ac_sensors;
    try apply on_waterHeater_sensors.
  - unfold setLightBrightness.
    destruct (getDevice id (gateway (home w))) as [[] |];
      auto using on_light1_sensors, on_light2_sensors, on_light3_sensors.
  - unfold AutomationEngine.evaluate.
    pose proof (forEach_rule_sensors now (AutomationEngine.rules (engine w))
                  (AutomationEngine.activityLog (engine w)) (home w)) as Hs.
    destruct (AutomationEngine.forEach_rule now _ _ _) as [[rs log] h']. exact Hs.
Qed.

Lemma sensor_setValue_history_bounded (now : Z) (r : SenRef) (x : jsval) (h : Home) :
  (forall r', (List.length (sensor_history r' (sensors h)) <= 60)%nat) ->
  forall r',
    (List.length (sensor_history r' (sensors (sensor_setValue now r x h))) <= 60)%nat.
Proof.
  intros H r'. specialize (H r').
  destruct r, r'; sensor_write; cbn [sensor_history] in *;
    rewrite ?length_map in *; try exact H; apply push_capped_length, H.
Qed.

Lemma step_sensors_invariant (now : Z) (op : Op) (w : World) :
  ranges_proper (sensors (home w)) ->
  (forall r, (List.length (sensor_history r (sensors (home w))) <= 60)%nat) ->
  ranges_proper (sensors (home (step now op w)))
  /\ forall r, (List.length (sensor_history r (sensors (home (step now op w)))) <= 60)%nat.
Proof.
  intros Hr Hh. rewrite step_sensors.
  destruct op; try (split; assumption).
  - split; intros r'; specialize (Hr r'); specialize (Hh r');
      destruct r, r'; assumption.
  - split; [apply sensor_setValue_ranges_proper, Hr
           | apply sensor_setValue_history_bounded, Hh].
Qed.

(** *** Rated powers and the air conditioner's settings *)

Lemma turnOn_keeps_rated {c : Device.Class} (now p : Z) :
  keeps (rated_at p) (Device.turnOn (c := c) now).
Proof. intros this g H. rewrite turnOn_fst. exact H. Qed.

Lemma turnOff_keeps_rated {c : Device.Class} (now p : Z) :
  keeps (rated_at p) (Device.turnOff (c := c) now).
Proof. intros this g H. rewrite turnOff_fst. exact H. Qed.

Lemma toggle_keeps_rated {c : Device.Class} (now p : Z) :
  keeps (rated_at p) (Device.toggle (c := c) now).
Proof.
  intros this g H. unfold Device.toggle.
  destruct (Device.isOn this); [apply turnOff_keeps_rated | apply turnOn_keeps_rated];
    exact H.
Qed.

Lemma setBrightness_keeps_rated (now p : Z) (level : number) :
  keeps (rated_at p) (Light.setBrightness now level).
Proof.
  intros this g H. unfold Light.setBrightness.
  match goal with |- context [if ?b then _ else _] => destruct b end; exact H.
Qed.

Lemma heater_setTargetTemperature_keeps_rated (now p : Z) (temp : number) :
  keeps (rated_at p) (WaterHeater.setTargetTemperature now temp).
Proof.
  intros this g H. unfold WaterHeater.setTargetTemperature.
  match goal with |- context [if ?b then _ else _] => destruct b end; exact H.
Qed.

Lemma update_keeps_rated (p : Z) (this : WaterHeater.t) :
  rated_at p this -> rated_at p (WaterHeater.update this).
Proof.
  intros H. unfold WaterHeater.update.
  repeat match goal with |- context [if ?b then _ else _] => destruct b end; exact H.
Qed.

(** Every method of the air conditioner keeps [ac_ok]. *)
Lemma ac_call_keeps_ok (now : Z) (call : ACCall) : keeps ac_ok (ac_call now call).
Proof.
  intros this g [Hrated Hvalid]. split; [| apply ac_call_valid, Hvalid].
  unfold rated_at in *. rewrite <- Hrated. clear.
  destruct call; cbn [ac_call].
  - unfold AirConditioner.setMode.
    repeat match goal with |- context [if ?b then _ else _] => destruct b end; reflexivity.
  - unfold AirConditioner.setFanSpeed.
    repeat match goal with |- context [if ?b then _ else _] => destruct b end; reflexivity.
  - rewrite setTargetTemperature_fst. reflexivity.
  - rewrite turnOn_fst. reflexivity.
  - rewrite turnOff_fst. reflexivity.
  - unfold Device.toggle. destruct (Device.isOn this);
      [rewrite turnOff_fst | rewrite turnOn_fst]; reflexivity.
Qed.

Section OnObjectDevices.

Variable h : Home.
Hypothesis Hok : devices_ok (devices h).

Lemma on_light1_devices_ok f :
  keeps (rated_at 60) f -> devices_ok (devices (on_light1 f h)).
Proof.
  intros Hf. rewrite on_light1_devices.
  destruct Hok as [(R1 & R2 & R3 & R4 & R5) Hac].
  split; [| exact Hac]. repeat split; try assumption. apply Hf, R1.
Qed.

Lemma on_light2_devices_ok f :
  keeps (rated_at 60) f -> devices_ok (devices (on_light2 f h)).
Proof.
  intros Hf. rewrite on_light2_devices.
  destruct Hok as [(R1 & R2 & R3 & R4 & R5) Hac].
  split; [| exact Hac]. repeat split; try assumption. apply Hf, R2.
Qed.

Lemma on_light3_devices_ok f :
  keeps (rated_at 60) f -> devices_ok (devices (on_light3 f h)).
Proof.
  intros Hf. rewrite on_light3_devices.
  destruct Hok as [(R1 & R2 & R3 & R4 & R5) Hac].
  split; [| exact Hac]. repeat split; try assumption. apply Hf, R3.
Qed.

Lemma on_ac_devices_ok f : keeps ac_ok f -> devices_ok (devices (on_ac f h)).
Proof.
  intros Hf. rewrite on_ac_devices.
  destruct Hok as [(R1 & R2 & R3 & R4 & R5) Hac].
  destruct (Hf (ac (devices h)) (gateway h) (conj R4 Hac)) as [R4' Hac'].
  split; [| exact Hac']. repeat split; assumption.
Qed.

Lemma on_waterHeater_devices_ok f :
  keeps (rated_at 2000) f -> devices_ok (devices (on_waterHeater f h)).
Proof.
  intros Hf. rewrite on_waterHeater_devices.
  destruct Hok as [(R1 & R2 & R3 & R4 & R5) Hac].
  split; [| exact Hac]. repeat split; try assumption. apply Hf, R5.
Qed.

End OnObjectDevices.

Lemma execute_devices_ok (now : Z) (this : AutomationRule.t) (h : Home) :
  devices_ok (devices h) -> devices_ok (devices (snd (AutomationRule.execute now this h))).
Proof.
  intros H. unfold AutomationRule.execute, AutomationRule.announce, set_gateway.
  destruct (AutomationRule.own this); cbn [snd devices]; try exact H.
  - apply on_ac_devices_ok; [| exact (ac_call_keeps_ok now CallTurnOn)].
    apply on_ac_devices_ok; [exact H | exact (ac_call_keeps_ok now (CallSetMode "cool"))].
  - apply on_ac_devices_ok; [exact H | exact (ac_call_keeps_ok now CallTurnOff)].
  - apply on_light2_devices_ok; [| apply turnOn_keeps_rated].
    apply on_light1_devices_ok; [exact H | apply turnOn_keeps_rated].
  - apply on_light3_devices_ok; [| apply turnOff_keeps_rated].
    apply on_light2_devices_ok; [| apply turnOff_keeps_rated].
    apply on_light1_devices_ok; [exact H | apply turnOff_keeps_rated].
  - apply on_ac_devices_ok; [| exact (ac_call_keeps_ok now (CallSetFanSpeed "high"))].
    apply on_ac_devices_ok; [exact H | exact (ac_call_keeps_ok now (CallSetMode "cool"))].
Qed.

Lemma run_devices_ok (now : Z) (this : AutomationRule.t) (h : Home) :
  devices_ok (devices h) -> devices_ok (devices (snd (AutomationRule.run now this h))).
Proof.
  intros H. unfold AutomationRule.run.
  destruct (negb (AutomationRule.enabled this)); [exact H |].
  destruct (AutomationRule.evaluate this h) as [c this1].
  destruct (ToBoolean c); [| exact H].
  pose proof (execute_devices_ok now this1 h H) as He.
  destruct (AutomationRule.execute now this1 h); exact He.
Qed.

Lemma forEach_rule_devices_ok (now : Z) (entries : JSMap.t AutomationRule.t) :
  forall (log : list AutomationEngine.Activity) (h : Home),
    devices_ok (devices h) ->
    devices_ok (devices (snd (AutomationEngine.forEach_rule now entries log h))).
Proof.
  induction entries as [| [id rule] rest IH]; intros log h H; [exact H |].
  cbn [AutomationEngine.forEach_rule].
  pose proof (run_devices_ok now rule h H) as Hrun.
  destruct (AutomationRule.run now rule h) as [[triggered rule'] h']. cbn [snd] in Hrun.
  match goal with
  | |- context [AutomationEngine.forEach_rule now rest ?l h'] =>
      specialize (IH l h' Hrun);
      destruct (AutomationEngine.forEach_rule now rest l h') as [[rest' log''] h'']
  end.
  exact IH.
Qed.

Lemma attach_device_ok (r : DevRef) (ds : Devices) :
  devices_ok ds -> devices_ok (attach_device r ds).
Proof.
  intros [(R1 & R2 & R3 & R4 & R5) Hac].
  destruct r; (split; [repeat split; assumption | exact Hac]).
Qed.

Lemma step_devices_ok (now : Z) (op : Op) (w : World) :
  devices_ok (devices (home w)) -> devices_ok (devices (home (step now op w))).
Proof.
  intros H.
  destruct op; cbn [step with_home with_engine home devices set_gateway
                      registerDevice registerSensor];
    try exact H.
  - apply attach_device_ok, H.
  - destruct r; unfold sensor_setValue;
      match goal with
      | |- context [Sensor.setValue ?a ?b ?c ?d] => destruct (Sensor.setValue a b c d)
      | |- context [MotionSensor.setValue ?a ?b ?c ?d] =>
          destruct (MotionSensor.setValue a b c d)
      end; exact H.
  - destruct r; cbn [on_device];
      [apply on_light1_devices_ok | apply on_light2_devices_ok | apply on_light3_devices_ok
      | apply on_ac_devices_ok | apply on_waterHeater_devices_ok];
      try exact H; try apply turnOn_keeps_rated. exact (ac_call_keeps_ok now CallTurnOn).
  - destruct r; cbn [on_device];
      [apply on_light1_devices_ok | apply on_light2_devices_ok | apply on_light3_devices_ok
      | apply on_ac_devices_ok | apply on_waterHeater_devices_ok];
      try exact H; try apply turnOff_keeps_rated. exact (ac_call_keeps_ok now CallTurnOff).
  - destruct r; cbn [on_device];
      [apply on_light1_devices_ok | apply on_light2_devices_ok | apply on_light3_devices_ok
      | apply on_ac_devices_ok | apply on_waterHeater_devices_ok];
      try exact H; try apply toggle_keeps_rated. exact (ac_call_keeps_ok now CallToggle).
  - unfold setLightBrightness.
    destruct (getDevice id (gateway (home w))) as [[] |]; try exact H;
      [apply on_light1_devices_ok | apply on_light2_devices_ok | apply on_light3_devices_ok];
      try exact H; apply setBrightness_keeps_rated.
  - apply on_ac_devices_ok; [exact H | exact (ac_call_keeps_ok now (CallSetMode mode))].
  - apply on_ac_devices_ok; [exact H | exact (ac_call_keeps_ok now (CallSetFanSpeed speed))].
  - apply on_ac_devices_ok;
      [exact H | exact (ac_call_keeps_ok now (CallSetTargetTemperature temp))].
  - apply on_waterHeater_devices_ok; [exact H | apply heater_setTargetTemperature_keeps_rated].
  - apply on_waterHeater_devices_ok; [exact H |].
    intros this g Hr. apply update_keeps_rated, Hr.
  - unfold AutomationEngine.evaluate.
    pose proof (forEach_rule_devices_ok now (AutomationEngine.rules (engine w))
                  (AutomationEngine.activityLog (engine w)) (home w) H) as Hd.
    destruct (AutomationEngine.forEach_rule now _ _ _) as [[rs log] h']. exact Hd.
Qed.

(** *** The invariant *)

Lemma initial_invariant : invariant initial_world.
Proof.
  constructor.
  - exact initial_ranges_proper.
  - intros []; apply Nat.le_0_l.
  - repeat split.
  - apply constructor_valid.
  - apply Nat.le_0_l.
  - apply Nat.le_0_l.
Qed.

Lemma step_invariant (now : Z) (op : Op) (w : World) :
  invariant w -> invariant (step now op w).
Proof.
  intros [Hr Hh Hrated Hac Hm Ha].
  destruct (step_sensors_invariant now op w Hr Hh) as [Hr' Hh'].
  destruct (step_devices_ok now op w (conj Hrated Hac)) as [Hrated' Hac'].
  destruct (step_bounded now op w Hm Ha) as [Hm' Ha'].
  constructor; assumption.
Qed.

(** Every state the program can reach satisfies the invariant: sensor
    ranges are proper, no history is longer than 60, rated powers are the
    constructors', the air conditioner's mode and fan speed are legal, and
    the two logs are within their caps. *)
Theorem reachable_invariant (w : World) : reachable w -> invariant w.
Proof.
  intros [ops ->]. generalize initial_invariant. generalize initial_world.
  induction ops as [| [now op] rest IH]; intros w H; [exact H |].
  cbn [steps]. apply IH, step_invariant, H.
Qed.

(** In every reachable state the multiplier lookup of the air conditioner
    succeeds. *)
Corollary reachable_multiplier_defined (w : World) :
  reachable w ->
  Device.multiplier_defaulted (AirConditioner.mode (ac (devices (home w)))) = false.
Proof.
  intros H. destruct (reachable_invariant w H) as [_ _ _ [Hmode _] _ _].
  apply valid_mode_multiplier, Hmode.
Qed.

(** ** Maps in insertion order *)

Section JSMapFacts.

Context {V : Type}.
Implicit Types (m : JSMap.t V) (k : string) (v : V).

Lemma JSMap_get_set_same k v m : JSMap.get k (JSMap.set k v m) = Some v.
Proof.
  induction m as [| [k' v'] m IH]; simpl.
  - rewrite String.eqb_refl. reflexivity.
  - destruct (String.eqb k' k) eqn:E; simpl.
    + rewrite String.eqb_refl. reflexivity.
    + rewrite E. exact IH.
Qed.

Lemma JSMap_get_set_other k k' v m :
  k' <> k -> JSMap.get k' (JSMap.set k v m) = JSMap.get k' m.
Proof.
  intros Hne. induction m as [| [k0 v0] m IH]; simpl.
  - destruct (String.eqb_spec k k'); [congruence | reflexivity].
  - destruct (String.eqb_spec k0 k) as [-> | Hk0]; simpl.
    + destruct (String.eqb_spec k k'); [congruence | reflexivity].
    + destruct (String.eqb k0 k'); [reflexivity | exact IH].
Qed.

Lemma JSMap_keys_set_present k v m :
  JSMap.get k m <> None -> JSMap.keys (JSMap.set k v m) = JSMap.keys m.
Proof.
  unfold JSMap.keys. induction m as [| [k' v'] m IH]; simpl; [congruence |].
  destruct (String.eqb_spec k' k) as [-> | Hne]; simpl; intros H.
  - reflexivity.
  - f_equal. apply IH, H.
Qed.

Lemma JSMap_keys_set_absent k v m :
  JSMap.get k m = None -> JSMap.keys (JSMap.set k v m) = JSMap.keys m ++ [k].
Proof.
  unfold JSMap.keys. induction m as [| [k' v'] m IH]; simpl; [reflexivity |].
  destruct (String.eqb k' k); [discriminate |]. simpl. intros H. f_equal. apply IH, H.
Qed.

Lemma JSMap_set_set k v v' m : JSMap.set k v (JSMap.set k v' m) = JSMap.set k v m.
Proof.
  induction m as [| [k0 v0] m IH]; simpl.
  - rewrite String.eqb_refl. reflexivity.
  - destruct (String.eqb k0 k) eqn:E; simpl.
    + rewrite String.eqb_refl. reflexivity.
    + rewrite E. f_equal. exact IH.
Qed.

Lemma JSMap_set_get k v m : JSMap.get k m = Some v -> JSMap.set k v m = m.
Proof.
  induction m as [| [k0 v0] m IH]; simpl; [discriminate |].
  destruct (String.eqb_spec k0 k) as [-> | Hne]; intros H.
  - congruence.
  - f_equal. apply IH, H.
Qed.

End JSMapFacts.

(** ** Subscribing and publishing *)

Lemma notify_calls (key : string) (message : Payload) (topic : string) (g : IoTGateway.t) :
  IoTGateway.calls (IoTGateway.notify key message topic g)
  = IoTGateway.calls g ++ deliveries (subscribers_of key g) message topic.
Proof.
  unfold IoTGateway.notify, subscribers_of, deliveries.
  destruct (JSMap.get key (IoTGateway.subscribers g)); simpl;
    [reflexivity | rewrite app_nil_r; reflexivity].
Qed.

Lemma notify_subscribers (key : string) (message : Payload) (topic : string)
    (g : IoTGateway.t) :
  IoTGateway.subscribers (IoTGateway.notify key message topic g) = IoTGateway.subscribers g.
Proof.
  unfold IoTGateway.notify. destruct (JSMap.get key (IoTGateway.subscribers g)); reflexivity.
Qed.

Lemma publish_calls (now : Z) (topic : string) (message : Payload) (g : IoTGateway.t) :
  IoTGateway.calls (IoTGateway.publish now topic message g)
  = IoTGateway.calls g
    ++ deliveries (subscribers_of topic g) message topic
    ++ deliveries (subscribers_of "*" g) message topic.
Proof.
  unfold IoTGateway.publish. rewrite !notify_calls, <- app_assoc.
  unfold subscribers_of. rewrite notify_subscribers. reflexivity.
Qed.

Lemma subscribe_subscribers_same (topic : string) (callback : IoTGateway.Callback)
    (g : IoTGateway.t) :
  subscribers_of topic (IoTGateway.subscribe topic callback g)
  = subscribers_of topic g ++ [callback].
Proof.
  unfold subscribers_of, IoTGateway.subscribe, JSMap.has.
  destruct (JSMap.get topic (IoTGateway.subscribers g)) as [cbs |] eqn:E.
  - rewrite E. cbn [IoTGateway.subscribers IoTGateway.set_subscribers].
    rewrite JSMap_get_set_same. reflexivity.
  - rewrite JSMap_get_set_same. cbn [IoTGateway.subscribers IoTGateway.set_subscribers].
    rewrite JSMap_get_set_same. reflexivity.
Qed.

Lemma subscribe_subscribers_other (topic other : string) (callback : IoTGateway.Callback)
    (g : IoTGateway.t) :
  other <> topic ->
  subscribers_of other (IoTGateway.subscribe topic callback g) = subscribers_of other g.
Proof.
  intros Hne. unfold subscribers_of, IoTGateway.subscribe, JSMap.has.
  destruct (JSMap.get topic (IoTGateway.subscribers g)) as [cbs |] eqn:E.
  - rewrite E. cbn [IoTGateway.subscribers IoTGateway.set_subscribers].
    rewrite JSMap_get_set_other by exact Hne. reflexivity.
  - rewrite JSMap_get_set_same. cbn [IoTGateway.subscribers IoTGateway.set_subscribers].
    rewrite !JSMap_get_set_other by exact Hne. reflexivity.
Qed.

Lemma subscribe_calls (topic : string) (callback : IoTGateway.Callback) (g : IoTGateway.t) :
  IoTGateway.calls (IoTGateway.subscribe topic callback g) = IoTGateway.calls g.
Proof.
  unfold IoTGateway.subscribe.
  destruct (JSMap.get topic _); reflexivity.
Qed.

(** X1.  A callback subscribed to a topic joins the end of that topic's
    list and of no other; a following publish on the topic calls the
    topic's callbacks in subscription order, the new one last, and then the
    wildcard subscribers, each with the message and the topic. *)
Theorem subscribe_then_publish (topic : string) (callback : IoTGateway.Callback)
    (now : Z) (message : Payload) (g : IoTGateway.t) :
  subscribers_of topic (IoTGateway.subscribe topic callback g)
  = subscribers_of topic g ++ [callback]
  /\ (forall other : string,
        other <> topic ->
        subscribers_of other (IoTGateway.subscribe topic callback g)
        = subscribers_of other g)
  /\ IoTGateway.calls
       (IoTGateway.publish now topic message (IoTGateway.subscribe topic callback g))
     = IoTGateway.calls g
       ++ deliveries (subscribers_of topic g ++ [callback]) message topic
       ++ deliveries (subscribers_of "*" (IoTGateway.subscribe topic callback g))
            message topic.
Proof.
  split; [apply subscribe_subscribers_same |].
  split; [intros other Hne; apply subscribe_subscribers_other, Hne |].
  rewrite publish_calls, subscribe_calls, subscribe_subscribers_same. reflexivity.
Qed.

(** X2.  A publish on a topic nobody subscribed to, with no wildcard
    subscriber either, calls nothing and still logs the message last.  A
    publish on the topic ["*"] itself calls every wildcard subscriber
    twice. *)
Theorem publish_edge_cases (now : Z) (topic : string) (message : Payload)
    (g : IoTGateway.t) :
  (subscribers_of topic g = [] ->
   subscribers_of "*" g = [] ->
   (List.length (IoTGateway.messageLog g) <= 100)%nat ->
   IoTGateway.calls (IoTGateway.publish now topic message g) = IoTGateway.calls g
   /\ last (IoTGateway.messageLog (IoTGateway.publish now topic message g))
        (IoTGateway.mkLogEntry "" message 0)
      = IoTGateway.mkLogEntry topic message now)
  /\ IoTGateway.calls (IoTGateway.publish now "*" message g)
     = IoTGateway.calls g
       ++ deliveries (subscribers_of "*" g) message "*"
       ++ deliveries (subscribers_of "*" g) message "*".
Proof.
  split; [| apply publish_calls].
  intros Htopic Hwild Hlen. split.
  - rewrite publish_calls, Htopic, Hwild. simpl. rewrite app_nil_r. reflexivity.
  - rewrite publish_messageLog. apply push_capped_last; [lia | exact Hlen].
Qed.

Lemma publish_edge_cases_witness :
  IoTGateway.calls
    (IoTGateway.publish 3 "device/ac/mode" sample_payload IoTGateway.constructor)
  = []
  /\ IoTGateway.calls
       (IoTGateway.publish 3 "*" sample_payload
          (IoTGateway.subscribe "*" 7%nat IoTGateway.constructor))
     = [(7%nat, sample_payload, "*"); (7%nat, sample_payload, "*")].
Proof.
  split.
  - apply (proj1 (publish_edge_cases 3 "device/ac/mode" sample_payload
                    IoTGateway.constructor));
      [reflexivity | reflexivity | simpl; lia].
  - apply (proj2 (publish_edge_cases 3 "*" sample_payload
                    (IoTGateway.subscribe "*" 7%nat IoTGateway.constructor))).
Defined.

(** ** The device registry *)

Lemma notify_devices (key : string) (message : Payload) (topic : string) (g : IoTGateway.t) :
  IoTGateway.devices (IoTGateway.notify key message topic g) = IoTGateway.devices g.
Proof.
  unfold IoTGateway.notify. destruct (JSMap.get key (IoTGateway.subscribers g)); reflexivity.
Qed.

Lemma publish_devices (now : Z) (topic : string) (message : Payload) (g : IoTGateway.t) :
  IoTGateway.devices (IoTGateway.publish now topic message g) = IoTGateway.devices g.
Proof. unfold IoTGateway.publish. rewrite !notify_devices. reflexivity. Qed.

Lemma registerDevice_registry (now : Z) (r : DevRef) (h : Home) :
  IoTGateway.devices (gateway (registerDevice now r h))
  = JSMap.set (Device.id (projT2 (device_at r (devices h)))) r
      (IoTGateway.devices (gateway h)).
Proof. unfold registerDevice. cbn [gateway]. rewrite publish_devices. reflexivity. Qed.

Lemma attach_device_id (r r' : DevRef) (ds : Devices) :
  Device.id (projT2 (device_at r' (attach_device r ds)))
  = Device.id (projT2 (device_at r' ds)).
Proof. destruct r, r'; reflexivity. Qed.

(** X3.  After [registerDevice(device)] the device is bound to the
    gateway, [getDevice] finds it under its id and every other id resolves
    as before.  An id that was registered already keeps its place in the
    registry (the entry is overwritten, not duplicated), a new id goes to the
    end, and registering the same device twice leaves the registry as after
    the first time. *)
Theorem registerDevice_then_getDevice (now now' : Z) (r : DevRef) (h : Home) :
  let id := Device.id (projT2 (device_at r (devices h))) in
  let h' := registerDevice now r h in
  getDevice id (gateway h') = Some r
  /\ Device.gateway (projT2 (device_at r (devices h'))) = true
  /\ (forall other : string,
        other <> id -> getDevice other (gateway h') = getDevice other (gateway h))
  /\ (getDevice id (gateway h) <> None ->
      JSMap.keys (IoTGateway.devices (gateway h'))
      = JSMap.keys (IoTGateway.devices (gateway h)))
  /\ (getDevice id (gateway h) = None ->
      JSMap.keys (IoTGateway.devices (gateway h'))
      = JSMap.keys (IoTGateway.devices (gateway h)) ++ [id])
  /\ IoTGateway.devices (gateway (registerDevice now' r h'))
     = IoTGateway.devices (gateway h').
Proof.
  intros id h'. subst h'. unfold getDevice.
  rewrite !registerDevice_registry. fold id.
  repeat split.
  - apply JSMap_get_set_same.
  - destruct r; reflexivity.
  - intros other Hne. apply JSMap_get_set_other, Hne.
  - apply JSMap_keys_set_present.
  - apply JSMap_keys_set_absent.
  - unfold registerDevice at 1. cbn [devices]. rewrite attach_device_id. fold id.
    apply JSMap_set_set.
Qed.

Lemma registerDevice_then_getDevice_witness :
  getDevice "ac" (gateway (registerDevice 1 dev_ac (home initial_world))) = Some dev_ac
  /\ JSMap.keys (IoTGateway.devices (gateway (registerDevice 1 dev_ac (home initial_world))))
     = ["ac"].
Proof.
  destruct (registerDevice_then_getDevice 1 2 dev_ac (home initial_world))
    as (Hfound & _ & _ & _ & Hnew & _).
  split; [exact Hfound | apply Hnew; reflexivity].
Defined.

(** ** [toggle] and [toggleDevice] *)

Lemma toggle_fst {c : Device.Class} (now : Z) (this : Device.t c) (gw : IoTGateway.t) :
  fst (Device.toggle now this gw) = Device.set_isOn (negb (Device.isOn this)) this.
Proof.
  unfold Device.toggle, Device.turnOn, Device.turnOff.
  destruct this as [i n [|] m g o]; reflexivity.
Qed.

Lemma toggle_snd {c : Device.Class} (now : Z) (this : Device.t c) (gw : IoTGateway.t) :
  snd (Device.toggle now this gw)
  = Device.onStateChange now (Device.set_isOn (negb (Device.isOn this)) this) gw.
Proof.
  unfold Device.toggle, Device.turnOn, Device.turnOff.
  destruct this as [i n [|] m g o]; reflexivity.
Qed.

(** X4.  [toggle] always flips [isOn], and on a bound device always
    publishes one state message; toggling twice gives back the object as it
    was, after two publishes on a bound device and none on an unbound
    one. *)
Theorem toggle_twice (c : Device.Class) (now now' : Z) (this : Device.t c)
    (gw : IoTGateway.t) :
  Device.isOn (fst (Device.toggle now this gw)) = negb (Device.isOn this)
  /\ fst (Device.toggle now' (fst (Device.toggle now this gw))
            (snd (Device.toggle now this gw)))
     = this
  /\ (Device.gateway this = false ->
      snd (Device.toggle now' (fst (Device.toggle now this gw))
             (snd (Device.toggle now this gw)))
      = gw)
  /\ (Device.gateway this = true ->
      exists message message' : Payload,
        snd (Device.toggle now' (fst (Device.toggle now this gw))
               (snd (Device.toggle now this gw)))
        = IoTGateway.publish now' ("device/" ++ Device.id this ++ "/state") message'
            (IoTGateway.publish now ("device/" ++ Device.id this ++ "/state") message gw)).
Proof.
  rewrite !toggle_snd, !toggle_fst. unfold Device.onStateChange.
  destruct this as [i n b m g o]. cbn [Device.isOn Device.set_isOn Device.gateway Device.id
    Device.name Device.maxPowerWatts Device.own].
  rewrite negb_involutive. repeat split.
  - intros ->. reflexivity.
  - intros ->. eexists. eexists. reflexivity.
Qed.

Lemma toggle_twice_witness :
  fst (Device.toggle 2
         (fst (Device.toggle 1 (Light.constructor "light1" "Living Room Light")
                 IoTGateway.constructor))
         (snd (Device.toggle 1 (Light.constructor "light1" "Living Room Light")
                 IoTGateway.constructor)))
  = Light.constructor "light1" "Living Room Light"
  /\ snd (Device.toggle 2
            (fst (Device.toggle 1 (Light.constructor "light1" "Living Room Light")
                    IoTGateway.constructor))
            (snd (Device.toggle 1 (Light.constructor "light1" "Living Room Light")
                    IoTGateway.constructor)))
     = IoTGateway.constructor.
Proof.
  destruct (toggle_twice Device.CLight 1 2 (Light.constructor "light1" "Living Room Light")
              IoTGateway.constructor) as (_ & Hback & Hquiet & _).
  split; [exact Hback | apply Hquiet; reflexivity].
Defined.

Lemma on_device_at (f : forall c : Device.Class,
                         Device.t c -> IoTGateway.t -> Device.t c * IoTGateway.t)
    (r r' : DevRef) (h : Home) :
  r' <> r -> device_at r' (devices (on_device f r h)) = device_at r' (devices h).
Proof.
  intros Hne.
  destruct r; cbn [on_device];
    rewrite ?on_light1_devices, ?on_light2_devices, ?on_light3_devices, ?on_ac_devices,
      ?on_waterHeater_devices;
    destruct r'; try reflexivity; congruence.
Qed.

Lemma on_device_toggle_isOn (now : Z) (r : DevRef) (h : Home) :
  device_isOn r (devices (on_device (fun c => Device.toggle now) r h))
  = negb (device_isOn r (devices h)).
Proof.
  unfold device_isOn.
  destruct r; cbn [on_device];
    rewrite ?on_light1_devices, ?on_light2_devices, ?on_light3_devices, ?on_ac_devices,
      ?on_waterHeater_devices;
    cbn [device_at projT2 light1 light2 light3 ac waterHeater
           set_light1 set_light2 set_light3 set_ac set_waterHeater];
    rewrite toggle_fst; reflexivity.
Qed.

(** X5.  [toggleDevice(id)] ignores an id that is not registered; for a
    registered id it flips [isOn] of that device and leaves every other
    device and every sensor as it was. *)
Theorem toggleDevice_flips_one (now : Z) (id : string) (h : Home) :
  (getDevice id (gateway h) = None -> toggleDevice now id h = h)
  /\ (forall r : DevRef,
        getDevice id (gateway h) = Some r ->
        device_isOn r (devices (toggleDevice now id h)) = negb (device_isOn r (devices h))
        /\ (forall r' : DevRef,
              r' <> r ->
              device_at r' (devices (toggleDevice now id h)) = device_at r' (devices h))
        /\ sensors (toggleDevice now id h) = sensors h).
Proof.
  unfold toggleDevice. split.
  - intros ->. reflexivity.
  - intros r ->. split; [apply on_device_toggle_isOn |].
    split; [intros r' Hne; apply on_device_at, Hne | apply on_device_sensors].
Qed.

Lemma toggleDevice_flips_one_witness :
  toggleDevice 5 "garage" (home (started_world 0)) = home (started_world 0)
  /\ device_isOn dev_ac (devices (toggleDevice 5 "ac" (home (started_world 0)))) = true.
Proof.
  destruct (toggleDevice_flips_one 5 "garage" (home (started_world 0))) as [Hnone _].
  destruct (toggleDevice_flips_one 5 "ac" (home (started_world 0))) as [_ Hsome].
  split.
  - apply Hnone. vm_compute. reflexivity.
  - apply (proj1 (Hsome dev_ac ltac:(vm_compute; reflexivity))).
Defined.

(** ** Power of devices that are off, and the breakdown *)

Lemma off_power {c : Device.Class} (this : Device.t c) :
  Device.isOn this = false -> Device.getCurrentPowerConsumption this = of_Z 0.
Proof.
  intros H. destruct c; unfold Device.getCurrentPowerConsumption; rewrite H; reflexivity.
Qed.

Lemma add_zero_zero : add (of_Z 0) (of_Z 0) = of_Z 0.
Proof. vm_compute. reflexivity. Qed.

Lemma fold_add_zeros (powers : list number) :
  Forall (fun p => p = of_Z 0) powers -> fold_left add powers (of_Z 0) = of_Z 0.
Proof.
  induction 1 as [| p powers Hp _ IH]; [reflexivity |].
  cbn [fold_left]. rewrite Hp, add_zero_zero. exact IH.
Qed.

(** X6.  A device that is off draws nothing, whatever its class and its
    other fields; so when every registered device is off the gateway's total
    power is 0. *)
Theorem all_off_draws_nothing (h : Home) :
  (forall r : DevRef,
     In r (JSMap.values (IoTGateway.devices (gateway h))) ->
     device_isOn r (devices h) = false) ->
  Forall (fun device => any_power device = of_Z 0) (getAllDevices h)
  /\ getTotalPowerConsumption h = of_Z 0.
Proof.
  intros Hoff.
  assert (Hall : Forall (fun device => any_power device = of_Z 0) (getAllDevices h)).
  { unfold getAllDevices. apply Forall_map, Forall_forall. intros r Hin.
    apply off_power, (Hoff r Hin). }
  split; [exact Hall |].
  unfold getTotalPowerConsumption. rewrite fold_left_map_add.
  apply fold_add_zeros, Forall_map. exact Hall.
Qed.

Lemma all_off_draws_nothing_witness :
  getTotalPowerConsumption (home (started_world 0)) = of_Z 0.
Proof.
  apply (all_off_draws_nothing (home (started_world 0))).
  intros r _. destruct r; vm_compute; reflexivity.
Defined.

(** X7.  [getPowerBreakdown] lists one entry per registered device, in
    registration order, with that device's id, current power and [isOn]; the
    powers of the entries add up to [getTotalPowerConsumption], and an entry
    whose [isOn] is false has power 0. *)
Theorem breakdown_adds_up (h : Home) :
  map (fun entry => fst (fst (fst entry))) (getPowerBreakdown h)
  = map (fun device : AnyDevice => Device.id (projT2 device)) (getAllDevices h)
  /\ List.length (getPowerBreakdown h)
     = List.length (JSMap.keys (IoTGateway.devices (gateway h)))
  /\ power_sum (map (fun entry => snd (fst entry)) (getPowerBreakdown h))
     = getTotalPowerConsumption h
  /\ Forall (fun entry => snd entry = false -> snd (fst entry) = of_Z 0)
       (getPowerBreakdown h).
Proof.
  unfold getPowerBreakdown. repeat split.
  - rewrite map_map. reflexivity.
  - unfold getAllDevices, JSMap.keys, JSMap.values. rewrite !length_map. reflexivity.
  - rewrite map_map. cbn [fst snd]. unfold getTotalPowerConsumption.
    rewrite fold_left_map_add. reflexivity.
  - apply Forall_map, Forall_forall. intros device _. cbn [fst snd].
    apply off_power.
Qed.

(** ** The water heater's tick *)

(** X8.  [update] changes neither [isOn] nor the target.  Afterwards the
    heating flag is set exactly when the heater is on and the water was
    below the target, so it is never left set on a heater that is off; the
    heater then draws its rated power when heating, the 50 W standby when on
    and not heating, and nothing when off.  At or above the target the water
    temperature of a heater that is on stays as it is, as does that of a
    heater that is off once it is at or below 25. *)
Theorem heater_update (this : WaterHeater.t) :
  Device.isOn (WaterHeater.update this) = Device.isOn this
  /\ WaterHeater.targetTemperature (WaterHeater.update this)
     = WaterHeater.targetTemperature this
  /\ WaterHeater.isHeating (WaterHeater.update this)
     = Device.isOn this
       && ltb (WaterHeater.currentWaterTemp this) (WaterHeater.targetTemperature this)
  /\ (WaterHeater.isHeating (WaterHeater.update this) = true ->
      Device.isOn (WaterHeater.update this) = true)
  /\ Device.getCurrentPowerConsumption (WaterHeater.update this)
     = (if Device.isOn this
        then if ltb (WaterHeater.currentWaterTemp this) (WaterHeater.targetTemperature this)
             then Device.maxPowerWatts this
             else of_Z 50
        else of_Z 0)
  /\ (Device.isOn this = true ->
      ltb (WaterHeater.currentWaterTemp this) (WaterHeater.targetTemperature this) = false ->
      WaterHeater.currentWaterTemp (WaterHeater.update this)
      = WaterHeater.currentWaterTemp this)
  /\ (Device.isOn this = false ->
      ltb (of_Z 25) (WaterHeater.currentWaterTemp this) = false ->
      WaterHeater.currentWaterTemp (WaterHeater.update this)
      = WaterHeater.currentWaterTemp this).
Proof.
  rewrite WaterHeater_power. unfold WaterHeater.update.
  destruct this as [i n b m g [target current heating]].
  unfold WaterHeater.isHeating, WaterHeater.currentWaterTemp, WaterHeater.targetTemperature.
  cbn [Device.isOn Device.own Device.wh_targetTemperature Device.currentWaterTemp
         Device.isHeating Device.maxPowerWatts].
  destruct b; [destruct (ltb current target) |]; cbn [negb andb];
    unfold Device.set_own;
    cbn [Device.isOn Device.own Device.wh_targetTemperature Device.currentWaterTemp
           Device.isHeating Device.maxPowerWatts negb];
    repeat split; try congruence.
  intros _ Hcold. rewrite Hcold. reflexivity.
Qed.

Lemma heater_update_witness :
  WaterHeater.currentWaterTemp
    (WaterHeater.update (WaterHeater.constructor "waterHeater" "Water Heater"))
  = of_Z 25
  /\ Device.getCurrentPowerConsumption
       (WaterHeater.update (WaterHeater.constructor "waterHeater" "Water Heater"))
     = of_Z 0.
Proof.
  destruct (heater_update (WaterHeater.constructor "waterHeater" "Water Heater"))
    as (_ & _ & _ & _ & Hpower & _ & Hcold).
  split; [apply Hcold; vm_compute; reflexivity | exact Hpower].
Defined.

(** ** The engine and its rules *)

(** What [evaluate] and [execute] leave of a rule: everything but [own]. *)
Lemma evaluate_same_header (this : AutomationRule.t) (h : Home) :
  AutomationRule.set_own (AutomationRule.own this) (snd (AutomationRule.evaluate this h))
  = this.
Proof.
  unfold AutomationRule.evaluate. destruct this as [i n d e l t o].
  cbn [AutomationRule.own].
  destruct o; try reflexivity;
    match goal with |- context [if ?b then _ else _] => destruct b end; reflexivity.
Qed.

Lemma execute_same_header (now : Z) (this : AutomationRule.t) (h : Home) :
  AutomationRule.set_own (AutomationRule.own this)
    (fst (AutomationRule.execute now this h))
  = this.
Proof.
  unfold AutomationRule.execute. destruct this as [i n d e l t o].
  cbn [AutomationRule.own]. destruct o; reflexivity.
Qed.

(** [run] changes of a rule only [own] and, when it triggers, the two
    counters. *)
Lemma run_header (now : Z) (this : AutomationRule.t) (h : Home) :
  let result := AutomationRule.run now this h in
  let this' := snd (fst result) in
  AutomationRule.id this' = AutomationRule.id this
  /\ AutomationRule.name this' = AutomationRule.name this
  /\ AutomationRule.description this' = AutomationRule.description this
  /\ AutomationRule.enabled this' = AutomationRule.enabled this
  /\ AutomationRule.triggerCount this'
     = (AutomationRule.triggerCount this + (if fst (fst result) then 1 else 0))%Z.
Proof.
  unfold AutomationRule.run.
  destruct (negb (AutomationRule.enabled this)); cbn [fst snd];
    [repeat split; lia |].
  pose proof (evaluate_same_header this h) as He.
  destruct (AutomationRule.evaluate this h) as [c this1]. cbn [snd] in He.
  destruct (ToBoolean c).
  - pose proof (execute_same_header now this1 h) as Hx.
    destruct (AutomationRule.execute now this1 h) as [this2 h2]. cbn [fst snd] in *.
    rewrite <- He. rewrite <- Hx at 1 2 3 4 5.
    destruct this2; cbn. repeat split.
  - cbn [fst snd]. rewrite <- He at 1 2 3 4 5. destruct this1; cbn.
    repeat split; lia.
Qed.

Lemma forEach_rule_same_rules (now : Z) (entries : JSMap.t AutomationRule.t) :
  forall (log : list AutomationEngine.Activity) (h : Home),
    Forall2 same_rule_but_counters entries
      (fst (fst (AutomationEngine.forEach_rule now entries log h))).
Proof.
  induction entries as [| [id rule] rest IH]; intros log h; [constructor |].
  cbn [AutomationEngine.forEach_rule].
  pose proof (run_header now rule h) as Hrun. cbv zeta in Hrun.
  destruct (AutomationRule.run now rule h) as [[triggered rule'] h']. cbn [fst snd] in Hrun.
  match goal with
  | |- context [AutomationEngine.forEach_rule now rest ?l h'] =>
      specialize (IH l h');
      destruct (AutomationEngine.forEach_rule now rest l h') as [[rest' log''] h'']
  end.
  cbn [fst snd] in *. constructor; [| exact IH].
  destruct Hrun as (Hid & Hname & Hdesc & Hen & Hcount).
  unfold same_rule_but_counters. cbn [fst snd].
  repeat split; try assumption; destruct triggered; lia.
Qed.

(** X9.  An evaluation pass keeps the rules and their order: every entry
    keeps its key, id, name, description and [enabled] flag, and its
    [triggerCount] stays or grows by one, never shrinks. *)
Theorem evaluate_keeps_rules (now : Z) (e : AutomationEngine.t) (h : Home) :
  Forall2 same_rule_but_counters (AutomationEngine.rules e)
    (AutomationEngine.rules (fst (AutomationEngine.evaluate now e h)))
  /\ JSMap.keys (AutomationEngine.rules (fst (AutomationEngine.evaluate now e h)))
     = JSMap.keys (AutomationEngine.rules e)
  /\ (total_triggers (AutomationEngine.rules e)
      <= total_triggers (AutomationEngine.rules (fst (AutomationEngine.evaluate now e h))))%Z.
Proof.
  unfold AutomationEngine.evaluate.
  pose proof (forEach_rule_same_rules now (AutomationEngine.rules e)
                (AutomationEngine.activityLog e) h) as Hsame.
  destruct (AutomationEngine.forEach_rule now _ _ _) as [[rs log] h'].
  cbn [fst snd AutomationEngine.rules] in *.
  split; [exact Hsame |]. split.
  - unfold JSMap.keys. induction Hsame as [| old new olds news Hhead _ IH];
      [reflexivity |].
    cbn [map]. rewrite IH. f_equal. apply Hhead.
  - induction Hsame as [| old new olds news Hhead _ IH]; [reflexivity |].
    cbn [total_triggers fold_right] in *.
    destruct Hhead as (_ & _ & _ & _ & _ & Hcount). fold (total_triggers olds) in *.
    fold (total_triggers news) in *. lia.
Qed.

Lemma forEach_rule_all_disabled (now : Z) (entries : JSMap.t AutomationRule.t) :
  Forall (fun entry => AutomationRule.enabled (snd entry) = false) entries ->
  forall (log : list AutomationEngine.Activity) (h : Home),
    AutomationEngine.forEach_rule now entries log h = (entries, log, h).
Proof.
  induction 1 as [| [id rule] rest Hoff _ IH]; intros log h; [reflexivity |].
  cbn [AutomationEngine.forEach_rule]. cbn [snd] in Hoff.
  rewrite (run_disabled now rule h Hoff), IH. reflexivity.
Qed.

(** X10.  A disabled rule is skipped: when every rule of the engine is
    disabled, an evaluation pass changes nothing at all, neither the rules,
    their timers and counters, nor the activity log, the devices or the
    gateway. *)
Theorem evaluate_skips_disabled (now : Z) (e : AutomationEngine.t) (h : Home) :
  Forall (fun entry => AutomationRule.enabled (snd entry) = false)
    (AutomationEngine.rules e) ->
  AutomationEngine.evaluate now e h = (e, h).
Proof.
  intros Hoff. unfold AutomationEngine.evaluate.
  rewrite (forEach_rule_all_disabled now _ Hoff). destruct e; reflexivity.
Qed.

Lemma evaluate_skips_disabled_witness :
  AutomationEngine.evaluate 9 idle_engine cooled_home = (idle_engine, cooled_home).
Proof.
  apply (evaluate_skips_disabled 9 idle_engine cooled_home).
  repeat constructor.
Defined.

Lemma set_enabled_twice (rule : AutomationRule.t) :
  AutomationRule.set_enabled
    (negb (AutomationRule.enabled
             (AutomationRule.set_enabled (negb (AutomationRule.enabled rule)) rule)))
    (AutomationRule.set_enabled (negb (AutomationRule.enabled rule)) rule)
  = rule.
Proof. destruct rule as [i n d e l t o]. cbn. rewrite negb_involutive. reflexivity. Qed.

Lemma toggleRule_known (id : string) (e : AutomationEngine.t) (rule : AutomationRule.t) :
  JSMap.get id (AutomationEngine.rules e) = Some rule ->
  AutomationEngine.toggleRule id e
  = (Some (negb (AutomationRule.enabled rule)),
     AutomationEngine.set_rules
       (JSMap.set id (AutomationRule.set_enabled (negb (AutomationRule.enabled rule)) rule)
          (AutomationEngine.rules e)) e).
Proof.
  intros Hsome. unfold AutomationEngine.toggleRule. rewrite Hsome. reflexivity.
Qed.

(** X11.  [toggleRule(id)] on an unknown id changes nothing and returns
    [undefined].  On a known id it flips that rule's [enabled] flag and
    returns the new flag, keeps the order of the rules and every other rule,
    and a second [toggleRule(id)] restores the engine exactly. *)
Theorem toggleRule_twice (id : string) (e : AutomationEngine.t) :
  (JSMap.get id (AutomationEngine.rules e) = None ->
   AutomationEngine.toggleRule id e = (None, e))
  /\ (forall rule : AutomationRule.t,
        JSMap.get id (AutomationEngine.rules e) = Some rule ->
        fst (AutomationEngine.toggleRule id e) = Some (negb (AutomationRule.enabled rule))
        /\ JSMap.get id (AutomationEngine.rules (snd (AutomationEngine.toggleRule id e)))
           = Some (AutomationRule.set_enabled (negb (AutomationRule.enabled rule)) rule)
        /\ JSMap.keys (AutomationEngine.rules (snd (AutomationEngine.toggleRule id e)))
           = JSMap.keys (AutomationEngine.rules e)
        /\ (forall other : string,
              other <> id ->
              JSMap.get other (AutomationEngine.rules (snd (AutomationEngine.toggleRule id e)))
              = JSMap.get other (AutomationEngine.rules e))
        /\ snd (AutomationEngine.toggleRule id (snd (AutomationEngine.toggleRule id e)))
           = e).
Proof.
  split.
  - intros Hnone. unfold AutomationEngine.toggleRule. rewrite Hnone. reflexivity.
  - intros rule Hsome. rewrite (toggleRule_known id e rule Hsome).
    cbn [fst snd AutomationEngine.rules AutomationEngine.set_rules].
    split; [reflexivity |]. split; [apply JSMap_get_set_same |].
    split; [apply JSMap_keys_set_present; congruence |].
    split; [intros other Hne; apply JSMap_get_set_other, Hne |].
    erewrite toggleRule_known
      by (cbn [AutomationEngine.rules]; apply JSMap_get_set_same).
    cbn [snd AutomationEngine.set_rules AutomationEngine.rules
           AutomationEngine.activityLog AutomationEngine.isRunning].
    rewrite set_enabled_twice, JSMap_set_set, (JSMap_set_get _ _ _ Hsome).
    destruct e; reflexivity.
Qed.

Lemma toggleRule_twice_witness :
  AutomationEngine.toggleRule "no-such-rule" automationEngine = (None, automationEngine)
  /\ fst (AutomationEngine.toggleRule "hvac-off" automationEngine) = Some false
  /\ snd (AutomationEngine.toggleRule "hvac-off"
            (snd (AutomationEngine.toggleRule "hvac-off" automationEngine)))
     = automationEngine.
Proof.
  destruct (toggleRule_twice "no-such-rule" automationEngine) as [Hnone _].
  destruct (toggleRule_twice "hvac-off" automationEngine) as [_ Hsome].
  destruct (Hsome AutomationRule.newHVACOffRule eq_refl) as (Hflag & _ & _ & _ & Hback).
  split; [apply Hnone; reflexivity |]. split; [exact Hflag | exact Hback].
Defined.

Lemma forEach_rule_counts (now : Z) (entries : JSMap.t AutomationRule.t) :
  forall (log : list AutomationEngine.Activity) (h : Home),
    (List.length log + List.length entries <= 50)%nat ->
    Z.of_nat (List.length (snd (fst (AutomationEngine.forEach_rule now entries log h))))
    = (Z.of_nat (List.length log)
       + (total_triggers (fst (fst (AutomationEngine.forEach_rule now entries log h)))
          - total_triggers entries))%Z.
Proof.
  induction entries as [| [id rule] rest IH]; intros log h Hroom.
  - cbn. lia.
  - cbn [AutomationEngine.forEach_rule]. cbn [List.length] in Hroom.
    pose proof (run_header now rule h) as Hrun. cbv zeta in Hrun.
    destruct (AutomationRule.run now rule h) as [[triggered rule'] h'].
    cbn [fst snd] in Hrun. destruct Hrun as (_ & _ & _ & _ & Hcount).
    match goal with
    | |- context [AutomationEngine.forEach_rule now rest ?l h'] =>
        assert (Hl : List.length l
                     = (List.length log + (if triggered then 1 else 0))%nat)
          by (destruct triggered;
              [rewrite push_capped_room by lia; rewrite length_app; reflexivity | lia]);
        specialize (IH l h' ltac:(destruct triggered; lia));
        destruct (AutomationEngine.forEach_rule now rest l h') as [[rest' log''] h'']
    end.
    cbn [fst snd] in *. rewrite IH, Hl.
    cbn [total_triggers fold_right snd].
    fold (total_triggers rest'). fold (total_triggers rest).
    destruct triggered; lia.
Qed.

(** X12.  The activity log and the counters agree: while the log has room
    for one entry per rule, an evaluation pass appends exactly as many
    entries as the rules' [triggerCount]s grow in total. *)
Theorem triggers_are_logged (now : Z) (e : AutomationEngine.t) (h : Home) :
  (List.length (AutomationEngine.activityLog e) + List.length (AutomationEngine.rules e)
   <= 50)%nat ->
  Z.of_nat (List.length
              (AutomationEngine.activityLog (fst (AutomationEngine.evaluate now e h))))
  = (Z.of_nat (List.length (AutomationEngine.activityLog e))
     + (total_triggers (AutomationEngine.rules (fst (AutomationEngine.evaluate now e h)))
        - total_triggers (AutomationEngine.rules e)))%Z.
Proof.
  intros Hroom. unfold AutomationEngine.evaluate.
  pose proof (forEach_rule_counts now (AutomationEngine.rules e)
                (AutomationEngine.activityLog e) h Hroom) as Hc.
  destruct (AutomationEngine.forEach_rule now _ _ _) as [[rs log] h']. exact Hc.
Qed.

Lemma triggers_are_logged_witness :
  Z.of_nat (List.length
              (AutomationEngine.activityLog
                 (fst (AutomationEngine.evaluate 9 automationEngine humid_home))))
  = (0 + (total_triggers
            (AutomationEngine.rules
               (fst (AutomationEngine.evaluate 9 automationEngine humid_home)))
          - 0))%Z.
Proof.
  apply (triggers_are_logged 9 automationEngine humid_home). simpl. lia.
Defined.

(** ** The lights-off rule: a timer of 60 ticks *)

Section LightingOff.

Variable this : AutomationRule.t.
Variable noMotionDuration : Z.
Hypothesis Hown :
  AutomationRule.own this = AutomationRule.LightingOffRule noMotionDuration 2.
Hypothesis Henabled : AutomationRule.enabled this = true.

Variables (now : Z) (h : Home).

Lemma lighting_off_counts :
  motion_detected h = false -> any_light_on h = true ->
  (noMotionDuration + 2 < 120)%Z ->
  AutomationRule.run now this h
  = (false,
     AutomationRule.set_own (AutomationRule.LightingOffRule (noMotionDuration + 2) 2) this,
     h).
Proof.
  intros Hmotion Hlit Hlt.
  assert (Heval : AutomationRule.evaluate this h
                  = (JBool false,
                     AutomationRule.set_own
                       (AutomationRule.LightingOffRule (noMotionDuration + 2) 2) this)).
  { unfold AutomationRule.evaluate. rewrite Hown.
    unfold motion_detected, any_light_on in *.
    unfold js_and, js_not. cbn [ToBoolean]. rewrite Hmotion, Hlit. cbn [negb].
    replace (2 * 60 <=? noMotionDuration + 2)%Z with false
      by (symmetry; apply Z.leb_gt; lia).
    reflexivity. }
  rewrite run_not_triggered; rewrite ?Heval; auto.
Qed.

Lemma lighting_off_fires :
  motion_detected h = false -> any_light_on h = true ->
  (120 <= noMotionDuration + 2)%Z ->
  exists h' : Home,
    AutomationRule.run now this h
    = (true,
       AutomationRule.stamp now
         (AutomationRule.set_own (AutomationRule.LightingOffRule 0 2) this),
       h')
    /\ any_light_on h' = false
    /\ devices h'
       = set_light3 (Device.set_isOn false (light3 (devices h)))
           (set_light2 (Device.set_isOn false (light2 (devices h)))
              (set_light1 (Device.set_isOn false (light1 (devices h))) (devices h))).
Proof.
  intros Hmotion Hlit Hge.
  assert (Heval : AutomationRule.evaluate this h
                  = (JBool true,
                     AutomationRule.set_own
                       (AutomationRule.LightingOffRule (noMotionDuration + 2) 2) this)).
  { unfold AutomationRule.evaluate. rewrite Hown.
    unfold motion_detected, any_light_on in *.
    unfold js_and, js_not. cbn [ToBoolean]. rewrite Hmotion, Hlit. cbn [negb].
    replace (2 * 60 <=? noMotionDuration + 2)%Z with true
      by (symmetry; apply Z.leb_le; lia).
    reflexivity. }
  eexists. split; [rewrite run_triggered; rewrite ?Heval; auto |].
  rewrite ?Heval.
  unfold AutomationRule.execute, AutomationRule.announce, set_gateway, any_light_on.
  cbn [snd AutomationRule.own AutomationRule.set_own devices].
  rewrite on_light3_devices, on_light2_devices, on_light1_devices.
  cbn [light1 light2 light3 set_light1 set_light2 set_light3].
  rewrite !turnOff_fst. split; reflexivity.
Qed.

End LightingOff.

Lemma run_ticks_lit (ticks : list (Z * Home)) :
  forall (rule : AutomationRule.t) (d : Z),
    AutomationRule.own rule = AutomationRule.LightingOffRule d 2 ->
    AutomationRule.enabled rule = true ->
    Forall lit_and_still ticks ->
    (d + 2 * Z.of_nat (List.length ticks) < 120)%Z ->
    run_ticks ticks rule
    = (map (fun tick => (false, snd tick)) ticks,
       AutomationRule.set_own
         (AutomationRule.LightingOffRule (d + 2 * Z.of_nat (List.length ticks)) 2) rule).
Proof.
  induction ticks as [| [now h] rest IH]; intros rule d Hown Hen Hquiet Hlt.
  - cbn [run_ticks map List.length].
    replace (d + 2 * Z.of_nat 0)%Z with d by lia. f_equal.
    destruct rule; cbn in Hown; subst; reflexivity.
  - inversion Hquiet as [| ? ? [Hmotion Hlit] Hrest]; subst.
    cbn [run_ticks]. cbn [List.length] in Hlt.
    rewrite (lighting_off_counts rule d Hown Hen now h Hmotion Hlit) by lia.
    rewrite (IH _ (d + 2)%Z); try assumption; try reflexivity; try lia.
    cbn [map snd List.length].
    replace (d + 2 * Z.of_nat (S (List.length rest)))%Z
      with (d + 2 + 2 * Z.of_nat (List.length rest))%Z by lia.
    reflexivity.
Qed.

(** X13.  The lights-off rule, enabled with its timer at 0 and run once per
    tick: over 60 consecutive ticks without motion and with some light on it
    triggers exactly once, on the 60th tick (120 seconds at 2 per tick), and
    then all three lights are off, the timer is back at 0 and
    [triggerCount] has grown by one. *)
Theorem lights_off_triggers_on_tick_60 (rule : AutomationRule.t)
    (ticks : list (Z * Home)) :
  AutomationRule.own rule = AutomationRule.LightingOffRule 0 2 ->
  AutomationRule.enabled rule = true ->
  Forall lit_and_still ticks ->
  List.length ticks = 60%nat ->
  map fst (fst (run_ticks ticks rule)) = repeat false 59 ++ [true]
  /\ (exists h' : Home,
        nth_error (fst (run_ticks ticks rule)) 59 = Some (true, h')
        /\ Device.isOn (light1 (devices h')) = false
        /\ Device.isOn (light2 (devices h')) = false
        /\ Device.isOn (light3 (devices h')) = false)
  /\ AutomationRule.own (snd (run_ticks ticks rule)) = AutomationRule.LightingOffRule 0 2
  /\ AutomationRule.triggerCount (snd (run_ticks ticks rule))
     = (AutomationRule.triggerCount rule + 1)%Z.
Proof.
  intros Hown Hen Hquiet Hlen.
  destruct (exists_last (l := ticks)) as [front [[now h] Hsplit]];
    [intros ->; discriminate |].
  subst ticks. rewrite length_app in Hlen. cbn [List.length] in Hlen.
  apply Forall_app in Hquiet. destruct Hquiet as [Hfront Hlast].
  inversion Hlast as [| ? ? [Hmotion Hlit] _]; subst.
  rewrite run_ticks_app.
  rewrite (run_ticks_lit front rule 0 Hown Hen Hfront) by lia.
  cbn [fst snd run_ticks].
  replace (0 + 2 * Z.of_nat (List.length front))%Z with 118%Z by lia.
  destruct (lighting_off_fires
              (AutomationRule.set_own (AutomationRule.LightingOffRule 118 2) rule) 118
              eq_refl Hen now h Hmotion Hlit ltac:(lia)) as [h' [Hrun [Hdark Hdevices]]].
  rewrite Hrun. cbn [fst snd].
  repeat split.
  - rewrite map_app, map_map. cbn [map fst]. f_equal.
    replace 59%nat with (List.length front) by lia.
    clear. induction front; simpl; [reflexivity | f_equal; assumption].
  - exists h'. split.
    + rewrite nth_error_app2; rewrite length_map; [| lia].
      replace (59 - List.length front)%nat with 0%nat by lia. reflexivity.
    + rewrite Hdevices. repeat split.
Qed.

Lemma lights_off_triggers_on_tick_60_witness :
  Forall lit_and_still (repeat (0%Z, lit_home) 60)
  /\ map fst (fst (run_ticks (repeat (0%Z, lit_home) 60) AutomationRule.newLightingOffRule))
     = repeat false 59 ++ [true].
Proof.
  assert (Hquiet : Forall lit_and_still (repeat (0%Z, lit_home) 60)).
  { apply Forall_forall. intros tick Hin. apply repeat_spec in Hin. subst tick.
    split; vm_compute; reflexivity. }
  split; [exact Hquiet |].
  apply (lights_off_triggers_on_tick_60 AutomationRule.newLightingOffRule
           (repeat (0%Z, lit_home) 60) eq_refl eq_refl Hquiet (repeat_length _ _)).
Defined.

(** ** Rules that fire again, and rules that do not *)

Lemma run_true_inv (now : Z) (this rule' : AutomationRule.t) (h h' : Home) :
  AutomationRule.run now this h = (true, rule', h') ->
  AutomationRule.enabled this = true
  /\ ToBoolean (fst (AutomationRule.evaluate this h)) = true
  /\ rule' = AutomationRule.stamp now
               (fst (AutomationRule.execute now (snd (AutomationRule.evaluate this h)) h))
  /\ h' = snd (AutomationRule.execute now (snd (AutomationRule.evaluate this h)) h).
Proof.
  unfold AutomationRule.run.
  destruct (AutomationRule.enabled this); cbn [negb]; [| discriminate].
  destruct (AutomationRule.evaluate this h) as [c this1]. cbn [fst snd].
  destruct (ToBoolean c); [| discriminate].
  destruct (AutomationRule.execute now this1 h) as [this2 h2]. cbn [fst snd].
  intros H. injection H as <- <-. auto.
Qed.

Lemma setFanSpeed_high_fst (this : AirConditioner.t) (gw : IoTGateway.t) :
  fst (AirConditioner.setFanSpeed "high" this gw)
  = Device.set_own (c := Device.CAirConditioner)
      (Device.mkAirConditioner (AirConditioner.mode this)
         (AirConditioner.targetTemperature this) "high") this.
Proof. reflexivity. Qed.

(** X14.  A rule that switches something on does not fire twice in a row:
    right after a [run] of the cooling-on rule, or of the lights-on rule,
    has triggered, a second [run] on the state it left does not trigger and
    changes neither the rule nor the state. *)
Theorem switch_on_rules_do_not_refire (now now' : Z) (this rule' : AutomationRule.t)
    (h h' : Home) :
  (exists th, AutomationRule.own this = AutomationRule.HVACCoolingRule th)
  \/ (exists th, AutomationRule.own this = AutomationRule.LightingOnRule th) ->
  AutomationRule.run now this h = (true, rule', h') ->
  AutomationRule.run now' rule' h' = (false, rule', h').
Proof.
  intros Hown Hrun.
  destruct (run_true_inv now this rule' h h' Hrun) as (Hen & _ & Hrule & Hh).
  destruct Hown as [[th Hown] | [th Hown]].
  - assert (Hev : snd (AutomationRule.evaluate this h) = this)
      by (unfold AutomationRule.evaluate; rewrite Hown; reflexivity).
    rewrite Hev in Hrule, Hh.
    assert (Hex : fst (AutomationRule.execute now this h) = this)
      by (unfold AutomationRule.execute; rewrite Hown; reflexivity).
    rewrite Hex in Hrule. clear Hrun Hev Hex.
    assert (Hon : Device.isOn (ac (devices h')) = true).
    { subst h'. unfold AutomationRule.execute. rewrite Hown.
      unfold AutomationRule.announce, set_gateway. cbn [snd devices].
      rewrite !on_ac_devices. cbn [ac set_ac]. rewrite turnOn_fst. reflexivity. }
    subst rule'. clear Hh.
    assert (Heval : AutomationRule.evaluate (AutomationRule.stamp now this) h'
                    = (fst (AutomationRule.evaluate (AutomationRule.stamp now this) h'),
                       AutomationRule.stamp now this))
      by (unfold AutomationRule.evaluate; cbn [AutomationRule.own AutomationRule.stamp];
          rewrite Hown; reflexivity).
    rewrite run_not_triggered; [rewrite Heval; reflexivity | exact Hen |].
    unfold AutomationRule.evaluate. cbn [AutomationRule.own AutomationRule.stamp].
    rewrite Hown. cbn [fst]. rewrite Hon. unfold js_and. cbn [negb].
    match goal with |- context [if ?b then _ else _] => destruct b eqn:E end;
      [reflexivity | exact E].
  - assert (Hev : snd (AutomationRule.evaluate this h) = this)
      by (unfold AutomationRule.evaluate; rewrite Hown; reflexivity).
    rewrite Hev in Hrule, Hh.
    assert (Hex : fst (AutomationRule.execute now this h) = this)
      by (unfold AutomationRule.execute; rewrite Hown; reflexivity).
    rewrite Hex in Hrule. clear Hrun Hev Hex.
    assert (Hon : Device.isOn (light1 (devices h')) = true).
    { subst h'. unfold AutomationRule.execute. rewrite Hown.
      unfold AutomationRule.announce, set_gateway. cbn [snd devices].
      rewrite on_light2_devices, on_light1_devices. cbn [light1 set_light1 set_light2].
      rewrite turnOn_fst. reflexivity. }
    subst rule'. clear Hh.
    assert (Heval : AutomationRule.evaluate (AutomationRule.stamp now this) h'
                    = (fst (AutomationRule.evaluate (AutomationRule.stamp now this) h'),
                       AutomationRule.stamp now this))
      by (unfold AutomationRule.evaluate; cbn [AutomationRule.own AutomationRule.stamp];
          rewrite Hown; reflexivity).
    rewrite run_not_triggered; [rewrite Heval; reflexivity | exact Hen |].
    unfold AutomationRule.evaluate. cbn [AutomationRule.own AutomationRule.stamp].
    rewrite Hown. cbn [fst]. rewrite Hon. unfold js_and. cbn [negb andb].
    match goal with |- context [if ?b then _ else _] => destruct b eqn:E end;
      [reflexivity | exact E].
Qed.

Lemma switch_on_rules_do_not_refire_witness :
  AutomationRule.run 8
    (snd (fst (AutomationRule.run 7 AutomationRule.newHVACCoolingRule hot_home)))
    (snd (AutomationRule.run 7 AutomationRule.newHVACCoolingRule hot_home))
  = (false,
     snd (fst (AutomationRule.run 7 AutomationRule.newHVACCoolingRule hot_home)),
     snd (AutomationRule.run 7 AutomationRule.newHVACCoolingRule hot_home)).
Proof.
  apply (switch_on_rules_do_not_refire 7 8 AutomationRule.newHVACCoolingRule _ hot_home).
  - left. exists (of_Z 26). reflexivity.
  - vm_compute. reflexivity.
Defined.

(** ** The humidity rule *)

Lemma humidity_fires (now : Z) (this : AutomationRule.t) (th : number) (h : Home) :
  AutomationRule.own this = AutomationRule.HumidityRule th ->
  AutomationRule.enabled this = true ->
  ltb th (Sensor.value (humidity (sensors h))) = true ->
  Device.isOn (ac (devices h)) = true ->
  exists h' : Home,
    AutomationRule.run now this h = (true, AutomationRule.stamp now this, h')
    /\ sensors h' = sensors h
    /\ ac (devices h')
       = Device.set_own (c := Device.CAirConditioner)
           (Device.mkAirConditioner "cool"
              (AirConditioner.targetTemperature (ac (devices h))) "high")
           (ac (devices h)).
Proof.
  intros Hown Hen Hwet Hon.
  assert (Heval : AutomationRule.evaluate this h = (JBool true, this)).
  { unfold AutomationRule.evaluate. rewrite Hown, Hwet, Hon. reflexivity. }
  eexists. split; [| split].
  - rewrite run_triggered; rewrite ?Heval; try assumption; try reflexivity.
    cbn [snd]. f_equal. f_equal.
    unfold AutomationRule.execute. rewrite Hown. reflexivity.
  - unfold AutomationRule.execute. rewrite Hown. cbn [snd].
    unfold AutomationRule.announce, set_gateway. cbn [sensors].
    rewrite !on_ac_sensors. reflexivity.
  - unfold AutomationRule.execute. rewrite Hown. cbn [snd].
    unfold AutomationRule.announce, set_gateway. cbn [devices].
    rewrite !on_ac_devices. cbn [ac set_ac].
    rewrite setFanSpeed_high_fst, setMode_cool_fst. reflexivity.
Qed.

(** X15.  The humidity rule fires on every tick while its condition holds:
    with the humidity above the threshold and the air conditioner on, a
    [run] triggers and leaves the air conditioner on, in mode "cool" with
    fan speed "high"; a second [run] on that state triggers again, changes
    nothing more on the air conditioner, and [triggerCount] has then grown
    by two. *)
Theorem humidity_rule_refires (now now' : Z) (this : AutomationRule.t) (th : number)
    (h : Home) :
  AutomationRule.own this = AutomationRule.HumidityRule th ->
  AutomationRule.enabled this = true ->
  ltb th (Sensor.value (humidity (sensors h))) = true ->
  Device.isOn (ac (devices h)) = true ->
  exists (rule' rule'' : AutomationRule.t) (h' h'' : Home),
    AutomationRule.run now this h = (true, rule', h')
    /\ AutomationRule.run now' rule' h' = (true, rule'', h'')
    /\ Device.isOn (ac (devices h')) = true
    /\ AirConditioner.mode (ac (devices h')) = "cool"
    /\ AirConditioner.fanSpeed (ac (devices h')) = "high"
    /\ ac (devices h'') = ac (devices h')
    /\ AutomationRule.triggerCount rule'' = (AutomationRule.triggerCount this + 2)%Z.
Proof.
  intros Hown Hen Hwet Hon.
  destruct (humidity_fires now this th h Hown Hen Hwet Hon) as (h' & Hrun & Hs & Hac).
  assert (Hon' : Device.isOn (ac (devices h')) = true) by (rewrite Hac; exact Hon).
  assert (Hwet' : ltb th (Sensor.value (humidity (sensors h'))) = true)
    by (rewrite Hs; exact Hwet).
  destruct (humidity_fires now' (AutomationRule.stamp now this) th h' Hown Hen Hwet' Hon')
    as (h'' & Hrun' & _ & Hac').
  exists (AutomationRule.stamp now this),
    (AutomationRule.stamp now' (AutomationRule.stamp now this)), h', h''.
  split; [exact Hrun |]. split; [exact Hrun' |].
  split; [exact Hon' |].
  split; [rewrite Hac; reflexivity |]. split; [rewrite Hac; reflexivity |].
  split; [rewrite Hac', Hac; reflexivity |].
  cbn [AutomationRule.stamp AutomationRule.triggerCount]. lia.
Qed.

Lemma humidity_rule_refires_witness :
  exists (rule' rule'' : AutomationRule.t) (h' h'' : Home),
    AutomationRule.run 3 AutomationRule.newHumidityRule humid_home = (true, rule', h')
    /\ AutomationRule.run 5 rule' h' = (true, rule'', h'')
    /\ AirConditioner.fanSpeed (ac (devices h')) = "high"
    /\ AutomationRule.triggerCount rule'' = 2%Z.
Proof.
  destruct (humidity_rule_refires 3 5 AutomationRule.newHumidityRule (of_Z 70) humid_home)
    as (rule' & rule'' & h' & h'' & Hrun & Hrun' & _ & _ & Hfan & _ & Hcount);
    [vm_compute; reflexivity .. |].
  exists rule', rule'', h', h''.
  exact (conj Hrun (conj Hrun' (conj Hfan Hcount))).
Defined.

(** ** The temperature buttons *)

Lemma heater_setTargetTemperature_fst (now : Z) (temp : number) (this : WaterHeater.t)
    (gw : IoTGateway.t) :
  fst (WaterHeater.setTargetTemperature now temp this gw)
  = Device.set_own (c := Device.CWaterHeater)
      (Device.mkWaterHeater (Math_max (of_Z 30) (Math_min (of_Z 70) temp))
         (WaterHeater.currentWaterTemp this) (WaterHeater.isHeating this)) this.
Proof.
  unfold WaterHeater.setTargetTemperature. cbv zeta.
  match goal with |- context [if ?b then _ else _] => destruct b end; reflexivity.
Qed.

Lemma adjustACTemp_target (now : Z) (delta : number) (h : Home) :
  AirConditioner.targetTemperature (ac (devices (adjustACTemp now delta h)))
  = Math_max (of_Z 16)
      (Math_min (of_Z 30) (add (AirConditioner.targetTemperature (ac (devices h))) delta)).
Proof.
  unfold adjustACTemp. rewrite on_ac_devices. cbn [ac set_ac].
  rewrite setTargetTemperature_fst. reflexivity.
Qed.

Lemma adjustWaterHeaterTemp_target (now : Z) (delta : number) (h : Home) :
  WaterHeater.targetTemperature (waterHeater (devices (adjustWaterHeaterTemp now delta h)))
  = Math_max (of_Z 30)
      (Math_min (of_Z 70)
         (add (WaterHeater.targetTemperature (waterHeater (devices h))) delta)).
Proof.
  unfold adjustWaterHeaterTemp. rewrite on_waterHeater_devices. cbn [waterHeater set_waterHeater].
  rewrite heater_setTargetTemperature_fst. reflexivity.
Qed.

(** Splits an integer of a small range into its values. *)
Ltac small_cases k :=
  destruct k as [| k | k]; try lia;
  do 7 (try (destruct k as [k | k |]; try lia)).

Lemma ac_step_up (k : Z) :
  (16 <= k <= 30)%Z ->
  Math_max (of_Z 16) (Math_min (of_Z 30) (add (of_Z k) (of_Z 1))) = of_Z (Z.min 30 (k + 1)).
Proof. intros H. small_cases k; vm_compute; reflexivity. Qed.

Lemma ac_step_down (k : Z) :
  (16 <= k <= 30)%Z ->
  Math_max (of_Z 16) (Math_min (of_Z 30) (add (of_Z k) (of_Z (-1))))
  = of_Z (Z.max 16 (k - 1)).
Proof. intros H. small_cases k; vm_compute; reflexivity. Qed.

Lemma heater_step_up (k : Z) :
  (6 <= k <= 14)%Z ->
  Math_max (of_Z 30) (Math_min (of_Z 70) (add (of_Z (5 * k)) (of_Z 5)))
  = of_Z (5 * Z.min 14 (k + 1)).
Proof. intros H. small_cases k; vm_compute; reflexivity. Qed.

Lemma heater_step_down (k : Z) :
  (6 <= k <= 14)%Z ->
  Math_max (of_Z 30) (Math_min (of_Z 70) (add (of_Z (5 * k)) (of_Z (-5))))
  = of_Z (5 * Z.max 6 (k - 1)).
Proof. intros H. small_cases k; vm_compute; reflexivity. Qed.

(** X16.  The air conditioner's "+" and "-" buttons move a target of [k]
    whole degrees, [16 <= k <= 30], to [min 30 (k + 1)] and [max 16 (k - 1)]
    exactly: the buttons saturate at the bounds, and after any sequence of
    presses the target is still a whole number of degrees between 16 and
    30. *)
Theorem ac_buttons_keep_whole_degrees (presses : list (Z * bool)) (now : Z) (k : Z)
    (h : Home) :
  (16 <= k <= 30)%Z ->
  AirConditioner.targetTemperature (ac (devices h)) = of_Z k ->
  AirConditioner.targetTemperature (ac (devices (adjustACTemp now (of_Z 1) h)))
  = of_Z (Z.min 30 (k + 1))
  /\ AirConditioner.targetTemperature (ac (devices (adjustACTemp now (of_Z (-1)) h)))
     = of_Z (Z.max 16 (k - 1))
  /\ whole_degrees 16 30
       (AirConditioner.targetTemperature (ac (devices (press_ac presses h)))).
Proof.
  intros Hk Htarget.
  split; [rewrite adjustACTemp_target, Htarget; apply ac_step_up, Hk |].
  split; [rewrite adjustACTemp_target, Htarget; apply ac_step_down, Hk |].
  revert k h Hk Htarget.
  induction presses as [| [now' up] rest IH]; intros k h Hk Htarget.
  - exists k. split; assumption.
  - cbn [press_ac]. destruct up.
    + apply (IH (Z.min 30 (k + 1))); [lia |].
      rewrite adjustACTemp_target, Htarget. apply ac_step_up, Hk.
    + apply (IH (Z.max 16 (k - 1))); [lia |].
      rewrite adjustACTemp_target, Htarget. apply ac_step_down, Hk.
Qed.

Lemma ac_buttons_keep_whole_degrees_witness :
  AirConditioner.targetTemperature
    (ac (devices (adjustACTemp 4 (of_Z 1) (home (started_world 0)))))
  = of_Z 25
  /\ whole_degrees 16 30
       (AirConditioner.targetTemperature
          (ac (devices (press_ac (repeat (4%Z, true) 9) (home (started_world 0)))))).
Proof.
  destruct (ac_buttons_keep_whole_degrees (repeat (4%Z, true) 9) 4 24
              (home (started_world 0)) ltac:(lia) ltac:(vm_compute; reflexivity)) as (Hup & _ & Hall).
  split; [exact Hup | exact Hall].
Defined.

(** X17.  The water heater's buttons step by 5: from a target of [5 k]
    degrees, [6 <= k <= 14], "+" gives [5 (min 14 (k + 1))] and "-" gives
    [5 (max 6 (k - 1))], so after any sequence of presses the target is a
    multiple of 5 between 30 and 70. *)
Theorem heater_buttons_keep_steps (presses : list (Z * bool)) (now : Z) (k : Z)
    (h : Home) :
  (6 <= k <= 14)%Z ->
  WaterHeater.targetTemperature (waterHeater (devices h)) = of_Z (5 * k) ->
  WaterHeater.targetTemperature
    (waterHeater (devices (adjustWaterHeaterTemp now (of_Z 5) h)))
  = of_Z (5 * Z.min 14 (k + 1))
  /\ WaterHeater.targetTemperature
       (waterHeater (devices (adjustWaterHeaterTemp now (of_Z (-5)) h)))
     = of_Z (5 * Z.max 6 (k - 1))
  /\ heater_step
       (WaterHeater.targetTemperature (waterHeater (devices (press_heater presses h)))).
Proof.
  intros Hk Htarget.
  split; [rewrite adjustWaterHeaterTemp_target, Htarget; apply heater_step_up, Hk |].
  split; [rewrite adjustWaterHeaterTemp_target, Htarget; apply heater_step_down, Hk |].
  revert k h Hk Htarget.
  induction presses as [| [now' up] rest IH]; intros k h Hk Htarget.
  - exists k. split; assumption.
  - cbn [press_heater]. destruct up.
    + apply (IH (Z.min 14 (k + 1))); [lia |].
      rewrite adjustWaterHeaterTemp_target, Htarget. apply heater_step_up, Hk.
    + apply (IH (Z.max 6 (k - 1))); [lia |].
      rewrite adjustWaterHeaterTemp_target, Htarget. apply heater_step_down, Hk.
Qed.

Lemma heater_buttons_keep_steps_witness :
  WaterHeater.targetTemperature
    (waterHeater (devices (adjustWaterHeaterTemp 4 (of_Z (-5)) (home (started_world 0)))))
  = of_Z 45
  /\ heater_step
       (WaterHeater.targetTemperature
          (waterHeater (devices (press_heater (repeat (4%Z, false) 9)
                                   (home (started_world 0)))))).
Proof.
  destruct (heater_buttons_keep_steps (repeat (4%Z, false) 9) 4 10
              (home (started_world 0)) ltac:(lia) ltac:(vm_compute; reflexivity)) as (_ & Hdown & Hall).
  split; [exact Hdown | exact Hall].
Defined.

(** ** Reading the logs back *)

Lemma last_skipn {A : Type} (k : nat) (l : list A) (d : A) :
  (k < List.length l)%nat -> last (skipn k l) d = last l d.
Proof.
  revert l. induction k as [| k IH]; intros l Hk; [reflexivity |].
  destruct l as [| a l]; [simpl in Hk; lia |].
  simpl in Hk. cbn [skipn]. rewrite IH by lia.
  destruct l; [simpl in Hk; lia | reflexivity].
Qed.

Lemma lastn_last {A : Type} (n : nat) (l : list A) (d : A) :
  (0 < n)%nat -> last (lastn n l) d = last l d.
Proof.
  intros Hn. destruct l as [| a l]; [reflexivity |].
  unfold lastn. apply last_skipn.
  change (List.length (a :: l)) with (S (List.length l)). lia.
Qed.

Lemma lastn_suffix {A : Type} (n : nat) (l : list A) :
  exists older : list A, l = older ++ lastn n l.
Proof.
  exists (firstn (List.length l - n) l). unfold lastn.
  symmetry. apply firstn_skipn.
Qed.

Lemma push_capped_last_any {A : Type} (cap : nat) (arr : list A) (x d : A) :
  (0 < cap)%nat -> last (push_capped cap arr x) d = x.
Proof.
  intros Hcap. unfold push_capped. cbv zeta.
  destruct (Nat.ltb_spec cap (List.length (arr ++ [x]))) as [Hfull | Hroom].
  - destruct arr as [| a arr]; [simpl in Hfull; lia |].
    cbn [app List.tl].
    destruct arr; [reflexivity | apply last_last].
  - apply last_last.
Qed.

(** X18.  [getMessageLog] after a [publish]: whatever the log held, the
    result has at most 20 entries, it is the tail end of the stored log, and
    its last entry is the message just published, with its topic and
    timestamp. *)
Theorem getMessageLog_after_publish (now : Z) (topic : string) (message : Payload)
    (g : IoTGateway.t) (d : IoTGateway.LogEntry) :
  let g' := IoTGateway.publish now topic message g in
  (List.length (IoTGateway.getMessageLog g') <= 20)%nat
  /\ (exists older, IoTGateway.messageLog g' = older ++ IoTGateway.getMessageLog g')
  /\ last (IoTGateway.getMessageLog g') d = IoTGateway.mkLogEntry topic message now.
Proof.
  intros g'. change (IoTGateway.getMessageLog g') with (lastn 20 (IoTGateway.messageLog g')).
  split; [rewrite lastn_length; lia |].
  split; [apply lastn_suffix |].
  rewrite lastn_last by lia. subst g'. rewrite publish_messageLog.
  apply push_capped_last_any. lia.
Qed.

(** ** Rules removed from the engine *)

Section JSMapDelete.
Context {V : Type}.
Implicit Types (k : string) (v : V) (m : JSMap.t V).

Lemma JSMap_get_none_keys k m : JSMap.get k m = None <-> ~ In k (JSMap.keys m).
Proof.
  unfold JSMap.keys. induction m as [| [k' v'] m IH]; simpl; [tauto |].
  destruct (String.eqb_spec k' k) as [-> | Hne].
  - split; [discriminate | intros H; exfalso; apply H; left; reflexivity].
  - rewrite IH. split; [intros H [Heq | Hin]; [congruence | exact (H Hin)] | tauto].
Qed.

Lemma JSMap_get_delete_same k m :
  NoDup (JSMap.keys m) -> JSMap.get k (JSMap.delete k m) = None.
Proof.
  unfold JSMap.keys. induction m as [| [k' v'] m IH]; simpl; [reflexivity |].
  intros Hnd. inversion Hnd as [| ? ? Hnotin Hrest]; subst.
  destruct (String.eqb_spec k' k) as [-> | Hne].
  - apply JSMap_get_none_keys. exact Hnotin.
  - simpl. destruct (String.eqb_spec k' k); [congruence |]. apply IH, Hrest.
Qed.

Lemma JSMap_get_delete_other k k' m :
  k' <> k -> JSMap.get k' (JSMap.delete k m) = JSMap.get k' m.
Proof.
  intros Hne. induction m as [| [k0 v0] m IH]; simpl; [reflexivity |].
  destruct (String.eqb_spec k0 k) as [-> | Hk0]; simpl.
  - destruct (String.eqb_spec k k'); [congruence | reflexivity].
  - destruct (String.eqb k0 k'); [reflexivity | exact IH].
Qed.

End JSMapDelete.

(** X19.  [removeRule(id)] removes that rule and no other.  In an engine
    whose keys are distinct, as a Map's are, after [removeRule(id)]:
    [toggleRule(id)] returns [undefined], [enableRule(id)] and
    [disableRule(id)] do nothing, every other rule is still found, and an
    evaluation pass yields no rule under that key. *)
Theorem removeRule_forgets (now : Z) (id : string) (e : AutomationEngine.t) (h : Home) :
  NoDup (JSMap.keys (AutomationEngine.rules e)) ->
  let e' := AutomationEngine.removeRule id e in
  AutomationEngine.toggleRule id e' = (None, e')
  /\ AutomationEngine.enableRule id e' = e'
  /\ AutomationEngine.disableRule id e' = e'
  /\ (forall id', id' <> id ->
        JSMap.get id' (AutomationEngine.rules e') = JSMap.get id' (AutomationEngine.rules e))
  /\ JSMap.get id (AutomationEngine.rules (fst (AutomationEngine.evaluate now e' h))) = None.
Proof.
  intros Hnd e'.
  assert (Hgone : JSMap.get id (AutomationEngine.rules e') = None)
    by (apply JSMap_get_delete_same, Hnd).
  split; [unfold AutomationEngine.toggleRule; rewrite Hgone; reflexivity |].
  split; [unfold AutomationEngine.enableRule; rewrite Hgone; reflexivity |].
  split; [unfold AutomationEngine.disableRule; rewrite Hgone; reflexivity |].
  split; [intros id' Hne; apply JSMap_get_delete_other, Hne |].
  apply JSMap_get_none_keys. apply JSMap_get_none_keys in Hgone.
  intros Hin. apply Hgone.
  assert (Hkeys : JSMap.keys (AutomationEngine.rules (fst (AutomationEngine.evaluate now e' h)))
                  = JSMap.keys (AutomationEngine.rules e')).
  { unfold AutomationEngine.evaluate.
    generalize (AutomationEngine.activityLog e') as log.
    generalize (AutomationEngine.rules e') as entries. clear. intros entries.
    revert h. induction entries as [| [k rule] rest IH]; intros h log; [reflexivity |].
    cbn [AutomationEngine.forEach_rule].
    destruct (AutomationRule.run now rule h) as [[triggered rule'] h1].
    match goal with
    | |- context [AutomationEngine.forEach_rule now rest ?l h1] =>
        specialize (IH h1 l);
        destruct (AutomationEngine.forEach_rule now rest l h1) as [[rest' log''] h2]
    end.
    cbn [fst snd AutomationEngine.rules] in *. unfold JSMap.keys in *.
    cbn [map fst]. f_equal. exact IH. }
  rewrite <- Hkeys. exact Hin.
Qed.

Lemma removeRule_forgets_witness :
  AutomationEngine.toggleRule "hvac-off"
    (AutomationEngine.removeRule "hvac-off" automationEngine)
  = (None, AutomationEngine.removeRule "hvac-off" automationEngine)
  /\ JSMap.get "lighting-on"
       (AutomationEngine.rules (AutomationEngine.removeRule "hvac-off" automationEngine))
     = JSMap.get "lighting-on" (AutomationEngine.rules automationEngine).
Proof.
  assert (Hnd : NoDup (JSMap.keys (AutomationEngine.rules automationEngine))).
  { vm_compute. repeat constructor; simpl; intuition discriminate. }
  destruct (removeRule_forgets 0 "hvac-off" automationEngine (home (started_world 0)) Hnd)
    as (Htoggle & _ & _ & Hothers & _).
  split; [exact Htoggle | apply Hothers; discriminate].
Defined.

(** ** The power sensor *)

Lemma sensor_setValue_registry (now : Z) (r : SenRef) (x : jsval) (h : Home) :
  IoTGateway.devices (gateway (sensor_setValue now r x h)) = IoTGateway.devices (gateway h).
Proof.
  destruct r; unfold sensor_setValue, Sensor.setValue, MotionSensor.setValue; cbv zeta;
    match goal with |- context [if ?b then _ else _] => destruct b end;
    cbn [gateway]; rewrite ?publish_devices; reflexivity.
Qed.

(** X20.  [PowerSensor.simulate] shows the real consumption: with the power
    sensor's range 0 to 5000 and a total in that range, the sensor's value
    after [simulate] equals [getTotalPowerConsumption()]; no device and no
    registration changes, so the total is the same afterwards.  A total
    above 5000 is shown as 5000. *)
Theorem power_sensor_reads_total (now : Z) (h : Home) :
  Sensor.minValue (power (sensors h)) = of_Z 0 ->
  Sensor.maxValue (power (sensors h)) = of_Z 5000 ->
  let h' := PowerSensor_simulate now h in
  (within (of_Z 0) (of_Z 5000) (getTotalPowerConsumption h) ->
   eqb (Sensor.value (power (sensors h'))) (getTotalPowerConsumption h) = true)
  /\ (ltb (of_Z 5000) (getTotalPowerConsumption h) = true ->
      Sensor.value (power (sensors h')) = of_Z 5000)
  /\ devices h' = devices h
  /\ getTotalPowerConsumption h' = getTotalPowerConsumption h.
Proof.
  intros Hmin Hmax h'.
  assert (Hvalue : Sensor.value (power (sensors h'))
                   = Math_max (of_Z 0) (Math_min (of_Z 5000) (getTotalPowerConsumption h))).
  { subst h'. unfold PowerSensor_simulate. rewrite sensor_setValue_sensors.
    cbn [power]. rewrite Sensor_setValue_fst. cbv zeta.
    rewrite Hmin, Hmax. reflexivity. }
  assert (Hdevices : devices h' = devices h) by apply sensor_setValue_devices.
  split; [| split; [| split]].
  - intros Hin. rewrite Hvalue. apply Math_clamp_inside; [reflexivity | exact Hin].
  - intros Hover. rewrite Hvalue. apply Math_clamp_above; [reflexivity | exact Hover].
  - exact Hdevices.
  - unfold getTotalPowerConsumption, getAllDevices. rewrite Hdevices.
    subst h'. unfold PowerSensor_simulate. rewrite sensor_setValue_registry. reflexivity.
Qed.

Lemma power_sensor_reads_total_witness :
  eqb (Sensor.value (power (sensors (PowerSensor_simulate 9 lit_home))))
      (getTotalPowerConsumption lit_home) = true.
Proof.
  destruct (power_sensor_reads_total 9 lit_home) as (Hshown & _);
    [vm_compute; reflexivity .. |].
  apply Hshown. vm_compute. split; reflexivity.
Defined.

(** ** The mode buttons *)

Lemma setMode_fst (now : Z) (mode : string) (this : AirConditioner.t) (gw : IoTGateway.t) :
  fst (AirConditioner.setMode now mode this gw)
  = if includes AirConditioner.validModes mode
    then Device.set_own (c := Device.CAirConditioner)
           (Device.mkAirConditioner mode (AirConditioner.targetTemperature this)
              (AirConditioner.fanSpeed this)) this
    else this.
Proof.
  unfold AirConditioner.setMode.
  destruct (includes AirConditioner.validModes mode); [| reflexivity].
  destruct this as [i n o m [|] w]; reflexivity.
Qed.

Lemma setACMode_watts (now : Z) (mode : string) (h : Home) :
  Device.isOn (ac (devices h)) = true ->
  Device.maxPowerWatts (ac (devices h)) = of_Z 1500 ->
  includes AirConditioner.validModes mode = true ->
  Device.getCurrentPowerConsumption (ac (devices (setACMode now mode h)))
  = mul (of_Z 1500) (Device.multiplier mode).
Proof.
  intros Hon Hmax Hvalid. unfold setACMode. rewrite on_ac_devices. cbn [ac set_ac].
  rewrite setMode_fst, Hvalid, AirConditioner_power.
  cbn [Device.isOn Device.set_own Device.maxPowerWatts]. rewrite Hon, Hmax. reflexivity.
Qed.

(** X21.  What the mode buttons do to the consumption: for an air
    conditioner that is on and rated 1500 W, [setACMode] leaves it drawing
    exactly 1500 W in "cool", 1800 W in "heat", 1200 W in "auto" and 150 W
    in "fan"; a string that is none of the four modes changes nothing in
    the home, and nothing is published. *)
Theorem setACMode_power (now : Z) (mode : string) (h : Home) :
  Device.isOn (ac (devices h)) = true ->
  Device.maxPowerWatts (ac (devices h)) = of_Z 1500 ->
  Device.getCurrentPowerConsumption (ac (devices (setACMode now "cool" h))) = of_Z 1500
  /\ Device.getCurrentPowerConsumption (ac (devices (setACMode now "heat" h))) = of_Z 1800
  /\ Device.getCurrentPowerConsumption (ac (devices (setACMode now "auto" h))) = of_Z 1200
  /\ Device.getCurrentPowerConsumption (ac (devices (setACMode now "fan" h))) = of_Z 150
  /\ (includes AirConditioner.validModes mode = false -> setACMode now mode h = h).
Proof.
  intros Hon Hmax.
  split; [rewrite (setACMode_watts now "cool" h Hon Hmax eq_refl); vm_compute; reflexivity |].
  split; [rewrite (setACMode_watts now "heat" h Hon Hmax eq_refl); vm_compute; reflexivity |].
  split; [rewrite (setACMode_watts now "auto" h Hon Hmax eq_refl); vm_compute; reflexivity |].
  split; [rewrite (setACMode_watts now "fan" h Hon Hmax eq_refl); vm_compute; reflexivity |].
  intros Hbad. unfold setACMode, on_ac, AirConditioner.setMode. rewrite Hbad.
  destruct h as [ss [l1 l2 l3 a w] g]. reflexivity.
Qed.

Lemma setACMode_power_witness :
  Device.getCurrentPowerConsumption (ac (devices (setACMode 9 "heat" cooled_home)))
  = of_Z 1800
  /\ setACMode 9 "dry" cooled_home = cooled_home.
Proof.
  destruct (setACMode_power 9 "dry" cooled_home) as (_ & Hheat & _ & _ & Hbad);
    [vm_compute; reflexivity .. |].
  split; [exact Hheat | apply Hbad; reflexivity].
Defined.
